(** * lilipod: container lifecycle core

    A shallow embedding of the launch orchestrator
    ([pkg/containerutils]) and of the network namespace manager
    ([pkg/netns]), together with the properties of the design
    specification that concern them.

    Layout of the development:
    - [MD5]: the digest used by [GetID] (crypto/md5, RFC 1321);
    - [Strs]: [strings.Split], [strconv.ParseInt] and the path helpers of
      [path/filepath];
    - [Utils]: the records exchanged with the other packages;
    - [Host]: the host the program runs on: file system, process table,
      results of system calls, and the trace of what was asked of it;
    - [Netns]: [pkg/netns/netns.go];
    - [Containerutils]: [pkg/containerutils/*.go];
    - [Sample] and the scenarios: hosts and records to run the model on;
    - the vocabulary of the properties, then the properties by topic. *)

From Stdlib Require Import ZArith Lia Ascii String.
From stdpp Require Import base strings pretty list gmap sets.

Local Open Scope Z_scope.

Set Warnings "-register-all".

(* ===================================================================== *)
(** ** crypto/md5 *)
(* ===================================================================== *)

Module MD5.

Definition mask32 (x : Z) : Z := Z.land x 0xffffffff.

Definition not32 (x : Z) : Z := Z.lxor x 0xffffffff.

Definition rotl32 (x c : Z) : Z :=
  mask32 (Z.lor (Z.shiftl x c) (Z.shiftr x (32 - c))).

(** floor(2^32 * abs(sin(i+1))) *)
Definition K : list Z :=
  [ 0xd76aa478; 0xe8c7b756; 0x242070db; 0xc1bdceee; 0xf57c0faf; 0x4787c62a;
    0xa8304613; 0xfd469501; 0x698098d8; 0x8b44f7af; 0xffff5bb1; 0x895cd7be;
    0x6b901122; 0xfd987193; 0xa679438e; 0x49b40821; 0xf61e2562; 0xc040b340;
    0x265e5a51; 0xe9b6c7aa; 0xd62f105d; 0x02441453; 0xd8a1e681; 0xe7d3fbc8;
    0x21e1cde6; 0xc33707d6; 0xf4d50d87; 0x455a14ed; 0xa9e3e905; 0xfcefa3f8;
    0x676f02d9; 0x8d2a4c8a; 0xfffa3942; 0x8771f681; 0x6d9d6122; 0xfde5380c;
    0xa4beea44; 0x4bdecfa9; 0xf6bb4b60; 0xbebfbc70; 0x289b7ec6; 0xeaa127fa;
    0xd4ef3085; 0x04881d05; 0xd9d4d039; 0xe6db99e5; 0x1fa27cf8; 0xc4ac5665;
    0xf4292244; 0x432aff97; 0xab9423a7; 0xfc93a039; 0x655b59c3; 0x8f0ccc92;
    0xffeff47d; 0x85845dd1; 0x6fa87e4f; 0xfe2ce6e0; 0xa3014314; 0x4e0811a1;
    0xf7537e82; 0xbd3af235; 0x2ad7d2bb; 0xeb86d391 ].

Definition shifts : list Z :=
  [ 7; 12; 17; 22; 7; 12; 17; 22; 7; 12; 17; 22; 7; 12; 17; 22;
    5; 9; 14; 20; 5; 9; 14; 20; 5; 9; 14; 20; 5; 9; 14; 20;
    4; 11; 16; 23; 4; 11; 16; 23; 4; 11; 16; 23; 4; 11; 16; 23;
    6; 10; 15; 21; 6; 10; 15; 21; 6; 10; 15; 21; 6; 10; 15; 21 ].

Record digest := Digest { dA : Z; dB : Z; dC : Z; dD : Z }.

Definition init : digest :=
  Digest 0x67452301 0xefcdab89 0x98badcfe 0x10325476.

(** One of the 64 operations of a block; [M] holds its 16 words. *)
Definition op (M : list Z) (st : digest) (i : nat) : digest :=
  let '(Digest a b c d) := st in
  let r := (i / 16)%nat in
  let f :=
    match r with
    | 0%nat => Z.lor (Z.land b c) (Z.land (not32 b) d)
    | 1%nat => Z.lor (Z.land d b) (Z.land (not32 d) c)
    | 2%nat => Z.lxor b (Z.lxor c d)
    | _ => Z.lxor c (Z.lor b (not32 d))
    end in
  let g :=
    match r with
    | 0%nat => i
    | 1%nat => ((5 * i + 1) mod 16)%nat
    | 2%nat => ((3 * i + 5) mod 16)%nat
    | _ => ((7 * i) mod 16)%nat
    end in
  let f' := mask32 (f + a + nth i K 0 + nth g M 0) in
  Digest d (mask32 (b + rotl32 f' (nth i shifts 0))) b c.

Definition word_le (b0 b1 b2 b3 : Z) : Z :=
  b0 + 256 * b1 + 65536 * b2 + 16777216 * b3.

Fixpoint words (bs : list Z) : list Z :=
  match bs with
  | b0 :: b1 :: b2 :: b3 :: rest => word_le b0 b1 b2 b3 :: words rest
  | _ => []
  end.

Definition block (st : digest) (bs : list Z) : digest :=
  let M := words bs in
  let st' := fold_left (op M) (seq 0 64) st in
  Digest (mask32 (dA st + dA st')) (mask32 (dB st + dB st'))
         (mask32 (dC st + dC st')) (mask32 (dD st + dD st')).

Fixpoint blocks (n : nat) (st : digest) (bs : list Z) : digest :=
  match n with
  | O => st
  | S n' => blocks n' (block st (take 64 bs)) (drop 64 bs)
  end.

Definition le_bytes (n : nat) (x : Z) : list Z :=
  map (fun k => Z.land (Z.shiftr x (8 * Z.of_nat k)) 255) (seq 0 n).

Definition pad (msg : list Z) : list Z :=
  let len := Z.of_nat (length msg) in
  let zeros := Z.to_nat ((55 - len) mod 64) in
  msg ++ [128] ++ replicate zeros 0 ++ le_bytes 8 ((8 * len) mod 2 ^ 64).

Definition sum (msg : list Z) : list Z :=
  let p := pad msg in
  let d := blocks (length p / 64) init p in
  le_bytes 4 (dA d) ++ le_bytes 4 (dB d) ++ le_bytes 4 (dC d) ++ le_bytes 4 (dD d).

Definition hexdigits : list ascii :=
  [ "0"; "1"; "2"; "3"; "4"; "5"; "6"; "7";
    "8"; "9"; "a"; "b"; "c"; "d"; "e"; "f" ]%char.

Definition hex_digit (n : Z) : ascii := nth (Z.to_nat n) hexdigits "0"%char.

(** [fmt.Sprintf("%x", bytes)] *)
Fixpoint hex (bs : list Z) : string :=
  match bs with
  | [] => EmptyString
  | b :: rest =>
      String (hex_digit (Z.shiftr b 4)) (String (hex_digit (Z.land b 15)) (hex rest))
  end.

Definition bytes_of_string (s : string) : list Z :=
  map (fun c => Z.of_N (N_of_ascii c)) (list_ascii_of_string s).

(** [hasher := md5.New(); io.WriteString(hasher, s); fmt.Sprintf("%x", hasher.Sum(nil))] *)
Definition hexsum (s : string) : string := hex (sum (bytes_of_string s)).

Definition is_hex_char (c : ascii) : bool :=
  bool_decide (c ∈ hexdigits).

Fixpoint all_hex (s : string) : bool :=
  match s with
  | EmptyString => true
  | String c s' => is_hex_char c && all_hex s'
  end.

End MD5.

(* ===================================================================== *)
(** ** strings, strconv and path/filepath *)
(* ===================================================================== *)

Module Strs.

Abbreviation path := (list string).

(** Pieces of [s] between occurrences of the byte [c]. *)
Fixpoint split_char (c : ascii) (s : string) : list string :=
  match s with
  | EmptyString => [EmptyString]
  | String a s' =>
      if Ascii.eqb a c then EmptyString :: split_char c s'
      else match split_char c s' with
           | h :: t => String a h :: t
           | [] => [String a EmptyString]
           end
  end.

(** The loop of [strings.genSplit] for a non-empty separator: cut at
    each occurrence found from the left, and resume after it ([skip]
    counts the bytes of the occurrence still to pass). *)
Fixpoint split_go (sep : string) (skip : nat) (s : string) : list string :=
  match s with
  | EmptyString => [EmptyString]
  | String a s' =>
      match skip with
      | S k => split_go sep k s'
      | O =>
          if String.prefix sep s
          then EmptyString :: split_go sep (String.length sep - 1) s'
          else match split_go sep 0 s' with
               | h :: t => String a h :: t
               | [] => [String a EmptyString]
               end
      end
  end.

(** [strings.Split]. With an empty separator Go explodes the string
    into its UTF-8 sequences, which are its bytes for ASCII text. *)
Definition Split (s sep : string) : list string :=
  match sep with
  | EmptyString => map (fun c => String c EmptyString) (list_ascii_of_string s)
  | _ => split_go sep 0 s
  end.

(** [bytes.Contains] *)
Fixpoint Contains (s sub : string) : bool :=
  String.prefix sub s ||
  match s with
  | EmptyString => false
  | String _ s' => Contains s' sub
  end.

Definition digit_val (c : ascii) : option Z :=
  let n := Z.of_N (N_of_ascii c) in
  if (48 <=? n) && (n <=? 57) then Some (n - 48) else None.

Fixpoint digits_val (acc : Z) (s : string) : option Z :=
  match s with
  | EmptyString => Some acc
  | String c s' =>
      match digit_val c with
      | Some d => digits_val (10 * acc + d) s'
      | None => None
      end
  end.

(** [strconv.ParseInt(s, 10, 32)]: an optional sign, at least one
    decimal digit, and a value that fits 32 bits. *)
Definition ParseInt32 (s : string) : option Z :=
  let '(neg, body) :=
    match s with
    | String "-"%char r => (true, r)
    | String "+"%char r => (false, r)
    | _ => (false, s)
    end in
  match body with
  | EmptyString => None
  | _ =>
      match digits_val 0 body with
      | Some v =>
          let v' := if neg then - v else v in
          if (- 2 ^ 31 <=? v') && (v' <=? 2 ^ 31 - 1) then Some v' else None
      | None => None
      end
  end.

(** One element of the scan of [filepath.Clean] over a rooted path. *)
Definition push (stack : path) (c : string) : path :=
  if decide (c = EmptyString) then stack
  else if decide (c = ".") then stack
  else if decide (c = "..") then removelast stack
  else stack ++ [c].

(** [filepath.Join(base, elem)] for a rooted, clean [base], which is
    kept as the list of its components ([[]] is the root). *)
Definition Join (base : path) (elem : string) : path :=
  fold_left push (split_char "/" elem) base.

(** [filepath.Base] *)
Definition Base (p : string) : string :=
  match last (filter (fun c => c <> EmptyString) (split_char "/" p)) with
  | Some c => c
  | None => if decide (p = EmptyString) then "." else "/"
  end.

(** The string a path stands for. *)
Definition render (p : path) : string :=
  match p with
  | [] => "/"
  | _ => fold_right (fun c acc => "/" +:+ c +:+ acc) EmptyString p
  end.

End Strs.

(* ===================================================================== *)
(** ** Records exchanged with the other packages *)
(* ===================================================================== *)

Module Utils.

(** Modelled from the spec: [utils.Config] is declared outside the
    files at hand; the fields are those of the ContainerRecord of the
    data model, under the names the code uses. *)
Record Config := {
  ID : string;
  Names : string;
  Created : string;
  Hostname : string;
  Image : string;
  Entrypoint : list string;
  Env : list string;
  Workdir : string;
  User : string;
  Labels : list string;
  Uidmap : string;
  Gidmap : string;
  Userns : string;
  Ipc : string;
  Pid : string;
  Cgroup : string;
  Network : string;
  Status : string;
  Size : string
}.

Definition set_Status (c : Config) (v : string) : Config :=
  {| ID := ID c; Names := Names c; Created := Created c; Hostname := Hostname c;
     Image := Image c; Entrypoint := Entrypoint c; Env := Env c; Workdir := Workdir c;
     User := User c; Labels := Labels c; Uidmap := Uidmap c; Gidmap := Gidmap c;
     Userns := Userns c; Ipc := Ipc c; Pid := Pid c; Cgroup := Cgroup c;
     Network := Network c; Status := v; Size := Size c |}.

Definition set_Size (c : Config) (v : string) : Config :=
  {| ID := ID c; Names := Names c; Created := Created c; Hostname := Hostname c;
     Image := Image c; Entrypoint := Entrypoint c; Env := Env c; Workdir := Workdir c;
     User := User c; Labels := Labels c; Uidmap := Uidmap c; Gidmap := Gidmap c;
     Userns := Userns c; Ipc := Ipc c; Pid := Pid c; Cgroup := Cgroup c;
     Network := Network c; Status := Status c; Size := v |}.

(** [syscall.SysProcAttr], the fields the code sets. *)
Record SysProcAttr := {
  Setsid : bool;
  Setpgid : bool;
  Foreground : bool;
  Credential : option (Z * Z)
}.

(** [exec.Cmd]. [IDMaps] is what [procutils.SetProcessKeepIDMaps]
    leaves on the command. *)
Record Cmd := {
  Path : string;
  Args : list string;
  Attr : option SysProcAttr;
  IDMaps : option (string * string)
}.

End Utils.

(* ===================================================================== *)
(** ** The host *)
(* ===================================================================== *)

Module Host.

Export Strs.
Export Utils.

(** *** Errors *)

Inductive errno :=
| EPERM | ENOENT | ESRCH | EACCES | EBUSY | EEXIST
| ENOTDIR | EISDIR | EINVAL | ENOTEMPTY.

(** Go [error] values: a system error, [errors.New] / [fmt.Errorf]
    without a cause, [fmt.Errorf("...: %w", err)], and
    [fmt.Errorf("...: %v", errs)] over a slice of errors. *)
Inductive error :=
| Errno (e : errno)
| ErrNew (msg : string)
| ErrWrap (msg : string) (cause : error)
| ErrAll (msg : string) (causes : list error).

Definition as_error (r : option errno) : option error :=
  match r with Some e => Some (Errno e) | None => None end.

Inductive result (A : Type) :=
| Ok (a : A)
| Err (e : error).
Arguments Ok {A} a.
Arguments Err {A} e.

(** *** File system *)

Inductive kind := KFile (data : string) | KDir.

(** [nd_mounts] counts the mounts stacked on the node. *)
Record node := Node { nd_kind : kind; nd_perm : Z; nd_mounts : nat }.

Abbreviation fsmap := (gmap path node).

Definition is_dir_node (n : node) : bool :=
  match nd_kind n with KDir => true | KFile _ => false end.

(** Modelled from the spec: [fileutils.Exist] is outside the files at
    hand; a path exists when the file system has a node for it, and the
    root always does. *)
Definition exist (fs : fsmap) (p : path) : bool :=
  match p with
  | [] => true
  | _ => match fs !! p with Some _ => true | None => false end
  end.

Definition is_dir (fs : fsmap) (p : path) : bool :=
  match p with
  | [] => true
  | _ => match fs !! p with Some n => is_dir_node n | None => false end
  end.

Definition below (p q : path) : Prop := p `prefix_of` q /\ p <> q.

Definition has_entries (fs : fsmap) (p : path) : Prop :=
  map_Exists (fun q _ => below p q) fs.

#[global] Instance has_entries_dec fs p : Decision (has_entries fs p).
Proof. unfold has_entries, below. apply _. Defined.

(** [os.MkdirAll]: walk down from [base], creating what is missing. *)
Fixpoint mkdir_from (base : path) (rest : list string) (perm : Z) (fs : fsmap)
  : fsmap * option errno :=
  match rest with
  | [] => (fs, None)
  | c :: rest' =>
      let p := base ++ [c] in
      match fs !! p with
      | Some n =>
          if is_dir_node n then mkdir_from p rest' perm fs else (fs, Some ENOTDIR)
      | None => mkdir_from p rest' perm (<[p := Node KDir perm 0]> fs)
      end
  end.

Definition mkdir_all (p : path) (perm : Z) (fs : fsmap) : fsmap * option errno :=
  mkdir_from [] p perm fs.

(** [os.WriteFile]: open with O_WRONLY|O_CREATE|O_TRUNC, write, close.
    Modelled from the spec: [fileutils.WriteFile], which is outside the
    files at hand, is taken to be the same. *)
Definition write_file (p : path) (data : string) (perm : Z) (fs : fsmap)
  : fsmap * option errno :=
  match p with
  | [] => (fs, Some EISDIR)
  | _ =>
      match fs !! p with
      | Some n =>
          match nd_kind n with
          | KDir => (fs, Some EISDIR)
          | KFile _ => (<[p := Node (KFile data) (nd_perm n) (nd_mounts n)]> fs, None)
          end
      | None =>
          if is_dir fs (removelast p)
          then (<[p := Node (KFile data) perm 0]> fs, None)
          else if exist fs (removelast p) then (fs, Some ENOTDIR)
          else (fs, Some ENOENT)
      end
  end.

(** Modelled from the spec: [fileutils.ReadFile] is outside the files
    at hand; the bytes of a regular file, or an error. *)
Definition read_file (p : path) (fs : fsmap) : result string :=
  match fs !! p with
  | Some n =>
      match nd_kind n with
      | KFile d => Ok d
      | KDir => Err (Errno EISDIR)
      end
  | None => Err (Errno ENOENT)
  end.

(** [os.Remove]: unlink or rmdir. *)
Definition remove (p : path) (fs : fsmap) : fsmap * option errno :=
  match fs !! p with
  | None => (fs, Some (if decide (p = []) then EBUSY else ENOENT))
  | Some n =>
      if decide (0 < nd_mounts n)%nat then (fs, Some EBUSY)
      else if decide (has_entries fs p) then (fs, Some ENOTEMPTY)
      else (delete p fs, None)
  end.

(** A path at or below [r] that is a mount point, or leads to one,
    cannot be removed. *)
Definition pinned (r : path) (fs : fsmap) (p : path) : Prop :=
  map_Exists (fun m n => (0 < nd_mounts n)%nat /\ r `prefix_of` m /\ p `prefix_of` m) fs.

Definition survives (r : path) (fs : fsmap) (e : path * node) : Prop :=
  ~ r `prefix_of` e.1 \/ pinned r fs e.1.

#[global] Instance survives_dec r fs e : Decision (survives r fs e).
Proof. unfold survives, pinned. apply _. Defined.

(** [os.RemoveAll]: remove what can be removed at and below [r]; no
    error when [r] does not exist. *)
Definition remove_all (r : path) (fs : fsmap) : fsmap * option errno :=
  let fs' := filter (survives r fs) fs in
  (fs', if decide (r = []) then Some EBUSY
        else if decide (map_Forall (fun q _ => ~ r `prefix_of` q) fs') then None
        else Some EBUSY).

(** [umount2(p, 0)]: take the topmost mount off [p]. *)
Definition umount (p : path) (fs : fsmap) : fsmap * option errno :=
  match fs !! p with
  | Some n =>
      match nd_mounts n with
      | S k => (<[p := Node (nd_kind n) (nd_perm n) k]> fs, None)
      | O => (fs, Some EINVAL)
      end
  | None => (fs, Some (if decide (p = []) then EINVAL else ENOENT))
  end.

(** A successful [mount(src, p, "none", MS_BIND)] stacks one more
    mount on [p]. *)
Definition bind_mount (p : path) (fs : fsmap) : fsmap * option errno :=
  match fs !! p with
  | Some n => (<[p := Node (nd_kind n) (nd_perm n) (S (nd_mounts n))]> fs, None)
  | None => (fs, Some ENOENT)
  end.

(** Exchange the leading [old] of a path for [new] and the other way
    round. *)
Definition swap_prefix (old new : path) (k : path) : path :=
  if decide (old `prefix_of` k) then new ++ drop (length old) k
  else if decide (new `prefix_of` k) then old ++ drop (length new) k
  else k.

(** [os.Rename], rename(2): [old] and what is below it move to [new].
    An existing [new] is replaced when it is of the kind of [old] and
    has no entries. The move is written as the exchange of the two
    prefixes: where every entry has its parent, nothing is below [new]
    when the call gets that far. *)
Definition rename_tree (old new : path) (fs : fsmap) : fsmap * option errno :=
  match fs !! old with
  | None => (fs, Some (if decide (old = []) then EBUSY else ENOENT))
  | Some n =>
      if decide (old = new) then (fs, None)
      else if decide (old `prefix_of` new) then (fs, Some EINVAL)
      else if decide (new `prefix_of` old) then (fs, Some ENOTEMPTY)
      else if decide (0 < nd_mounts n)%nat then (fs, Some EBUSY)
      else
        match fs !! new with
        | Some n' =>
            if decide (0 < nd_mounts n')%nat then (fs, Some EBUSY)
            else if negb (is_dir_node n) && is_dir_node n' then (fs, Some EISDIR)
            else if is_dir_node n && negb (is_dir_node n') then (fs, Some ENOTDIR)
            else if decide (has_entries fs new) then (fs, Some ENOTEMPTY)
            else (kmap (swap_prefix old new) (delete new fs), None)
        | None =>
            if is_dir fs (removelast new)
            then (kmap (swap_prefix old new) fs, None)
            else if exist fs (removelast new) then (fs, Some ENOTDIR)
            else (fs, Some ENOENT)
        end
  end.

(** *** What the program asks of the host *)

(** File modes 0700, 0600 and 0755, as the calls pass them (the umask
    of the process is not modelled). *)
Definition perm_0700 : Z := 448.
Definition perm_0600 : Z := 384.
Definition perm_0755 : Z := 493.

Inductive signal := SIGTERM | SIGKILL.

Inductive runmode :=
| WithTTY                        (* procutils.RunWithTTY *)
| Interactive                    (* procutils.RunInteractive *)
| Detached (logfile : path).     (* procutils.RunDetached *)

Inductive call :=
| Unshare (flags : Z)
| Mount (source target : path) (flags : Z)
| Umount (target : path)
| MkdirAll (p : path) (perm : Z)
| WriteFile (p : path) (perm : Z)
| Remove (p : path)
| RemoveAll (p : path)
| Kill (pid : Z) (sig : signal)          (* unix.Kill *)
| ProcStart (argv : list string)         (* exec.Cmd.Start *)
| ProcSignal (pid : Z) (sig : signal)    (* os.Process.Signal, os.Process.Kill *)
| ProcWait (pid : Z)                     (* os.Process.Wait *)
| RunSelf (args : list string)           (* exec.Command(os.Args[0], ...).Run() *)
| RunChild (m : runmode) (c : Cmd)
| ReadProc                               (* os.ReadDir("/proc") and the reads below it *)
| Sleep.                                 (* time.Sleep(time.Second) *)

(** The compile-time constants of [pkg/constants] whose values the
    files at hand do not fix. *)
Record constants := {
  FilterSeparator : string;
  PtyAgentPath : string
}.

(** Everything the program reads from its surroundings and everything
    the surroundings decide. The file system is deterministic and part
    of the state below; the results of the other calls depend on the
    calls made so far. [e_proc t] is the listing of /proc after [t]
    seconds of waiting: entry names with the contents of
    /proc/<entry>/root/run/.containerenv where readable.
    [e_home] and [e_bin] are [utils.GetLilipodHome()] and
    [utils.LilipodBinPath], [e_loglevel] is [logging.GetLogLevel()],
    [e_run] gives the result of the runners of [procutils] and of
    [exec.Cmd.Run], [e_marshal], [e_marshal_indent] and [e_unmarshal]
    are those of [encoding/json], [e_template] parses a template of
    [text/template] into its execution, [e_du] is
    [fileutils.DiscUsageMegaBytes] and [e_idmaps] the verdict of
    [procutils.SetProcessKeepIDMaps] on two map specs. *)
Record env := {
  e_arg0 : string;
  e_pid : Z;
  e_uid : Z;
  e_getenv : string -> string;
  e_loglevel : string;
  e_home : path;
  e_bin : path;
  e_proc : nat -> result (list (string * option string));
  e_sys : list call -> call -> option errno;
  e_spawn : list call -> list string -> result Z;
  e_run : list call -> call -> option error;
  e_marshal : Config -> result string;
  e_marshal_indent : Config -> result string;
  e_unmarshal : string -> option Config;
  e_template : string -> result (Config -> result string);
  e_du : path -> result string;
  e_idmaps : string -> string -> option error
}.

Record host := { fs : fsmap; clock : nat; trace : list call }.

Definition io (A : Type) : Type := host -> A * host.

#[global] Instance io_ret : MRet io := fun A a h => (a, h).
#[global] Instance io_bind : MBind io :=
  fun A B f m h => let '(a, h') := m h in f a h'.

Definition logged (c : call) (h : host) : host :=
  {| fs := fs h; clock := clock h; trace := trace h ++ [c] |}.

Definition read {A} (f : fsmap -> A) : io A := fun h => (f (fs h), h).

(** A call on the file system. *)
Definition fsop (c : call) (f : fsmap -> fsmap * option errno) : io (option errno) :=
  fun h =>
    let '(fs', r) := f (fs h) in
    (r, {| fs := fs'; clock := clock h; trace := trace h ++ [c] |}).

Section Calls.
Variable E : env.

(** A call whose result the surroundings decide. *)
Definition syscall (c : call) : io (option errno) :=
  fun h => (e_sys E (trace h) c, logged c h).

Definition mount (source target : path) (flags : Z) : io (option errno) :=
  fun h =>
    match e_sys E (trace h) (Mount source target flags) with
    | Some e => (Some e, logged (Mount source target flags) h)
    | None => fsop (Mount source target flags) (bind_mount target) h
    end.

Definition spawn (argv : list string) : io (result Z) :=
  fun h => (e_spawn E (trace h) argv, logged (ProcStart argv) h).

(** Running a child to its end, or one second of sleep, lets time
    pass. *)
Definition run (c : call) : io (option error) :=
  fun h => (e_run E (trace h) c,
            {| fs := fs h; clock := S (clock h); trace := trace h ++ [c] |}).

Definition sleep : io unit :=
  fun h => (tt, {| fs := fs h; clock := S (clock h); trace := trace h ++ [Sleep] |}).

End Calls.

End Host.

(* ===================================================================== *)
(** ** pkg/netns/netns.go *)
(* ===================================================================== *)

Module Netns.

Export Host.

Definition CLONE_NEWNET : Z := 0x40000000.
Definition MS_BIND : Z := 4096.

(** The three paths are results of [filepath.Join] on "/run/user",
    hence rooted and clean; [slirpProcess] holds the pid of the
    process handle. *)
Record NetworkNamespace := {
  ContainerID : string;
  RuntimeDir : path;
  NetNSMountPath : path;
  SlirpAPISocket : path;
  slirpProcess : option Z
}.

Definition with_slirp (n : NetworkNamespace) (pid : Z) : NetworkNamespace :=
  {| ContainerID := ContainerID n; RuntimeDir := RuntimeDir n;
     NetNSMountPath := NetNSMountPath n; SlirpAPISocket := SlirpAPISocket n;
     slirpProcess := Some pid |}.

Section WithEnv.
Variable E : env.

Definition runtime_dir (containerID : string) : path :=
  Join (Join (Join ["run"; "user"] (pretty (e_uid E))) "lilipod") containerID.

Definition New (containerID : string) : io (result NetworkNamespace) :=
  let runtimeDir := runtime_dir containerID in
  r ← fsop (MkdirAll runtimeDir perm_0700) (mkdir_all runtimeDir perm_0700);
  match r with
  | Some e => mret (Err (ErrWrap "failed to create runtime directory" (Errno e)))
  | None =>
      mret (Ok {| ContainerID := containerID;
                  RuntimeDir := runtimeDir;
                  NetNSMountPath := Join runtimeDir "netns";
                  SlirpAPISocket := Join runtimeDir "slirp.sock";
                  slirpProcess := None |})
  end.

Definition Setup (n : NetworkNamespace) : io (option error) :=
  r ← syscall E (Unshare CLONE_NEWNET);
  match r with
  | Some e => mret (Some (ErrWrap "failed to unshare network namespace" (Errno e)))
  | None =>
      let netnsProcPath := ["proc"; pretty (e_pid E); "ns"; "net"] in
      r ← fsop (WriteFile (NetNSMountPath n) perm_0600)
               (write_file (NetNSMountPath n) EmptyString perm_0600);
      match r with
      | Some e => mret (Some (ErrWrap "failed to create netns mount point" (Errno e)))
      | None =>
          r ← mount E netnsProcPath (NetNSMountPath n) MS_BIND;
          match r with
          | Some e =>
              _ ← fsop (Remove (NetNSMountPath n)) (remove (NetNSMountPath n));
              mret (Some (ErrWrap "failed to bind mount network namespace" (Errno e)))
          | None => mret None
          end
      end
  end.

Definition slirp_argv (n : NetworkNamespace) (targetPid : Z) : list string :=
  [ render (Join (e_bin E) "slirp4netns");
    "--configure"; "--mtu=65520"; "-r"; "/etc/resolv.conf";
    "-a"; render (SlirpAPISocket n); pretty targetPid; "tap0" ].

(** The receiver is a pointer: the updated record is returned. *)
Definition StartSlirp (n : NetworkNamespace) (targetPid : Z)
  : io (NetworkNamespace * option error) :=
  let slirpPath := Join (e_bin E) "slirp4netns" in
  found ← read (fun fs => exist fs slirpPath);
  if negb found
  then mret (n, Some (ErrWrap "slirp4netns binary not found, ensure dependencies are set up"
                        (Errno ENOENT)))
  else
    r ← spawn E (slirp_argv n targetPid);
    match r with
    | Err e => mret (n, Some (ErrWrap "failed to start slirp4netns" e))
    | Ok pid => mret (with_slirp n pid, None)
    end.

(** The first part of [Cleanup]: the slirp4netns process. *)
Definition stop_slirp (n : NetworkNamespace) : io (list error) :=
  match slirpProcess n with
  | Some pid =>
      r ← syscall E (ProcSignal pid SIGTERM);
      errors ←
        match r with
        | Some e =>
            let errors := [ErrWrap "failed to send SIGTERM to slirp4netns" (Errno e)] in
            r ← syscall E (ProcSignal pid SIGKILL);
            match r with
            | Some e' =>
                mret (errors ++ [ErrWrap "failed to kill slirp4netns" (Errno e')])
            | None => mret errors
            end
        | None => mret []
        end;
      _ ← syscall E (ProcWait pid);
      mret errors
  | None => mret []
  end.

Definition Cleanup (n : NetworkNamespace) : io (option error) :=
  errors ← stop_slirp n;
  r ← fsop (Umount (NetNSMountPath n)) (umount (NetNSMountPath n));
  let errors :=
    match r with
    | Some e => errors ++ [ErrWrap "failed to unmount network namespace" (Errno e)]
    | None => errors
    end in
  r ← fsop (Remove (NetNSMountPath n)) (remove (NetNSMountPath n));
  let errors :=
    match r with
    | Some e => errors ++ [ErrWrap "failed to remove netns mount point" (Errno e)]
    | None => errors
    end in
  r ← fsop (Remove (SlirpAPISocket n)) (remove (SlirpAPISocket n));
  let errors :=
    match r with
    | Some ENOENT => errors
    | Some e => errors ++ [ErrWrap "failed to remove slirp API socket" (Errno e)]
    | None => errors
    end in
  r ← fsop (RemoveAll (RuntimeDir n)) (remove_all (RuntimeDir n));
  let errors :=
    match r with
    | Some e => errors ++ [ErrWrap "failed to remove runtime directory" (Errno e)]
    | None => errors
    end in
  match errors with
  | [] => mret None
  | _ => mret (Some (ErrAll "cleanup errors" errors))
  end.


End WithEnv.

End Netns.

(* ===================================================================== *)
(** ** pkg/containerutils *)
(* ===================================================================== *)

Module Containerutils.

Export Netns.

(** Clone flags from /usr/include/linux/sched.h *)
Definition CLONE_NEWNS : Z := 0x00020000.
Definition CLONE_NEWUTS : Z := 0x04000000.
Definition CLONE_NEWIPC : Z := 0x08000000.
Definition CLONE_NEWUSER : Z := 0x10000000.
Definition CLONE_NEWPID : Z := 0x20000000.
Definition CLONE_NEWCGROUP : Z := 0x02000000.

(** Modelled from the spec: the isolation-mode strings and the truth
    value of the rootful override, which [pkg/constants] declares. *)
Definition KeepID : string := "keep-id".
Definition Private : string := "private".
Definition TrueString : string := "true".

Definition streq (a b : string) : bool := bool_decide (a = b).

Section WithEnv.
Variable C : constants.
Variable E : env.

Definition ContainerDir : path := Join (e_home E) "containers".

(** *** container_utils.go *)

(** Writing to the hasher returns no error, so that the branch of
    [GetID] that returns the empty string is never taken. *)
Definition GetID (fs : fsmap) (name : string) : string :=
  if exist fs (Join ContainerDir name) then name else MD5.hexsum name.

Definition GetDir (fs : fsmap) (name : string) : path :=
  Join ContainerDir (GetID fs name).

Definition GetRootfsDir (fs : fsmap) (name : string) : path :=
  Join (GetDir fs name) "rootfs".

(** The loop of [GetPid] over the entries of /proc. *)
Fixpoint find_pid (id : string) (processes : list (string * option string))
  : Z * option error :=
  match processes with
  | [] => (-1, Some (ErrNew ("container " +:+ id +:+ " is not running")))
  | (name, filedata) :: rest =>
      match filedata with
      | None => find_pid id rest
      | Some data =>
          if Contains data id
          then match ParseInt32 name with
               | Some pid => (pid, None)
               | None => (-1, Some (ErrNew "strconv.ParseInt: invalid syntax"))
               end
          else find_pid id rest
      end
  end.

Definition GetPid (id : string) : io (Z * option error) :=
  fun h =>
    let id := GetID (fs h) id in
    match e_proc E (clock h) with
    | Err e => ((-1, Some e), logged ReadProc h)
    | Ok processes => (find_pid id processes, logged ReadProc h)
    end.

Definition IsRunning (name : string) : io bool :=
  '(pid, err) ← GetPid name;
  mret ((0 <? pid) && match err with None => true | Some _ => false end).

(** What one entry of the filter map adds to [matched]. *)
Definition filter_entry (config : Config) (name filter : string) (matched : Z) : Z :=
  if streq name "label" then
    let labels := Split filter (FilterSeparator C) in
    fold_left
      (fun m containerLabel =>
         fold_left
           (fun m filterLabel => if streq containerLabel filterLabel then m + 1 else m)
           labels m)
      (Labels config) matched
  else if streq name "status" then
    (if streq (Status config) filter then matched + 1 else matched)
  else if streq name "name" then
    (if streq (Names config) filter then matched + 1 else matched)
  else if streq name "id" then
    (if streq (ID config) filter then matched + 1 else matched)
  else matched.

Definition filterContainer (config : Config) (filters : gmap string string) : bool :=
  if decide (size filters = 0)%nat then true
  else
    let matched := map_fold (filter_entry config) 0 filters in
    let filterLen := Z.of_nat (size filters) in
    filterLen <=? matched.

(** Modelled from the spec: [utils.LoadConfig] is outside the files
    at hand; "load(path) -> record | NotFound | CorruptConfig". *)
Definition NotFound : error := Errno ENOENT.
Definition CorruptConfig : error := ErrNew "corrupt config".

Definition LoadConfig (p : path) : io (result Config) :=
  r ← read (read_file p);
  match r with
  | Err _ => mret (Err NotFound)
  | Ok data =>
      match e_unmarshal E data with
      | Some config => mret (Ok config)
      | None => mret (Err CorruptConfig)
      end
  end.

Definition GetContainerInfo (container : string) (size : bool)
           (filters : gmap string string) : io (option Config * option error) :=
  let configPath := Join (Join ContainerDir container) "config" in
  r ← LoadConfig configPath;
  match r with
  | Err _ =>
      (* in case of invalid container, let's cleanup the mess. *)
      r ← run E (RunSelf ["rm"; container]);
      mret (None, r)
  | Ok config =>
      if negb (filterContainer config filters) then mret (None, None)
      else
        isRunning ← IsRunning (Names config);
        let state : string := if (isRunning : bool) then "running" else "stopped" in
        if size then
          match e_du E (Join ContainerDir container) with
          | Err e => mret (None, Some e)
          | Ok directorySize =>
              mret (Some (set_Size (set_Status config state) directorySize), None)
          end
        else mret (Some (set_Size (set_Status config state) EmptyString), None)
  end.

(** The loop of [Stop] after SIGTERM. [None] when [fuel] iterations
    did not reach a return. *)
Fixpoint stop_wait (fuel : nat) (name : string) (containerPid timeout : Z)
  : io (option (option error)) :=
  match fuel with
  | O => mret None
  | S fuel' =>
      if timeout <=? 0 then
        r ← syscall E (Kill containerPid SIGKILL);
        mret (Some (as_error r))
      else
        _ ← sleep;
        '(containerPid, _) ← GetPid name;
        if containerPid <? 1 then mret (Some None)
        else stop_wait fuel' name containerPid (timeout - 1)
  end.

Definition Stop (fuel : nat) (name : string) (force : bool) (timeout : Z)
  : io (option (option error)) :=
  '(containerPid, err) ← GetPid name;
  match err with
  | Some e => mret (Some (Some e))
  | None =>
      if force then
        r ← syscall E (Kill containerPid SIGKILL);
        mret (Some (as_error r))
      else
        r ← syscall E (Kill containerPid SIGTERM);
        match r with
        | Some e => mret (Some (Some (Errno e)))
        | None => stop_wait fuel name containerPid timeout
        end
  end.

Fixpoint Inspect_from (result : string) (containers : list string) (size : bool)
         (format : string) : io (string * option error) :=
  match containers with
  | [] => mret (result, None)
  | container :: rest =>
      container ← read (fun fs => GetID fs container);
      let configPath := Join (Join ContainerDir container) "config" in
      r ← LoadConfig configPath;
      match r with
      | Err e => mret (EmptyString, Some e)
      | Ok config =>
          isRunning ← IsRunning (Names config);
          let state : string := if (isRunning : bool) then "running" else "stopped" in
          let config := set_Status config state in
          match (if size
                 then match e_du E (Join ContainerDir container) with
                      | Err e => Err e
                      | Ok directorySize => Ok (set_Size config directorySize)
                      end
                 else Ok config) with
          | Err e => mret (EmptyString, Some e)
          | Ok config =>
              if negb (streq format EmptyString) then
                match e_template E format with
                | Err e => mret (EmptyString, Some e)
                | Ok tmpl =>
                    match tmpl config with
                    | Err e => mret (EmptyString, Some e)
                    | Ok out => Inspect_from (result +:+ out) rest size format
                    end
                end
              else
                match e_marshal_indent E config with
                | Err e => mret (EmptyString, Some e)
                | Ok out =>
                    Inspect_from (result +:+ out +:+ String "010"%char EmptyString)
                                 rest size format
                end
          end
      end
  end.

Definition Inspect (containers : list string) (size : bool) (format : string)
  : io (string * option error) :=
  Inspect_from EmptyString containers size format.

(** *** network.go *)

Definition setupNetworking (config : Config) : io (result (option NetworkNamespace)) :=
  if negb (streq (Network config) "private") then mret (Ok None)
  else
    r ← New E (ID config);
    match r with
    | Err e => mret (Err (ErrWrap "failed to create network namespace" e))
    | Ok ns =>
        r ← Setup E ns;
        match r with
        | Some e =>
            _ ← Cleanup E ns;
            mret (Err (ErrWrap "failed to set up network namespace" e))
        | None => mret (Ok (Some ns))
        end
    end.

Definition cleanupNetworking (ns : option NetworkNamespace) : io (option error) :=
  match ns with
  | None => mret None
  | Some n =>
      r ← Cleanup E n;
      match r with
      | Some e => mret (Some (ErrWrap "failed to clean up network namespace" e))
      | None => mret None
      end
  end.

(** *** The enter command (generateEnterCommand) *)

(** Modelled from the spec: [procutils.SetProcessKeepIDMaps] is
    outside the files at hand; it arranges that the UID/GID maps are
    written from the two specs when the child starts. *)
Definition SetProcessKeepIDMaps (cmd : Cmd) (uidMaps gidMaps : string) : result Cmd :=
  match e_idmaps E uidMaps gidMaps with
  | Some e => Err e
  | None =>
      Ok {| Path := Path cmd; Args := Args cmd; Attr := Attr cmd;
            IDMaps := Some (uidMaps, gidMaps) |}
  end.

Definition keep_id (config : Config) : bool :=
  streq (Userns config) KeepID && negb (streq (e_getenv E "ROOTFUL") TrueString).

(** [cloneFlags] when the unshare call is made. *)
Definition flags_at_unshare (config : Config) : Z :=
  let cloneFlags := 0 in
  let cloneFlags := Z.lor cloneFlags (Z.lor CLONE_NEWNS CLONE_NEWUTS) in
  let cloneFlags :=
    if keep_id config then Z.lor cloneFlags CLONE_NEWUSER else cloneFlags in
  let cloneFlags :=
    if streq (Ipc config) Private then Z.lor cloneFlags CLONE_NEWIPC else cloneFlags in
  cloneFlags.

(** [cloneFlags] after the last update of the function. *)
Definition flags_at_return (config : Config) : Z :=
  let cloneFlags := flags_at_unshare config in
  let cloneFlags :=
    if streq (Pid config) Private then Z.lor cloneFlags CLONE_NEWPID else cloneFlags in
  let cloneFlags :=
    if streq (Cgroup config) Private then Z.lor cloneFlags CLONE_NEWCGROUP else cloneFlags in
  cloneFlags.

Definition enter_attr : SysProcAttr :=
  {| Setsid := true; Setpgid := true; Foreground := false;
     Credential := Some (0, 0) |}.

Definition default_idmap : string := "1000:100000:65536".

Definition generateEnterCommand (config : Config) : io (result Cmd) :=
  match e_marshal E config with
  | Err _ => mret (Err (ErrNew "invalid config"))
  | Ok configArg =>
      (* this is our child process that will enter the container effectively *)
      let cmd :=
        {| Path := e_arg0 E;
           Args := [e_arg0 E; "--log-level"; e_loglevel E; "enter"; "--config"; configArg];
           Attr := Some enter_attr;
           IDMaps := None |} in
      let cloneFlags := flags_at_unshare config in
      r ← (if decide (cloneFlags = 0) then mret None
           else syscall E (Unshare cloneFlags));
      match r with
      | Some errno => mret (Err (ErrWrap "failed to unshare namespaces" (Errno errno)))
      | None =>
          r ← (if streq (Network config) Private then
                 r ← setupNetworking config;
                 match r with
                 | Err e => mret (Some e)
                 | Ok None =>
                     (* a nil receiver: not reached, the guard of
                        setupNetworking is the one just passed *)
                     mret (Some (ErrNew "nil pointer dereference"))
                 | Ok (Some ns) =>
                     '(ns, err) ← StartSlirp E ns (e_pid E);
                     match err with
                     | Some e =>
                         _ ← cleanupNetworking (Some ns);
                         mret (Some (ErrWrap "failed to start slirp4netns" e))
                     | None => mret None
                     end
                 end
               else mret None);
          match r with
          | Some e => mret (Err e)
          | None =>
              (* the last two updates of cloneFlags, see
                 [flags_at_return]; the variable is not read again *)
              let cloneFlags :=
                if streq (Pid config) Private
                then Z.lor cloneFlags CLONE_NEWPID else cloneFlags in
              let cloneFlags :=
                if streq (Cgroup config) Private
                then Z.lor cloneFlags CLONE_NEWCGROUP else cloneFlags in
              if keep_id config then
                let uidMaps :=
                  if streq (Uidmap config) EmptyString then default_idmap
                  else Uidmap config in
                let gidMaps :=
                  if streq (Gidmap config) EmptyString then default_idmap
                  else Gidmap config in
                mret (SetProcessKeepIDMaps cmd uidMaps gidMaps)
              else mret (Ok cmd)
          end
      end
  end.

(** *** start.go *)

Definition append_tty (cmd : Cmd) : Cmd :=
  {| Path := Path cmd; Args := Args cmd ++ ["--tty"]; Attr := Attr cmd;
     IDMaps := IDMaps cmd |}.

(** The dispatch of [Start] on the I/O mode. *)
Definition launch_child (interactive tty : bool) (path : Strs.path) (cmd : Cmd)
  : io (option error) :=
  if tty then run E (RunChild WithTTY (append_tty cmd))
  else if interactive then run E (RunChild Interactive cmd)
  else run E (RunChild (Detached (Join path "../current-logs")) cmd).

(** The last block of [Start]: slirp4netns after the container process.
    The first component is what [Start] returns. The second is the value
    that the variable [err] of the function holds at that return, which
    the deferred cleanup reads: the errors of this block are bound to
    variables of their own, so it is nil. *)
Definition attach_slirp (config : Config) (ns : option NetworkNamespace)
           (startErr : option error) : io (option error * option error) :=
  match ns with
  | Some n =>
      '(pid, err) ← GetPid (ID config);
      match err with
      | Some e => mret (Some (ErrWrap "failed to get container PID" e), None)
      | None =>
          '(_, err) ← StartSlirp E n pid;
          match err with
          | Some e => mret (Some (ErrWrap "failed to start slirp4netns" e), None)
          | None => mret (startErr, None)
          end
      end
  | None => mret (startErr, None)
  end.

(** [Start] from the call of generateEnterCommand on; the components
    of the result are those of [attach_slirp]. *)
Definition Start_launch (interactive tty : bool) (config : Config) (path : Strs.path)
           (ns : option NetworkNamespace) : io (option error * option error) :=
  r ← generateEnterCommand config;
  match r with
  | Err e => mret (Some e, Some e)
  | Ok cmd =>
      startErr ← launch_child interactive tty path cmd;
      attach_slirp config ns startErr
  end.

Definition inject_agent (path : Strs.path) (ptyFile : string) : io (option error) :=
  found ← read (fun fs => exist fs (Join path (PtyAgentPath C)));
  if negb found then
    r ← fsop (MkdirAll (Join path (Base (PtyAgentPath C))) perm_0755)
             (mkdir_all (Join path (Base (PtyAgentPath C))) perm_0755);
    match r with
    | Some e => mret (Some (Errno e))
    | None =>
        r ← fsop (WriteFile (Join path (PtyAgentPath C)) perm_0755)
                 (write_file (Join path (PtyAgentPath C)) ptyFile perm_0755);
        match r with
        | Some e => mret (Some (Errno e))
        | None => mret None
        end
    end
  else mret None.

Definition Start (interactive tty : bool) (config : Config) : io (option error) :=
  path ← read (fun fs => GetRootfsDir fs (ID config));
  r ← read (read_file (Join (e_bin E) "pty"));
  match r with
  | Err e => mret (Some e)
  | Ok ptyFile =>
      r ← inject_agent path ptyFile;
      match r with
      | Some e => mret (Some e)
      | None =>
          found ← read (fun fs => exist fs (Join path (PtyAgentPath C)));
          if negb found then
            mret (Some (ErrNew ("failed to inject agent in "
                                  +:+ render (Join path (PtyAgentPath C)))))
          else if streq (Network config) "private" then
            r ← setupNetworking config;
            match r with
            | Err e => mret (Some e)
            | Ok ns =>
                '(ret, err) ← Start_launch interactive tty config path ns;
                _ ← match err with
                    | Some _ => cleanupNetworking ns
                    | None => mret None
                    end;
                mret ret
            end
          else
            '(ret, _) ← Start_launch interactive tty config path None;
            mret ret
      end
  end.

(** *** GetRandomName *)

Definition letters : list ascii :=
  list_ascii_of_string "abcdefghijklmnopqrstuvwxyz0123456789".

(** Six runes, each [letters[randInt]]; [draw k] is the [k]-th number
    that crypto/rand hands out. An index outside the slice panics:
    [None]. *)
Definition random_runes (draw : nat -> nat) (from : nat) : option (list ascii) :=
  mapM (fun i => letters !! draw (from + i)%nat) (seq 0 6).

Definition GetRandomName (draw : nat -> nat) : option string :=
  match random_runes draw 0, random_runes draw 6 with
  | Some string1, Some string2 =>
      Some (string_of_list_ascii string1 +:+ "_" +:+ string_of_list_ascii string2)
  | _, _ => None
  end.

(** *** Rename *)

Definition perm_0644 : Z := 420.

(** Modelled from the spec: [utils.SaveConfig] is outside the files at
    hand; "save(record, path): atomic-enough replace", the record being
    serialized as JSON in the config file. *)
Definition SaveConfig (config : Config) (p : path) (fs : fsmap) : fsmap * option error :=
  match e_marshal E config with
  | Err e => (fs, Some e)
  | Ok data =>
      let '(fs', r) := write_file p data perm_0644 fs in
      (fs', as_error r)
  end.

(** [LoadConfig] as a function of the file system, which is all it
    looks at. *)
Definition load_config (p : path) (fs : fsmap) : result Config :=
  (LoadConfig p {| fs := fs; clock := 0; trace := [] |}).1.

Definition renamed (config : Config) (name id created : string) : Config :=
  {| ID := id; Names := name; Created := created; Hostname := Hostname config;
     Image := Image config; Entrypoint := Entrypoint config; Env := Env config;
     Workdir := Workdir config; User := User config; Labels := Labels config;
     Uidmap := Uidmap config; Gidmap := Gidmap config; Userns := Userns config;
     Ipc := Ipc config; Pid := Pid config; Cgroup := Cgroup config;
     Network := Network config; Status := Status config; Size := Size config |}.

(** [Rename] asks nothing of the host but its file system, which is
    passed through; [now] is
    [time.Now().Format("2006.01.02 15:04:05")]. *)
Definition Rename (now : string) (oldContainer newContainer : string) (fs : fsmap)
  : fsmap * option error :=
  if negb (exist fs (GetDir fs oldContainer)) then
    (fs, Some (ErrNew ("container " +:+ oldContainer +:+ " does not exist")))
  else if exist fs (GetDir fs newContainer) then
    (fs, Some (ErrNew ("destination name " +:+ newContainer +:+ " for container "
                         +:+ oldContainer +:+ " already exists")))
  else
    let '(fs, r) := rename_tree (GetDir fs oldContainer) (GetDir fs newContainer) fs in
    match r with
    | Some e =>
        (fs, Some (ErrWrap ("cannot rename " +:+ oldContainer +:+ " to " +:+ newContainer)
                           (Errno e)))
    | None =>
        match load_config (Join (GetDir fs newContainer) "config") fs with
        | Err e => (fs, Some e)
        | Ok config =>
            let config := renamed config newContainer (GetID fs newContainer) now in
            SaveConfig config (Join (GetDir fs newContainer) "config") fs
        end
    end.

(** *** Exec (generateExecCommand, Exec) *)

Definition formatID (id : Z) : string := pretty id.

(** The command with its environment ([cmd.Env]). [Path] is the name
    as given to [exec.Command]. Modelled from the spec:
    [procutils.GetUIDGID], which is outside the files at hand, gives
    the "in-container UID/GID from record.user" and is the parameter
    [getUIDGID]. *)
Definition generateExecCommand (getUIDGID : string -> Z * Z)
           (containerPid : string) (tty : bool) (config : Config) : Cmd * list string :=
  let args := ["-m"; "-u"; "-U"; "--preserve-credentials"] in
  let args := if streq (Ipc config) Private then args ++ ["-i"] else args in
  let args := if streq (Network config) Private then args ++ ["-n"] else args in
  let args := if streq (Pid config) Private then args ++ ["-p"] else args in
  let '(uid, gid) := getUIDGID (User config) in
  let args := args ++ ["-S"; formatID uid] in
  let args := args ++ ["-G"; formatID gid] in
  let args := args ++ ["-r/proc/" +:+ containerPid +:+ "/root"] in
  let args := args ++ ["-w/proc/" +:+ containerPid +:+ "/root/" +:+ Workdir config] in
  let args := args ++ ["-t"; containerPid] in
  let args := if tty then args ++ [PtyAgentPath C] else args in
  let args := args ++ Entrypoint config in
  ({| Path := "nsenter"; Args := "nsenter" :: args; Attr := None; IDMaps := None |},
   Env config).

Definition Exec (getUIDGID : string -> Z * Z) (pid : Z) (interactive tty : bool)
           (config : Config) : io (option error) :=
  let containerPid := pretty pid in
  let cmd := (generateExecCommand getUIDGID containerPid tty config).1 in
  if tty then run E (RunChild WithTTY cmd)
  else if interactive && negb tty then run E (RunChild Interactive cmd)
  else
    logfile ← read (fun fs => Join (GetDir fs (Names config)) "current-logs");
    run E (RunChild (Detached logfile) cmd).

End WithEnv.

End Containerutils.

(* ===================================================================== *)
(** ** A host to run the model on *)
(* ===================================================================== *)

Module Sample.

Import Containerutils.

Definition consts : constants :=
  {| FilterSeparator := ","; PtyAgentPath := "/sbin/pty" |}.

Definition config : Config :=
  {| ID := "2567a5ec9705eb7ac2c984033e06189d"; Names := "web";
     Created := "2024.01.01 10:00:00"; Hostname := "web"; Image := "alpine:latest";
     Entrypoint := ["/bin/sh"]; Env := ["TERM=xterm"]; Workdir := "/"; User := "0:0";
     Labels := ["tier=front"; "env=prod"];
     Uidmap := EmptyString; Gidmap := EmptyString;
     Userns := "keep-id"; Ipc := "private"; Pid := "private"; Cgroup := "private";
     Network := "host"; Status := EmptyString; Size := EmptyString |}.

Definition set_Network (c : Config) (v : string) : Config :=
  {| ID := ID c; Names := Names c; Created := Created c; Hostname := Hostname c;
     Image := Image c; Entrypoint := Entrypoint c; Env := Env c; Workdir := Workdir c;
     User := User c; Labels := Labels c; Uidmap := Uidmap c; Gidmap := Gidmap c;
     Userns := Userns c; Ipc := Ipc c; Pid := Pid c; Cgroup := Cgroup c;
     Network := v; Status := Status c; Size := Size c |}.

Definition home : path := ["home"; "u"; ".local"; "share"; "lilipod"].

(** /proc lists the container process (pid 4242) once a child has been
    run or a second has passed. *)
Definition procs (t : nat) : result (list (string * option string)) :=
  match t with
  | O => Ok [("1", None); ("self", None)]
  | S _ => Ok [("1", None); ("4242", Some "engine=lilipod id=2567a5ec9705eb7ac2c984033e06189d");
               ("self", None)]
  end.

(** Every call succeeds. *)
Definition env : Host.env :=
  {| e_arg0 := "/usr/bin/lilipod"; e_pid := 4000; e_uid := 1000;
     e_getenv := fun _ => EmptyString; e_loglevel := "info";
     e_home := home; e_bin := home ++ ["bin"];
     e_proc := procs;
     e_sys := fun _ _ => None;
     e_spawn := fun _ _ => Ok 4100;
     e_run := fun _ _ => None;
     e_marshal := fun c => Ok ("{id:" +:+ ID c +:+ "}");
     e_marshal_indent := fun c => Ok ("{id:" +:+ ID c +:+ "}");
     e_unmarshal := fun s => if String.prefix "{" s then Some config else None;
     e_template := fun _ => Ok (fun c => Ok (Names c));
     e_du := fun _ => Ok "12";
     e_idmaps := fun _ _ => None |}.

Definition dir (perm : Z) : node := Node KDir perm 0.
Definition file (data : string) (perm : Z) : node := Node (KFile data) perm 0.

Definition container : path := home ++ ["containers"; "2567a5ec9705eb7ac2c984033e06189d"].

(** The program's home with its two helper binaries and one created
    container whose rootfs has no /sbin. *)
Definition disk : fsmap :=
  list_to_map
    [ (["home"], dir 493); (["home"; "u"], dir 493); (["home"; "u"; ".local"], dir 493);
      (["home"; "u"; ".local"; "share"], dir 493); (home, dir 493);
      (home ++ ["bin"], dir 493);
      (home ++ ["bin"; "pty"], file "ELF-pty" 493);
      (home ++ ["bin"; "slirp4netns"], file "ELF-slirp" 493);
      (home ++ ["containers"], dir 493);
      (container, dir 493);
      (container ++ ["config"], file "{web}" 420);
      (container ++ ["rootfs"], dir 493);
      (container ++ ["rootfs"; "bin"], dir 493);
      (["run"], dir 493); (["run"; "user"], dir 493); (["run"; "user"; "1000"], dir 448) ].

Definition boot (d : fsmap) : host := {| fs := d; clock := 0; trace := [] |}.

End Sample.

(* ===================================================================== *)
(** ** Further hosts and records for the examples *)
(* ===================================================================== *)

Section Scenarios.

Import Containerutils.

Definition rootful_env : env :=
  {| e_arg0 := e_arg0 Sample.env; e_pid := e_pid Sample.env; e_uid := 0;
     e_getenv := fun k => if streq k "ROOTFUL" then "true" else EmptyString;
     e_loglevel := e_loglevel Sample.env; e_home := e_home Sample.env;
     e_bin := e_bin Sample.env; e_proc := e_proc Sample.env;
     e_sys := e_sys Sample.env; e_spawn := e_spawn Sample.env;
     e_run := e_run Sample.env; e_marshal := e_marshal Sample.env;
     e_marshal_indent := e_marshal_indent Sample.env;
     e_unmarshal := e_unmarshal Sample.env; e_template := e_template Sample.env;
     e_du := e_du Sample.env; e_idmaps := e_idmaps Sample.env |}.

(** The sample container with a private network, on a disk whose
    rootfs has /sbin. *)
Definition private_config : Config := Sample.set_Network Sample.config "private".

Definition disk_sbin : fsmap :=
  <[Sample.container ++ ["rootfs"; "sbin"] := Sample.dir 493]> Sample.disk.

Definition rootfs : path := Sample.container ++ ["rootfs"].

(** The constants with the agent directly below the root. *)
Definition consts_pty : constants :=
  {| FilterSeparator := ","; PtyAgentPath := "/pty" |}.

(** A record that carries the same label twice. *)
Definition twice_labelled (lab : string) : Config :=
  {| ID := ID Sample.config; Names := "web"; Created := Created Sample.config;
     Hostname := Hostname Sample.config; Image := Image Sample.config;
     Entrypoint := Entrypoint Sample.config; Env := Env Sample.config;
     Workdir := Workdir Sample.config; User := User Sample.config;
     Labels := [lab; lab];
     Uidmap := EmptyString; Gidmap := EmptyString;
     Userns := Userns Sample.config; Ipc := Ipc Sample.config; Pid := Pid Sample.config;
     Cgroup := Cgroup Sample.config; Network := Network Sample.config;
     Status := "stopped"; Size := EmptyString |}.

(** A label that the separator does not cut. *)
Definition whole_label (C : constants) : string :=
  if decide (FilterSeparator C = "a") then "b" else "a".

(** The container process stays in /proc for one more second, then is
    gone. *)
Definition dying_env : env :=
  {| e_arg0 := e_arg0 Sample.env; e_pid := e_pid Sample.env; e_uid := e_uid Sample.env;
     e_getenv := e_getenv Sample.env;
     e_loglevel := e_loglevel Sample.env; e_home := e_home Sample.env;
     e_bin := e_bin Sample.env;
     e_proc := fun t => if (t <=? 2)%nat then Sample.procs t else Sample.procs 0;
     e_sys := e_sys Sample.env; e_spawn := e_spawn Sample.env;
     e_run := e_run Sample.env; e_marshal := e_marshal Sample.env;
     e_marshal_indent := e_marshal_indent Sample.env;
     e_unmarshal := e_unmarshal Sample.env; e_template := e_template Sample.env;
     e_du := e_du Sample.env; e_idmaps := e_idmaps Sample.env |}.

Definition running : host := {| fs := Sample.disk; clock := 1; trace := [] |}.

(** The sample disk with a config file that does not parse. *)
Definition disk_corrupt : fsmap :=
  <[Sample.container ++ ["config"] := Sample.file "garbage" 420]> Sample.disk.

(** The namespace of the sample container as [New] fills it in, with the
    handle of a started slirp4netns. *)
Definition sample_ns : NetworkNamespace :=
  {| ContainerID := ID Sample.config;
     RuntimeDir := runtime_dir Sample.env (ID Sample.config);
     NetNSMountPath := Join (runtime_dir Sample.env (ID Sample.config)) "netns";
     SlirpAPISocket := Join (runtime_dir Sample.env (ID Sample.config)) "slirp.sock";
     slirpProcess := Some 4100 |}.


(** The host after [setupNetworking] alone: one mount on the pin. *)
Definition after_setup : host :=
  (setupNetworking Sample.env private_config (Sample.boot disk_sbin)).2.

(** The sample host on which mounting is not permitted. *)
Definition no_mount_env : env :=
  {| e_arg0 := e_arg0 Sample.env; e_pid := e_pid Sample.env; e_uid := e_uid Sample.env;
     e_getenv := e_getenv Sample.env;
     e_loglevel := e_loglevel Sample.env; e_home := e_home Sample.env;
     e_bin := e_bin Sample.env; e_proc := e_proc Sample.env;
     e_sys := fun _ c => match c with Mount _ _ _ => Some EPERM | _ => None end;
     e_spawn := e_spawn Sample.env;
     e_run := e_run Sample.env; e_marshal := e_marshal Sample.env;
     e_marshal_indent := e_marshal_indent Sample.env;
     e_unmarshal := e_unmarshal Sample.env; e_template := e_template Sample.env;
     e_du := e_du Sample.env; e_idmaps := e_idmaps Sample.env |}.

(** The sample host once [New] has made the runtime directory. *)
Definition after_new : host :=
  (New Sample.env (ID Sample.config) (Sample.boot Sample.disk)).2.

(** The sample host on which the container process never shows up in
    /proc. *)
Definition lost_env : env :=
  {| e_arg0 := e_arg0 Sample.env; e_pid := e_pid Sample.env; e_uid := e_uid Sample.env;
     e_getenv := e_getenv Sample.env;
     e_loglevel := e_loglevel Sample.env; e_home := e_home Sample.env;
     e_bin := e_bin Sample.env; e_proc := fun _ => Sample.procs 0;
     e_sys := e_sys Sample.env; e_spawn := e_spawn Sample.env;
     e_run := e_run Sample.env; e_marshal := e_marshal Sample.env;
     e_marshal_indent := e_marshal_indent Sample.env;
     e_unmarshal := e_unmarshal Sample.env; e_template := e_template Sample.env;
     e_du := e_du Sample.env; e_idmaps := e_idmaps Sample.env |}.

(** An ID provider for the examples. *)
Definition root_ids (user : string) : Z * Z := (0, 0).

End Scenarios.

(* ===================================================================== *)
(** ** The vocabulary of the properties *)
(* ===================================================================== *)

Section Vocabulary.

Import Containerutils.

(** [emits P m]: running [m] only appends calls to the trace, and every
    call it appends satisfies [P]. *)
Definition emits {A} (P : call -> Prop) (m : io A) : Prop :=
  forall h, exists l, trace (m h).2 = trace h ++ l /\ Forall P l.

Definition has_flag (flags f : Z) : Prop := Z.land flags f = f.

(** An unshare call that asks neither for a PID nor for a cgroup
    namespace; any other call. *)
Definition no_pid_cgroup (c : call) : Prop :=
  match c with
  | Unshare flags => Z.land flags CLONE_NEWPID = 0 /\ Z.land flags CLONE_NEWCGROUP = 0
  | _ => True
  end.

(** The calls made before the first child is run. *)
Fixpoint before_child (calls : list call) : list call :=
  match calls with
  | [] => []
  | RunChild _ _ :: _ => []
  | c :: rest => c :: before_child rest
  end.

(** The target-PID argument of a slirp4netns start (see [slirp_argv]). *)
Definition slirp_target (c : call) : option string :=
  match c with
  | ProcStart argv => argv !! 7%nat
  | _ => None
  end.

Definition slirp_targets (calls : list call) : list string :=
  omap slirp_target calls.


Definition has_child (calls : list call) : bool :=
  existsb (fun c => match c with RunChild _ _ => true | _ => false end) calls.

(** What [GetPid] answers on disk [d] after [t] seconds. *)
Definition poll (E : env) (name : string) (d : fsmap) (t : nat) : Z * option error :=
  (GetPid E name {| fs := d; clock := t; trace := [] |}).1.

Definition resolves (E : env) (name : string) (d : fsmap) (t : nat) : Prop :=
  1 <= (poll E name d t).1.

(** [k] rounds of the loop: a second of sleep, then a query. *)
Definition rounds (k : nat) : list call := concat (replicate k [Sleep; ReadProc]).

Definition after_rounds (h : host) (k : nat) : host :=
  {| fs := fs h; clock := clock h + k; trace := trace h ++ rounds k |}.

Definition not_sigterm (c : call) : Prop :=
  match c with Kill _ SIGTERM => False | _ => True end.

Definition config_path (E : env) (container : string) : path :=
  Join (Join (ContainerDir E) container) "config".


(** The four steps of [Cleanup] on the file system. *)
Definition cleanup_fs (n : NetworkNamespace) (d : fsmap) : fsmap :=
  let d1 := (umount (NetNSMountPath n) d).1 in
  let d2 := (remove (NetNSMountPath n) d1).1 in
  let d3 := (remove (SlirpAPISocket n) d2).1 in
  (remove_all (RuntimeDir n) d3).1.

(** The paths are those [New] computes from the runtime directory. *)
Definition as_new (n : NetworkNamespace) : Prop :=
  NetNSMountPath n = RuntimeDir n ++ ["netns"]
  /\ SlirpAPISocket n = RuntimeDir n ++ ["slirp.sock"].

(** The error a failed step adds to the list. *)
Definition step_error (msg : string) (r : option errno) : list error :=
  match r with
  | Some e => [ErrWrap msg (Errno e)]
  | None => []
  end.

(** The same for the API socket, whose absence is no error. *)
Definition socket_error (r : option errno) : list error :=
  match r with
  | Some ENOENT => []
  | _ => step_error "failed to remove slirp API socket" r
  end.

(** The errors of all the steps of a cleanup on [h], in order. *)
Definition cleanup_errors (E : env) (n : NetworkNamespace) (h : host) : list error :=
  let '(d1, r1) := umount (NetNSMountPath n) (fs h) in
  let '(d2, r2) := remove (NetNSMountPath n) d1 in
  let '(d3, r3) := remove (SlirpAPISocket n) d2 in
  let '(_, r4) := remove_all (RuntimeDir n) d3 in
  (stop_slirp E n h).1
  ++ step_error "failed to unmount network namespace" r1
  ++ step_error "failed to remove netns mount point" r2
  ++ socket_error r3
  ++ step_error "failed to remove runtime directory" r4.

(** The marker of a /proc entry is readable and contains [id]. *)
Definition marked (id : string) (entry : string * option string) : bool :=
  match entry.2 with
  | Some data => Contains data id
  | None => false
  end.

Definition is_letter (c : ascii) : bool := bool_decide (c ∈ letters).

(** A name with no path separator that is none of the empty name, "."
    and "..". *)
Definition plain (s : string) : Prop :=
  s <> EmptyString /\ s <> "." /\ s <> ".."
  /\ Forall (fun c => c <> "/"%char) (list_ascii_of_string s).

(** An entry of the filter map other than a label filter is met when
    its key is one of status, name and id and its value is that field
    of the record. *)
Definition field_matches (config : Config) (name filter : string) : Prop :=
  (name = "status" /\ Status config = filter)
  \/ (name = "name" /\ Names config = filter)
  \/ (name = "id" /\ ID config = filter).

(** Nothing is at or below [r]. *)
Definition vacant (d : fsmap) (r : path) : Prop :=
  forall q, r `prefix_of` q -> d !! q = None.

(** The calls after the first run of a child. *)
Fixpoint after_child (calls : list call) : list call :=
  match calls with
  | [] => []
  | RunChild _ _ :: rest => rest
  | _ :: rest => after_child rest
  end.


(** Neither path leads to the other. *)
Definition apart (p q : path) : Prop := ~ p `prefix_of` q /\ ~ q `prefix_of` p.

(** The option by which nsenter joins a namespace of the kind that a
    clone flag creates. *)
Definition nsenter_option (flag : Z) : string :=
  if decide (flag = CLONE_NEWNS) then "-m"
  else if decide (flag = CLONE_NEWUTS) then "-u"
  else if decide (flag = CLONE_NEWUSER) then "-U"
  else if decide (flag = CLONE_NEWIPC) then "-i"
  else if decide (flag = CLONE_NEWNET) then "-n"
  else if decide (flag = CLONE_NEWPID) then "-p"
  else if decide (flag = CLONE_NEWCGROUP) then "-C"
  else EmptyString.

(** The options of an nsenter command line: what comes before "-S". *)
Fixpoint nsenter_options (argv : list string) : list string :=
  match argv with
  | [] => []
  | a :: rest => if decide (a = "-S") then [] else a :: nsenter_options rest
  end.

End Vocabulary.

(* ===================================================================== *)
(** ** Test vectors *)
(* ===================================================================== *)

Example md5_empty : MD5.hexsum EmptyString = "d41d8cd98f00b204e9800998ecf8427e".
Proof. vm_compute. reflexivity. Qed.

Example md5_abc : MD5.hexsum "abc" = "900150983cd24fb0d6963f7d28e17f72".
Proof. vm_compute. reflexivity. Qed.

Example md5_web : MD5.hexsum "web" = "2567a5ec9705eb7ac2c984033e06189d".
Proof. vm_compute. reflexivity. Qed.

Example md5_long :
  MD5.hexsum "12345678901234567890123456789012345678901234567890123456789012345678901234567890"
  = "57edf4a22be3c955ac49da2e2107b67a".
Proof. vm_compute. reflexivity. Qed.

Example split_ex1 : Strs.Split "a,b,,c" "," = ["a"; "b"; EmptyString; "c"].
Proof. reflexivity. Qed.

Example split_ex2 : Strs.Split "k=v;;x=y;" ";;" = ["k=v"; "x=y;"].
Proof. reflexivity. Qed.

Example split_ex3 : Strs.Split EmptyString "," = [EmptyString] /\ Strs.Split "abc" EmptyString = ["a"; "b"; "c"].
Proof. split; reflexivity. Qed.

Example join_ex : Strs.Join ["home"; "u"] "../v//./w/" = ["home"; "v"; "w"].
Proof. reflexivity. Qed.

Example base_ex :
  Strs.Base "/sbin/pty" = "pty" /\ Strs.Base "/pty" = "pty" /\ Strs.Base "/" = "/" /\ Strs.Base EmptyString = ".".
Proof. repeat split; reflexivity. Qed.

Example parse_ex :
  Strs.ParseInt32 "4242" = Some 4242 /\ Strs.ParseInt32 "self" = None /\ Strs.ParseInt32 EmptyString = None.
Proof. repeat split; reflexivity. Qed.

Example contains_ex : Strs.Contains "id=abc123" "abc" = true /\ Strs.Contains "xyz" "abc" = false.
Proof. split; reflexivity. Qed.

(* ===================================================================== *)
(** ** Properties: identity (GetID) *)
(* ===================================================================== *)

Section Identity.

Import Containerutils.

Lemma le_bytes_length n x : length (MD5.le_bytes n x) = n.
Proof. unfold MD5.le_bytes. rewrite length_map. apply length_seq. Qed.

Lemma sum_length msg : length (MD5.sum msg) = 16%nat.
Proof. unfold MD5.sum. rewrite !length_app, !le_bytes_length. reflexivity. Qed.

Lemma hex_length bs : String.length (MD5.hex bs) = (2 * length bs)%nat.
Proof. induction bs as [|b bs IH]; simpl; [reflexivity | rewrite IH; lia]. Qed.

Lemma hex_digit_is_hex n : MD5.is_hex_char (MD5.hex_digit n) = true.
Proof.
  unfold MD5.hex_digit. generalize (Z.to_nat n) as i. intros i.
  do 16 (destruct i as [|i]; [reflexivity|]).
  destruct i; reflexivity.
Qed.

Lemma hex_all_hex bs : MD5.all_hex (MD5.hex bs) = true.
Proof.
  induction bs as [|b bs IH]; simpl; [reflexivity|].
  rewrite !hex_digit_is_hex, IH. reflexivity.
Qed.

Lemma hexsum_shape s :
  String.length (MD5.hexsum s) = 32%nat /\ MD5.all_hex (MD5.hexsum s) = true.
Proof.
  unfold MD5.hexsum. split; [|apply hex_all_hex].
  rewrite hex_length, sum_length. reflexivity.
Qed.

(** C6, as stated, fails: the digest of a name whose container has
    not been created is not itself a directory name, and resolving it
    once more hashes it again. *)
Lemma C6_resolve_twice_differs :
  GetID Sample.env ∅ (GetID Sample.env ∅ "web") <> GetID Sample.env ∅ "web".
Proof. vm_compute. discriminate. Qed.

(** C6, amended: [GetID] returns the name verbatim when a container
    directory of that name exists and the 32-character hex MD5 digest
    of the name otherwise; resolving twice is resolving once whenever
    the directory of the resolved ID exists. *)
Theorem C6_resolve_stable (E : env) (d : fsmap) (N : string) :
  (exist d (Join (ContainerDir E) (GetID E d N)) = true ->
   GetID E d (GetID E d N) = GetID E d N)
  /\ (exist d (Join (ContainerDir E) N) = true -> GetID E d N = N)
  /\ (exist d (Join (ContainerDir E) N) = false ->
      GetID E d N = MD5.hexsum N
      /\ String.length (GetID E d N) = 32%nat
      /\ MD5.all_hex (GetID E d N) = true).
Proof.
  split; [|split].
  - intros H. unfold GetID at 1. rewrite H. reflexivity.
  - intros H. unfold GetID. rewrite H. reflexivity.
  - intros H. unfold GetID. rewrite H.
    split; [reflexivity | apply hexsum_shape].
Qed.

Lemma C6_resolve_stable_witness :
  GetID Sample.env Sample.disk (GetID Sample.env Sample.disk "web")
  = GetID Sample.env Sample.disk "web"
  /\ GetID Sample.env Sample.disk "2567a5ec9705eb7ac2c984033e06189d"
     = "2567a5ec9705eb7ac2c984033e06189d"
  /\ String.length (GetID Sample.env Sample.disk "web") = 32%nat.
Proof.
  split; [|split].
  - apply (proj1 (C6_resolve_stable Sample.env Sample.disk "web")).
    vm_compute. reflexivity.
  - apply (proj1 (proj2 (C6_resolve_stable Sample.env Sample.disk
                           "2567a5ec9705eb7ac2c984033e06189d"))).
    vm_compute. reflexivity.
  - apply (proj2 (proj2 (C6_resolve_stable Sample.env Sample.disk "web"))).
    vm_compute. reflexivity.
Defined.

End Identity.

(* ===================================================================== *)
(** ** What a computation asks of the host *)
(* ===================================================================== *)

Section Emits.

Import Containerutils.

Lemma emits_ret {A} (P : call -> Prop) (a : A) : emits P (mret a).
Proof. intros h. exists []. split; [symmetry; apply app_nil_r | constructor]. Qed.

Lemma emits_bind {A B} (P : call -> Prop) (m : io A) (k : A -> io B) :
  emits P m -> (forall a, emits P (k a)) -> emits P (m ≫= k).
Proof.
  intros Hm Hk h. unfold mbind, io_bind.
  destruct (Hm h) as (l1 & E1 & F1).
  destruct (m h) as [a h1]. simpl in E1.
  destruct (Hk a h1) as (l2 & E2 & F2).
  exists (l1 ++ l2). split.
  - rewrite E2, E1. symmetry. apply app_assoc.
  - apply Forall_app. split; assumption.
Qed.

Lemma emits_one {A} (P : call -> Prop) (m : io A) (c : call) :
  P c -> (forall h, trace (m h).2 = trace h ++ [c]) -> emits P m.
Proof.
  intros Hc Hm h. exists [c]. split; [apply Hm | repeat constructor; exact Hc].
Qed.

Lemma emits_read {A} (P : call -> Prop) (f : fsmap -> A) : emits P (read f).
Proof. intros h. exists []. split; [symmetry; apply app_nil_r | constructor]. Qed.

Lemma emits_fsop (P : call -> Prop) c f : P c -> emits P (fsop c f).
Proof.
  intros Hc. apply (emits_one P _ c Hc). intros h.
  unfold fsop. destruct (f (fs h)). reflexivity.
Qed.

Lemma emits_syscall (P : call -> Prop) E c : P c -> emits P (syscall E c).
Proof. intros Hc. apply (emits_one P _ c Hc). reflexivity. Qed.

Lemma emits_mount (P : call -> Prop) E s t fl : P (Mount s t fl) -> emits P (mount E s t fl).
Proof.
  intros Hc. apply (emits_one P _ _ Hc). intros h. unfold mount.
  destruct (e_sys E (trace h) (Mount s t fl)); [reflexivity|].
  unfold fsop. destruct (bind_mount t (fs h)). reflexivity.
Qed.

Lemma emits_spawn (P : call -> Prop) E argv : P (ProcStart argv) -> emits P (spawn E argv).
Proof. intros Hc. apply (emits_one P _ _ Hc). reflexivity. Qed.

Lemma emits_run (P : call -> Prop) E c : P c -> emits P (run E c).
Proof. intros Hc. apply (emits_one P _ _ Hc). reflexivity. Qed.

Lemma emits_sleep (P : call -> Prop) : P Sleep -> emits P sleep.
Proof. intros Hc. apply (emits_one P _ _ Hc). reflexivity. Qed.

Lemma emits_GetPid (P : call -> Prop) E id : P ReadProc -> emits P (GetPid E id).
Proof.
  intros Hc. apply (emits_one P _ _ Hc). intros h. unfold GetPid.
  destruct (e_proc E (clock h)); reflexivity.
Qed.

End Emits.

(** Walks a computation of the model down to its calls. *)
Ltac emits_walk :=
  repeat
    match goal with
    | |- emits _ (mret _) => apply emits_ret
    | |- emits _ (mbind _ _) => apply emits_bind; [|intros ?]
    | |- emits _ (Host.read _) => apply emits_read
    | |- emits _ (Host.fsop _ _) => apply emits_fsop
    | |- emits _ (Host.syscall _ _) => apply emits_syscall
    | |- emits _ (Host.mount _ _ _ _) => apply emits_mount
    | |- emits _ (Host.spawn _ _) => apply emits_spawn
    | |- emits _ (Host.run _ _) => apply emits_run
    | |- emits _ Host.sleep => apply emits_sleep
    | |- emits _ (Containerutils.GetPid _ _) => apply emits_GetPid
    | |- emits _ (match ?x with _ => _ end) => destruct x
    end.

(* ===================================================================== *)
(** ** Properties: the enter command and the namespaces of start *)
(* ===================================================================== *)

Section EnterCommand.

Import Containerutils.

Variable C : constants.
Variable E : env.

Lemma flags_at_unshare_cases config :
  flags_at_unshare E config =
  Z.lor (Z.lor (Z.lor CLONE_NEWNS CLONE_NEWUTS)
               (if keep_id E config then CLONE_NEWUSER else 0))
        (if streq (Ipc config) Private then CLONE_NEWIPC else 0).
Proof.
  unfold flags_at_unshare.
  destruct (keep_id E config), (streq (Ipc config) Private); reflexivity.
Qed.

Lemma flags_at_unshare_no_pid_cgroup config :
  no_pid_cgroup (Unshare (flags_at_unshare E config)).
Proof.
  rewrite flags_at_unshare_cases.
  destruct (keep_id E config), (streq (Ipc config) Private); split; reflexivity.
Qed.

Lemma flags_at_unshare_nonzero config : flags_at_unshare E config <> 0.
Proof.
  rewrite flags_at_unshare_cases.
  destruct (keep_id E config), (streq (Ipc config) Private); discriminate.
Qed.

(** The flags accumulated by generateEnterCommand are those of the
    specification. *)
Lemma flags_at_return_spec config :
  has_flag (flags_at_return E config) CLONE_NEWNS
  /\ has_flag (flags_at_return E config) CLONE_NEWUTS
  /\ (Ipc config = Private -> has_flag (flags_at_return E config) CLONE_NEWIPC)
  /\ (Pid config = Private -> has_flag (flags_at_return E config) CLONE_NEWPID)
  /\ (Cgroup config = Private -> has_flag (flags_at_return E config) CLONE_NEWCGROUP)
  /\ (Userns config = KeepID -> e_getenv E "ROOTFUL" <> TrueString ->
      has_flag (flags_at_return E config) CLONE_NEWUSER).
Proof.
  unfold flags_at_return, has_flag. rewrite flags_at_unshare_cases.
  assert (Hs : forall a b : string, a = b -> streq a b = true).
  { intros a b H. apply bool_decide_eq_true_2. exact H. }
  assert (Hk : Userns config = KeepID -> e_getenv E "ROOTFUL" <> TrueString ->
               keep_id E config = true).
  { intros H1 H2. unfold keep_id. rewrite (Hs _ _ H1). unfold streq.
    rewrite (bool_decide_eq_false_2 _ H2). reflexivity. }
  repeat split.
  - destruct (keep_id E config), (streq (Ipc config) Private),
      (streq (Pid config) Private), (streq (Cgroup config) Private); reflexivity.
  - destruct (keep_id E config), (streq (Ipc config) Private),
      (streq (Pid config) Private), (streq (Cgroup config) Private); reflexivity.
  - intros H. rewrite (Hs _ _ H).
    destruct (keep_id E config),
      (streq (Pid config) Private), (streq (Cgroup config) Private); reflexivity.
  - intros H. rewrite (Hs _ _ H).
    destruct (keep_id E config), (streq (Ipc config) Private),
      (streq (Cgroup config) Private); reflexivity.
  - intros H. rewrite (Hs _ _ H).
    destruct (keep_id E config), (streq (Ipc config) Private),
      (streq (Pid config) Private); reflexivity.
  - intros H1 H2. rewrite (Hk H1 H2).
    destruct (streq (Ipc config) Private),
      (streq (Pid config) Private), (streq (Cgroup config) Private); reflexivity.
Qed.

Lemma Cleanup_no_pid_cgroup n : emits no_pid_cgroup (Cleanup E n).
Proof. unfold Cleanup, stop_slirp. emits_walk; exact I. Qed.

Lemma setupNetworking_no_pid_cgroup config :
  emits no_pid_cgroup (setupNetworking E config).
Proof.
  unfold setupNetworking, New, Setup. emits_walk;
    try apply Cleanup_no_pid_cgroup; try exact I.
  split; reflexivity.
Qed.

Lemma cleanupNetworking_no_pid_cgroup ns :
  emits no_pid_cgroup (cleanupNetworking E ns).
Proof.
  unfold cleanupNetworking. emits_walk; try apply Cleanup_no_pid_cgroup.
Qed.

Lemma StartSlirp_no_pid_cgroup n pid : emits no_pid_cgroup (StartSlirp E n pid).
Proof. unfold StartSlirp. emits_walk; exact I. Qed.

Lemma generateEnterCommand_no_pid_cgroup config :
  emits no_pid_cgroup (generateEnterCommand E config).
Proof.
  unfold generateEnterCommand. emits_walk;
    try apply setupNetworking_no_pid_cgroup;
    try apply cleanupNetworking_no_pid_cgroup;
    try apply StartSlirp_no_pid_cgroup;
    try apply flags_at_unshare_no_pid_cgroup.
Qed.

Lemma Start_no_pid_cgroup interactive tty config :
  emits no_pid_cgroup (Start C E interactive tty config).
Proof.
  unfold Start, Start_launch, attach_slirp, launch_child, inject_agent. emits_walk;
    try apply setupNetworking_no_pid_cgroup;
    try apply cleanupNetworking_no_pid_cgroup;
    try apply StartSlirp_no_pid_cgroup;
    try apply generateEnterCommand_no_pid_cgroup;
    try exact I.
Qed.

End EnterCommand.

Section EnterCommandClaims.

Import Containerutils.

(** C1. The flags accumulated by generateEnterCommand are those the
    specification lists (mount and UTS always; IPC, PID, cgroup when
    private; user for keep-id without the rootful override), but no
    unshare call made during start carries the PID or the cgroup flag:
    the two are added to the variable after the call that reads it. *)
Theorem C1_unshare_lacks_pid_and_cgroup
        (C : constants) (E : env) (interactive tty : bool) (config : Config) (h : host) :
  (has_flag (flags_at_return E config) CLONE_NEWNS
   /\ has_flag (flags_at_return E config) CLONE_NEWUTS
   /\ has_flag (flags_at_return E config)
               (if streq (Ipc config) Private then CLONE_NEWIPC else 0)
   /\ has_flag (flags_at_return E config)
               (if streq (Pid config) Private then CLONE_NEWPID else 0)
   /\ has_flag (flags_at_return E config)
               (if streq (Cgroup config) Private then CLONE_NEWCGROUP else 0)
   /\ has_flag (flags_at_return E config)
               (if keep_id E config then CLONE_NEWUSER else 0))
  /\ exists calls,
      trace (Start C E interactive tty config h).2 = trace h ++ calls
      /\ Forall no_pid_cgroup calls.
Proof.
  split; [|apply Start_no_pid_cgroup].
  unfold has_flag, flags_at_return. rewrite flags_at_unshare_cases.
  repeat split;
    destruct (keep_id E config), (streq (Ipc config) Private),
      (streq (Pid config) Private), (streq (Cgroup config) Private); reflexivity.
Qed.

(** The sample container has pid and cgroup private: the unshare of
    its enter command asks for mount, UTS, user and IPC only. *)
Example C1_on_sample :
  flags_at_unshare Sample.env Sample.config = 0x1c020000
  /\ flags_at_return Sample.env Sample.config = 0x3e020000
  /\ Unshare 0x1c020000
       ∈ trace (generateEnterCommand Sample.env Sample.config (Sample.boot Sample.disk)).2.
Proof. vm_compute. repeat split. repeat constructor. Qed.

(** C10. Whenever generateEnterCommand returns a command, its process
    attributes ask for a new session, a new process group and the
    credentials UID 0 / GID 0, whatever the record says about the user
    namespace and whether or not the rootful override is set. *)
Theorem C10_enter_attr_unconditional
        (E : env) (config : Config) (h h' : host) (cmd : Cmd) :
  generateEnterCommand E config h = (Ok cmd, h') ->
  exists attr, Attr cmd = Some attr
               /\ Setsid attr = true /\ Setpgid attr = true
               /\ Credential attr = Some (0, 0).
Proof.
  intros H. exists enter_attr. split; [|repeat split].
  unfold generateEnterCommand, SetProcessKeepIDMaps in H.
  unfold mbind, io_bind, mret, io_ret in H.
  repeat case_match; simplify_eq; reflexivity.
Qed.

Lemma C10_enter_attr_witness :
  keep_id rootful_env Sample.config = false
  /\ exists attr,
      Attr (match (generateEnterCommand rootful_env Sample.config
                     (Sample.boot Sample.disk)).1 with
            | Ok cmd => cmd
            | Err _ => {| Path := EmptyString; Args := []; Attr := None; IDMaps := None |}
            end) = Some attr
      /\ Setsid attr = true /\ Setpgid attr = true /\ Credential attr = Some (0, 0).
Proof.
  split; [vm_compute; reflexivity|].
  destruct (generateEnterCommand rootful_env Sample.config (Sample.boot Sample.disk))
    as [r h'] eqn:Hrun.
  assert (Hok : exists cmd, r = Ok cmd).
  { vm_compute in Hrun. injection Hrun as <- _. eexists. reflexivity. }
  destruct Hok as [cmd ->]. simpl.
  exact (C10_enter_attr_unconditional rootful_env Sample.config _ _ cmd Hrun).
Defined.

End EnterCommandClaims.

(* ===================================================================== *)
(** ** Properties: start *)
(* ===================================================================== *)

Section StartGeneral.

Import Containerutils.

Variable C : constants.
Variable E : env.
















End StartGeneral.

Section StartTheorem.

Import Containerutils.



End StartTheorem.


Section StartClaims.

Import Containerutils.

(** On a host where every call succeeds, a start with network=private
    launches slirp4netns twice: first from generateEnterCommand, before
    any child is run, on the PID of the parent itself (4000); then from
    [Start], after the child, on the PID found in /proc (4242). *)
Example start_private_on_sample :
  let r := Start Sample.consts Sample.env false false private_config
                 (Sample.boot disk_sbin) in
  r.1 = None
  /\ has_child (trace r.2) = true
  /\ pretty (e_pid Sample.env) = "4000"
  /\ slirp_targets (before_child (trace r.2)) = ["4000"]
  /\ slirp_targets (trace r.2) = ["4000"; "4242"].
Proof. vm_compute. repeat split. Qed.

(** C8 fails on the code: the directory made before the agent is
    written is rootfs/<base name of the agent path>, not the parent of
    rootfs/<agent path>. With the agent at /sbin/pty and a rootfs
    without /sbin, start makes the directory rootfs/pty, the write to
    rootfs/sbin/pty fails for want of rootfs/sbin, and start returns
    that error. With the agent at /pty the directory is made where the
    file has to go, and the write fails on it. *)
Theorem C8_agent_parent_not_made :
  let r := Start Sample.consts Sample.env false false Sample.config
                 (Sample.boot Sample.disk) in
  let r' := Start consts_pty Sample.env false false Sample.config
                  (Sample.boot Sample.disk) in
  exist Sample.disk (rootfs ++ ["sbin"; "pty"]) = false
  /\ trace r.2 = [MkdirAll (rootfs ++ ["pty"]) perm_0755;
                  WriteFile (rootfs ++ ["sbin"; "pty"]) perm_0755]
  /\ r.1 = Some (Errno ENOENT)
  /\ is_dir (fs r.2) (rootfs ++ ["pty"]) = true
  /\ exist (fs r.2) (rootfs ++ ["sbin"]) = false
  /\ exist (fs r.2) (rootfs ++ ["sbin"; "pty"]) = false
  /\ exist Sample.disk (rootfs ++ ["pty"]) = false
  /\ trace r'.2 = [MkdirAll (rootfs ++ ["pty"]) perm_0755;
                   WriteFile (rootfs ++ ["pty"]) perm_0755]
  /\ r'.1 = Some (Errno EISDIR)
  /\ is_dir (fs r'.2) (rootfs ++ ["pty"]) = true.
Proof. vm_compute. repeat split. Qed.

(** Whatever the agent path, the directory asked for is the one named
    after its last element. *)
Lemma inject_agent_first_call (C : constants) (p : path) (ptyFile : string) (h : host) :
  exist (fs h) (Join p (PtyAgentPath C)) = false ->
  exists calls,
    trace (inject_agent C p ptyFile h).2
    = trace h ++ MkdirAll (Join p (Base (PtyAgentPath C))) perm_0755 :: calls.
Proof.
  intros Habsent. unfold inject_agent, mbind, io_bind, read, fsop. rewrite Habsent. simpl.
  destruct (mkdir_all _ _ _) as [fs1 [e|]]; simpl.
  - exists []. reflexivity.
  - destruct (write_file _ _ _ _) as [fs2 [e|]]; simpl;
      eexists; rewrite <- app_assoc; reflexivity.
Qed.

End StartClaims.

(* ===================================================================== *)
(** ** Properties: filters *)
(* ===================================================================== *)

Section FilterClaims.

Import Containerutils.

Lemma Split_single_a (sep : string) : sep <> "a" -> Split "a" sep = ["a"].
Proof.
  intros Hne. destruct sep as [|c s]; [reflexivity|].
  unfold Split, split_go. simpl.
  destruct (ascii_dec c "a") as [->|Hc]; [|reflexivity].
  destruct s; [contradiction Hne; reflexivity | reflexivity].
Qed.

Lemma fold_left_additive {A} (g : Z -> A -> Z) :
  (forall m x, g m x = m + g 0 x) ->
  forall l m, fold_left g l m = m + fold_left g l 0.
Proof.
  intros Hg l. induction l as [|a l IH]; intros m; simpl; [lia|].
  rewrite IH, (IH (g 0 a)), Hg. lia.
Qed.

(** Every entry of the filter map adds its own count to [matched]. *)
Lemma filter_entry_additive C config name filter m :
  filter_entry C config name filter m = m + filter_entry C config name filter 0.
Proof.
  unfold filter_entry.
  destruct (streq name "label").
  { apply fold_left_additive. intros m' cl.
    apply fold_left_additive. intros m'' fl.
    destruct (streq cl fl); lia. }
  repeat match goal with
         | |- context [if ?b then _ else _] => destruct b
         end; lia.
Qed.

Lemma filter_fold_insert C config (filters : gmap string string) name filter :
  filters !! name = None ->
  map_fold (filter_entry C config) 0 (<[name := filter]> filters)
  = map_fold (filter_entry C config) 0 filters + filter_entry C config name filter 0.
Proof.
  intros Hfresh. rewrite map_fold_insert_L; [| |exact Hfresh].
  - apply filter_entry_additive.
  - intros j1 j2 z1 z2 y _ _ _.
    rewrite (filter_entry_additive C config j1 z1 (filter_entry C config j2 z2 y)).
    rewrite (filter_entry_additive C config j2 z2 (filter_entry C config j1 z1 y)).
    rewrite (filter_entry_additive C config j1 z1 y).
    rewrite (filter_entry_additive C config j2 z2 y). lia.
Qed.

Lemma filter_entry_nonneg C config name filter : 0 <= filter_entry C config name filter 0.
Proof.
  unfold filter_entry.
  destruct (streq name "label").
  { assert (Hin : forall cl labels m, 0 <= m ->
              0 <= fold_left (fun m fl => if streq cl fl then m + 1 else m) labels m).
    { intros cl labels. induction labels as [|fl labels IH]; intros m Hm; simpl; [exact Hm|].
      apply IH. destruct (streq cl fl); lia. }
    generalize (Labels config) as cls. intros cls.
    assert (Hout : forall m, 0 <= m ->
              0 <= fold_left
                     (fun m cl =>
                        fold_left (fun m fl => if streq cl fl then m + 1 else m)
                                  (Split filter (FilterSeparator C)) m) cls m).
    { induction cls as [|cl cls IH]; intros m Hm; simpl; [exact Hm|].
      apply IH. apply Hin. exact Hm. }
    apply Hout. lia. }
  repeat match goal with
         | |- context [if ?b then _ else _] => destruct b
         end; lia.
Qed.

(** The direction of C4 that holds: a record on which every entry of
    the map counts at least one match passes the filter. *)
Lemma filterContainer_when_all_match C config (filters : gmap string string) :
  map_Forall (fun name filter => 1 <= filter_entry C config name filter 0) filters ->
  filterContainer C config filters = true.
Proof.
  intros Hall. unfold filterContainer.
  destruct (decide (size filters = 0%nat)); [reflexivity|].
  apply Z.leb_le. clear n.
  induction filters as [|name filter filters Hfresh IH] using map_ind.
  - rewrite map_size_empty, map_fold_empty. reflexivity.
  - apply map_Forall_insert in Hall as [Hhere Hrest]; [|exact Hfresh].
    rewrite map_size_insert_None by exact Hfresh.
    rewrite filter_fold_insert by exact Hfresh.
    specialize (IH Hrest). lia.
Qed.

(** Where no entry counts more than one match the converse holds too. *)
Lemma filterContainer_only_when_all_match C config (filters : gmap string string) :
  map_Forall (fun name filter => filter_entry C config name filter 0 <= 1) filters ->
  filterContainer C config filters = true ->
  map_Forall (fun name filter => filter_entry C config name filter 0 = 1) filters.
Proof.
  intros Hle. unfold filterContainer.
  destruct (decide (size filters = 0%nat)) as [Hz|_].
  { intros _. apply map_size_empty_inv in Hz. subst filters. apply map_Forall_empty. }
  intros Hm. apply Z.leb_le in Hm.
  assert (Hsum : map_fold (filter_entry C config) 0 filters <= Z.of_nat (size filters)
                 /\ (Z.of_nat (size filters) <= map_fold (filter_entry C config) 0 filters ->
                     map_Forall (fun name filter => filter_entry C config name filter 0 = 1)
                                filters)).
  { clear Hm. induction filters as [|name filter filters Hfresh IH] using map_ind.
    - rewrite map_size_empty, map_fold_empty. split; [reflexivity|].
      intros _. apply map_Forall_empty.
    - apply map_Forall_insert in Hle as [Hhere Hrest]; [|exact Hfresh].
      destruct (IH Hrest) as [IH1 IH2].
      rewrite map_size_insert_None by exact Hfresh.
      rewrite filter_fold_insert by exact Hfresh.
      split; [lia|]. intros Hge.
      apply map_Forall_insert; [exact Hfresh|]. split; [lia|].
      apply IH2. lia. }
  apply Hsum. exact Hm.
Qed.

Lemma Split_whole_label C :
  Split (whole_label C) (FilterSeparator C) = [whole_label C].
Proof.
  unfold whole_label. destruct (decide (FilterSeparator C = "a")) as [->|Hne].
  - reflexivity.
  - apply Split_single_a. exact Hne.
Qed.

(** The label filter counts every equal pair of container label and
    filter label. *)
Lemma filter_entry_label_twice C lab m :
  Split lab (FilterSeparator C) = [lab] ->
  filter_entry C (twice_labelled lab) "label" lab m = m + 2.
Proof.
  intros HS. unfold filter_entry.
  replace (streq "label" "label") with true by reflexivity.
  rewrite HS. simpl. unfold streq. rewrite bool_decide_eq_true_2 by reflexivity. lia.
Qed.

Lemma filter_entry_name_other C lab m :
  filter_entry C (twice_labelled lab) "name" "other" m = m.
Proof. reflexivity. Qed.

(** C4 fails on the code. The label filter adds one to the count for
    every equal pair of container label and filter label, so a record
    that carries a label twice passes a map whose name filter finds no
    match; and an unknown key is counted among the filters to satisfy,
    so that it fails every record. *)
Theorem C4_label_overcount_hides_name_mismatch (C : constants) :
  Names (twice_labelled (whole_label C)) <> "other"
  /\ filterContainer C (twice_labelled (whole_label C))
       (<["label" := whole_label C]> {["name" := "other"]}) = true
  /\ filterContainer C (twice_labelled (whole_label C)) {["name" := "other"]} = false
  /\ filterContainer C (twice_labelled (whole_label C)) ∅ = true
  /\ filterContainer C (twice_labelled (whole_label C)) {["colour" := "red"]} = false.
Proof.
  split; [discriminate|]. split; [|split; [|split]].
  - unfold filterContainer.
    rewrite map_size_insert_None, map_size_singleton by reflexivity.
    rewrite filter_fold_insert by reflexivity.
    rewrite map_fold_singleton, filter_entry_name_other.
    rewrite filter_entry_label_twice by apply Split_whole_label.
    reflexivity.
  - unfold filterContainer. rewrite map_size_singleton, map_fold_singleton. reflexivity.
  - reflexivity.
  - unfold filterContainer. rewrite map_size_singleton, map_fold_singleton. reflexivity.
Qed.

(** C5 fails on the code, for the same counting: the record of C4
    passes the map with the label filter added and fails the map
    without it. *)
Theorem C5_added_filter_enlarges_match (C : constants) :
  ({["name" := "other"]} : gmap string string) !! "label" = None
  /\ filterContainer C (twice_labelled (whole_label C))
       (<["label" := whole_label C]> {["name" := "other"]}) = true
  /\ filterContainer C (twice_labelled (whole_label C)) {["name" := "other"]} = false.
Proof.
  split; [reflexivity|]. split.
  - unfold filterContainer.
    rewrite map_size_insert_None, map_size_singleton by reflexivity.
    rewrite filter_fold_insert by reflexivity.
    rewrite map_fold_singleton, filter_entry_name_other.
    rewrite filter_entry_label_twice by apply Split_whole_label.
    reflexivity.
  - unfold filterContainer. rewrite map_size_singleton, map_fold_singleton. reflexivity.
Qed.

(** With the separator "," and two distinct labels the same happens. *)
Example filter_two_labels :
  filterContainer Sample.consts Sample.config
    (<["label" := "tier=front,env=prod"]> {["name" := "other"]}) = true.
Proof. vm_compute. reflexivity. Qed.

End FilterClaims.

(* ===================================================================== *)
(** ** Properties: stop *)
(* ===================================================================== *)

Section StopClaims.

Import Containerutils.

Variable E : env.
Variable name : string.

Lemma GetPid_poll h :
  GetPid E name h = (poll E name (fs h) (clock h), logged ReadProc h).
Proof. unfold poll, GetPid. simpl. destruct (e_proc E (clock h)); reflexivity. Qed.

Lemma after_rounds_S h k :
  after_rounds {| fs := fs h; clock := S (clock h);
                  trace := (trace h ++ [Sleep]) ++ [ReadProc] |} k
  = after_rounds h (S k).
Proof.
  unfold after_rounds, rounds. simpl. f_equal; [lia|].
  rewrite <- !app_assoc. reflexivity.
Qed.

Lemma stop_wait_step fuel pid T h :
  0 < T ->
  stop_wait E (S fuel) name pid T h =
  let h1 := {| fs := fs h; clock := S (clock h);
               trace := (trace h ++ [Sleep]) ++ [ReadProc] |} in
  let pid' := (poll E name (fs h) (S (clock h))).1 in
  if pid' <? 1 then (Some None, h1) else stop_wait E fuel name pid' (T - 1) h1.
Proof.
  intros HT. simpl. replace (T <=? 0) with false by (symmetry; apply Z.leb_gt; lia).
  unfold mbind, io_bind, sleep. rewrite GetPid_poll. simpl.
  destruct (poll E name (fs h) (S (clock h))) as [pid' err]. simpl.
  destruct (pid' <? 1); reflexivity.
Qed.

(** The PID stops resolving at the [k]-th query: success, no SIGKILL. *)
Lemma stop_wait_gone k : forall fuel pid T h,
  (1 <= k)%nat -> Z.of_nat k <= T -> (k <= fuel)%nat ->
  (forall j, (1 <= j < k)%nat -> resolves E name (fs h) (clock h + j)) ->
  ~ resolves E name (fs h) (clock h + k) ->
  stop_wait E fuel name pid T h = (Some None, after_rounds h k).
Proof.
  induction k as [|k IH]; intros fuel pid T h Hk HT Hfuel Hres Hgone; [lia|].
  destruct fuel as [|fuel]; [lia|].
  rewrite stop_wait_step by lia. cbv zeta.
  destruct k as [|k].
  - replace (clock h + 1)%nat with (S (clock h)) in Hgone by lia.
    unfold resolves in Hgone.
    replace ((poll E name (fs h) (S (clock h))).1 <? 1) with true
      by (symmetry; apply Z.ltb_lt; lia).
    rewrite <- (after_rounds_S h 0). unfold after_rounds, rounds. simpl.
    rewrite Nat.add_0_r, app_nil_r. reflexivity.
  - assert (H1 : resolves E name (fs h) (clock h + 1)) by (apply Hres; lia).
    replace (clock h + 1)%nat with (S (clock h)) in H1 by lia.
    unfold resolves in H1.
    replace ((poll E name (fs h) (S (clock h))).1 <? 1) with false
      by (symmetry; apply Z.ltb_ge; lia).
    rewrite (IH fuel _ (T - 1)); simpl; try lia.
    + apply f_equal. apply (after_rounds_S h (S k)).
    + intros j Hj.
      match goal with
      | |- resolves _ _ _ ?t => replace t with (clock h + S j)%nat by lia
      end.
      apply Hres. lia.
    + match goal with
      | |- ~ resolves _ _ _ ?t => replace t with (clock h + S (S k))%nat by lia
      end.
      exact Hgone.
Qed.

(** The PID resolves at every one of the [n] queries: SIGKILL goes to
    the PID of the last answer. *)
Lemma stop_wait_kill n : forall fuel pid h,
  (n < fuel)%nat ->
  (forall j, (1 <= j <= n)%nat -> resolves E name (fs h) (clock h + j)) ->
  let q := match n with O => pid | S _ => (poll E name (fs h) (clock h + n)).1 end in
  stop_wait E fuel name pid (Z.of_nat n) h
  = (Some (as_error (e_sys E (trace (after_rounds h n)) (Kill q SIGKILL))),
     logged (Kill q SIGKILL) (after_rounds h n)).
Proof.
  induction n as [|n IH]; intros fuel pid h Hfuel Hres q; subst q.
  - destruct fuel as [|fuel]; [lia|]. simpl.
    unfold mbind, io_bind, syscall, after_rounds, rounds, logged. simpl.
    rewrite Nat.add_0_r, app_nil_r. destruct h; reflexivity.
  - destruct fuel as [|fuel]; [lia|].
    rewrite stop_wait_step by lia. cbv zeta.
    assert (H1 : resolves E name (fs h) (clock h + 1)) by (apply Hres; lia).
    replace (clock h + 1)%nat with (S (clock h)) in H1 by lia.
    unfold resolves in H1.
    replace ((poll E name (fs h) (S (clock h))).1 <? 1) with false
      by (symmetry; apply Z.ltb_ge; lia).
    replace (Z.of_nat (S n) - 1) with (Z.of_nat n) by lia.
    pose proof (IH fuel (poll E name (fs h) (S (clock h))).1
                   {| fs := fs h; clock := S (clock h);
                      trace := (trace h ++ [Sleep]) ++ [ReadProc] |}) as IH'.
    rewrite after_rounds_S in IH'. cbn [fs clock] in IH'. cbv zeta in IH'.
    assert (Hq : match n with
                 | O => (poll E name (fs h) (S (clock h))).1
                 | S _ => (poll E name (fs h) (S (clock h) + n)).1
                 end = (poll E name (fs h) (clock h + S n)).1).
    { destruct n as [|n].
      - replace (clock h + 1)%nat with (S (clock h)) by lia. reflexivity.
      - replace (S (clock h) + S n)%nat with (clock h + S (S n))%nat by lia.
        reflexivity. }
    rewrite Hq in IH'. apply IH'; [lia|].
    intros j Hj. replace (S (clock h) + j)%nat with (clock h + S j)%nat by lia.
    apply Hres. lia.
Qed.

Lemma stop_wait_no_sigterm fuel : forall pid T,
  emits not_sigterm (stop_wait E fuel name pid T).
Proof.
  induction fuel as [|fuel IH]; intros pid T; simpl; emits_walk; try exact I.
  apply IH.
Qed.

End StopClaims.

Section StopTheorem.

Import Containerutils.

(** C3. A stop without force and with a timeout of [T >= 1] seconds, on
    a container whose PID resolves to [p]: one SIGTERM is sent, to [p],
    and no other. When that call succeeds, every round of the loop
    sleeps one second and queries the PID again. If the [k]-th query is
    the first that does not resolve (an error of [GetPid] answers -1),
    stop returns success after [k] rounds and sends no SIGKILL. If all
    [T] queries resolve, stop sends one SIGKILL after the [T]-th round,
    to the PID last found, and returns the result of that call. *)
Theorem C3_stop_escalation
        (E : env) (name : string) (T : Z) (fuel : nat) (h : host) (p : Z) :
  1 <= T -> (Z.to_nat T < fuel)%nat ->
  poll E name (fs h) (clock h) = (p, None) ->
  let r := Stop E fuel name false T h in
  (exists calls,
      trace r.2 = trace h ++ ReadProc :: Kill p SIGTERM :: calls
      /\ Forall not_sigterm calls)
  /\ (e_sys E (trace h ++ [ReadProc]) (Kill p SIGTERM) = None ->
      (forall k, (1 <= k)%nat -> Z.of_nat k <= T ->
         (forall j, (1 <= j < k)%nat -> resolves E name (fs h) (clock h + j)) ->
         ~ resolves E name (fs h) (clock h + k) ->
         r.1 = Some None
         /\ trace r.2 = trace h ++ [ReadProc; Kill p SIGTERM] ++ rounds k
         /\ clock r.2 = (clock h + k)%nat)
      /\ ((forall j, (1 <= j <= Z.to_nat T)%nat ->
             resolves E name (fs h) (clock h + j)) ->
          let q := (poll E name (fs h) (clock h + Z.to_nat T)).1 in
          let sent := trace h ++ [ReadProc; Kill p SIGTERM] ++ rounds (Z.to_nat T) in
          trace r.2 = sent ++ [Kill q SIGKILL]
          /\ r.1 = Some (as_error (e_sys E sent (Kill q SIGKILL)))
          /\ clock r.2 = (clock h + Z.to_nat T)%nat)).
Proof.
  intros HT Hfuel Hp r. subst r.
  unfold Stop, mbind, io_bind. rewrite GetPid_poll, Hp. simpl.
  split.
  - destruct (e_sys E (trace h ++ [ReadProc]) (Kill p SIGTERM)) as [e|].
    + exists []. simpl. rewrite <- app_assoc. split; [reflexivity | constructor].
    + destruct (stop_wait_no_sigterm E name fuel p T
                  (logged (Kill p SIGTERM) (logged ReadProc h))) as (l & Hl & Fl).
      exists l. split; [|exact Fl].
      rewrite Hl. simpl. rewrite <- !app_assoc. reflexivity.
  - intros Hterm. rewrite Hterm. split.
    + intros k Hk HkT Hres Hgone.
      rewrite (stop_wait_gone E name k); simpl; try assumption; try lia.
      rewrite <- !app_assoc. repeat split.
    + intros Hres.
      pose proof (stop_wait_kill E name (Z.to_nat T) fuel p
                    (logged (Kill p SIGTERM) (logged ReadProc h)) Hfuel) as Hkill.
      simpl in Hkill. rewrite Z2Nat.id in Hkill by lia.
      rewrite Hkill by exact Hres.
      destruct (Z.to_nat T) as [|n] eqn:Hn; [lia|]. simpl.
      rewrite <- !app_assoc. simpl. repeat split.
Qed.

(** Scenario S6 (the process ignores SIGTERM, timeout 2), and a process
    that exits within two seconds (timeout 5). *)
Lemma C3_stop_escalation_witness :
  (let r := Stop Sample.env 3 "web" false 2 running in
   trace r.2 = [ReadProc; Kill 4242 SIGTERM; Sleep; ReadProc; Sleep; ReadProc;
                Kill 4242 SIGKILL]
   /\ r.1 = Some None /\ clock r.2 = 3%nat)
  /\ (let r := Stop dying_env 6 "web" false 5 running in
      r.1 = Some None
      /\ trace r.2 = [ReadProc; Kill 4242 SIGTERM; Sleep; ReadProc; Sleep; ReadProc]
      /\ clock r.2 = 3%nat).
Proof.
  split.
  - assert (Hp : poll Sample.env "web" (fs running) (clock running) = (4242, None))
      by (vm_compute; reflexivity).
    destruct (C3_stop_escalation Sample.env "web" 2 3 running 4242
                ltac:(lia) ltac:(simpl; lia) Hp) as [_ H].
    destruct (H eq_refl) as [_ Hkill]. clear H.
    apply Hkill. intros j Hj. simpl in Hj.
    assert (Hj' : j = 1%nat \/ j = 2%nat) by lia.
    destruct Hj' as [-> | ->]; vm_compute; discriminate.
  - assert (Hp : poll dying_env "web" (fs running) (clock running) = (4242, None))
      by (vm_compute; reflexivity).
    destruct (C3_stop_escalation dying_env "web" 5 6 running 4242
                ltac:(lia) ltac:(simpl; lia) Hp) as [_ H].
    destruct (H eq_refl) as [Hgone _]. clear H.
    apply (Hgone 2%nat); [lia | lia | |].
    + intros j Hj. assert (j = 1%nat) as -> by lia. vm_compute. discriminate.
    + vm_compute. intros Hc. apply Hc. reflexivity.
Defined.

End StopTheorem.

(* ===================================================================== *)
(** ** Properties: records that do not load *)
(* ===================================================================== *)

Section LoadClaims.

Import Containerutils.

Lemma LoadConfig_reads E p h : (LoadConfig E p h).2 = h.
Proof.
  unfold LoadConfig, mbind, io_bind, read. simpl.
  destruct (read_file p (fs h)); [destruct (e_unmarshal E a)|]; reflexivity.
Qed.

(** The two ways a load fails. *)
Lemma LoadConfig_failure E p h e :
  (LoadConfig E p h).1 = Err e -> e = NotFound \/ e = CorruptConfig.
Proof.
  unfold LoadConfig, mbind, io_bind, read. simpl.
  destruct (read_file p (fs h)); [destruct (e_unmarshal E a)|]; simpl;
    intros H; inversion H; auto.
Qed.

(** C9 fails on the code. [Inspect] on a corrupt record returns the
    error and removes nothing; [GetContainerInfo] on a missing record
    runs the removal and, when that succeeds, returns neither a record
    nor an error. *)
Lemma C9_inspect_keeps_corrupt_listing_hides_missing :
  (let r := Inspect Sample.env ["web"] false EmptyString (Sample.boot disk_corrupt) in
   r.1 = (EmptyString, Some CorruptConfig) /\ trace r.2 = [])
  /\ (let r := GetContainerInfo Sample.consts Sample.env "ghost" false ∅
                                (Sample.boot Sample.disk) in
      (LoadConfig Sample.env (config_path Sample.env "ghost") (Sample.boot Sample.disk)).1
      = Err NotFound
      /\ r.1 = (None, None) /\ trace r.2 = [RunSelf ["rm"; "ghost"]]).
Proof. vm_compute. repeat split. Qed.

(** C9, amended. When the stored config of a container does not load,
    be it missing or corrupt: [GetContainerInfo] runs the removal
    through the program's own command line, returns no record, and
    returns the result of that command as its error; [Inspect], at
    whatever place of its list the container stands, returns the load
    error and asks nothing of the host. *)
Theorem C9_load_failure
        (C : constants) (E : env) (h : host) (e : error)
        (container : string) (size : bool) (filters : gmap string string)
        (name : string) (rest : list string) (format out : string) :
  (LoadConfig E (config_path E container) h).1 = Err e ->
  GetID E (fs h) name = container ->
  GetContainerInfo C E container size filters h
  = ((None, e_run E (trace h) (RunSelf ["rm"; container])),
     {| fs := fs h; clock := S (clock h);
        trace := trace h ++ [RunSelf ["rm"; container]] |})
  /\ Inspect_from E out (name :: rest) size format h = ((EmptyString, Some e), h)
  /\ Inspect E (name :: rest) size format h = ((EmptyString, Some e), h).
Proof.
  intros Hload Hid.
  pose proof (LoadConfig_reads E (config_path E container) h) as Hsame.
  destruct (LoadConfig E (config_path E container) h) as [r h'] eqn:HL.
  simpl in Hload, Hsame. subst r h'.
  split; [|split].
  - unfold GetContainerInfo, mbind, io_bind. fold (config_path E container).
    rewrite HL. reflexivity.
  - unfold Inspect_from, mbind, io_bind, read. simpl. rewrite Hid.
    fold (config_path E container). rewrite HL. reflexivity.
  - unfold Inspect, Inspect_from, mbind, io_bind, read. simpl. rewrite Hid.
    fold (config_path E container). rewrite HL. reflexivity.
Qed.

Lemma C9_load_failure_witness :
  GetContainerInfo Sample.consts Sample.env "2567a5ec9705eb7ac2c984033e06189d" false ∅
                   (Sample.boot disk_corrupt)
  = ((None, None),
     {| fs := disk_corrupt; clock := 1;
        trace := [RunSelf ["rm"; "2567a5ec9705eb7ac2c984033e06189d"]] |})
  /\ Inspect Sample.env ["web"] false EmptyString (Sample.boot disk_corrupt)
     = ((EmptyString, Some CorruptConfig), Sample.boot disk_corrupt).
Proof.
  pose proof (C9_load_failure Sample.consts Sample.env (Sample.boot disk_corrupt)
                CorruptConfig "2567a5ec9705eb7ac2c984033e06189d" false ∅
                "web" [] EmptyString EmptyString) as H.
  destruct H as (H1 & _ & H3); [vm_compute; reflexivity | vm_compute; reflexivity |].
  split; [exact H1 | exact H3].
Defined.

End LoadClaims.

(* ===================================================================== *)
(** ** Properties: the file system under cleanup *)
(* ===================================================================== *)

Section FsFacts.

Import Netns.

Implicit Types (d : fsmap) (p r x : path).












End FsFacts.

(* ===================================================================== *)
(** ** Properties: cleanup of the network namespace *)
(* ===================================================================== *)

Section CleanupClaims.

Import Containerutils.

Lemma stop_slirp_keeps_fs E n h : fs (stop_slirp E n h).2 = fs h.
Proof.
  unfold stop_slirp, mbind, io_bind, syscall, mret, io_ret.
  destruct (slirpProcess n) as [pid|]; [|reflexivity]. simpl.
  destruct (e_sys E (trace h) (ProcSignal pid SIGTERM)); simpl; [|reflexivity].
  destruct (e_sys E _ (ProcSignal pid SIGKILL)); reflexivity.
Qed.


Lemma Cleanup_fs E n h : fs (Cleanup E n h).2 = cleanup_fs n (fs h).
Proof.
  pose proof (stop_slirp_keeps_fs E n h) as Hfs.
  unfold Cleanup, cleanup_fs, mbind, io_bind, fsop.
  destruct (stop_slirp E n h) as [errs h0]. simpl in Hfs. rewrite <- Hfs. simpl.
  destruct (umount (NetNSMountPath n) (fs h0)) as [d1 r1]. simpl.
  destruct (remove (NetNSMountPath n) d1) as [d2 r2]. simpl.
  destruct (remove (SlirpAPISocket n) d2) as [d3 r3]. simpl.
  destruct (remove_all (RuntimeDir n) d3) as [d4 r4]. simpl.
  repeat case_match; reflexivity.
Qed.


Lemma Cleanup_result E n h :
  (Cleanup E n h).1 =
  match cleanup_errors E n h with
  | [] => None
  | _ :: _ => Some (ErrAll "cleanup errors" (cleanup_errors E n h))
  end.
Proof.
  pose proof (stop_slirp_keeps_fs E n h) as Hfs.
  unfold Cleanup, cleanup_errors, mbind, io_bind, fsop.
  destruct (stop_slirp E n h) as [errs h0]. cbn [fst snd] in *. rewrite <- Hfs.
  generalize (umount (NetNSMountPath n) (fs h0)). intros [d1 r1]. cbn [fs clock trace].
  generalize (remove (NetNSMountPath n) d1). intros [d2 r2]. cbn [fs clock trace].
  generalize (remove (SlirpAPISocket n) d2). intros [d3 r3]. cbn [fs clock trace].
  generalize (remove_all (RuntimeDir n) d3). intros [d4 r4]. cbn [fs clock trace].
  destruct r1, r2, r3 as [[]|], r4; cbn [step_error socket_error];
    rewrite ?app_nil_r, <- ?app_assoc; cbn [app];
    match goal with
    | |- context [match ?l with [] => _ | _ :: _ => _ end] => destruct l
    end; reflexivity.
Qed.



Lemma New_as_new E containerID h n h' :
  New E containerID h = (Ok n, h') -> as_new n /\ slirpProcess n = None.
Proof.
  unfold New, mbind, io_bind, fsop.
  destruct (mkdir_all _ _ _) as [d [e|]]; simpl; intros H; inversion H.
  repeat split.
Qed.

End CleanupClaims.

Section CleanupTheorem.

Import Containerutils.




(** Two steps fail and both are reported: on a host without the
    runtime directory there is nothing to unmount and no pin to remove. *)
Example cleanup_reports_every_failure :
  (Cleanup Sample.env sample_ns (Sample.boot Sample.disk)).1
  = Some (ErrAll "cleanup errors"
            [ErrWrap "failed to unmount network namespace" (Errno ENOENT);
             ErrWrap "failed to remove netns mount point" (Errno ENOENT)]).
Proof. vm_compute. reflexivity. Qed.

End CleanupTheorem.

(* ===================================================================== *)
(** ** Further properties: names, directories, process discovery *)
(* ===================================================================== *)

Section Layout.

Import Containerutils.

Lemma split_char_plain (s : string) :
  Forall (fun c => c <> "/"%char) (list_ascii_of_string s) ->
  split_char "/" s = [s].
Proof.
  induction s as [|a s IH]; simpl; intros H; [reflexivity|].
  inversion H as [|? ? Ha Hs]; subst.
  destruct (Ascii.eqb_spec a "/"%char) as [->|_]; [contradiction|].
  rewrite (IH Hs). reflexivity.
Qed.

(** Joining a plain name makes a direct child. *)
Lemma Join_plain (base : path) (s : string) : plain s -> Join base s = base ++ [s].
Proof.
  intros (H0 & H1 & H2 & Hs). unfold Join. rewrite (split_char_plain s Hs). simpl.
  unfold push. repeat (destruct (decide _); [contradiction|]). reflexivity.
Qed.

Lemma all_hex_no_slash (s : string) :
  MD5.all_hex s = true -> Forall (fun c => c <> "/"%char) (list_ascii_of_string s).
Proof.
  induction s as [|a s IH]; simpl; intros H; [constructor|].
  apply andb_true_iff in H as [Ha Hs]. constructor; [|apply IH; exact Hs].
  intros ->. vm_compute in Ha. discriminate Ha.
Qed.

Lemma hexsum_plain (N : string) : plain (MD5.hexsum N).
Proof.
  destruct (hexsum_shape N) as [Hlen Hhex].
  repeat split; try (intros Heq; rewrite Heq in Hlen; discriminate Hlen).
  apply all_hex_no_slash. exact Hhex.
Qed.

Lemma ContainerDir_child (E : env) : ContainerDir E = e_home E ++ ["containers"].
Proof. reflexivity. Qed.

(** X1. The directory of a name that is not itself an existing entry of
    the containers directory is a direct child of the containers
    directory, called by the 32 hex digits of the digest, and its rootfs
    is the child "rootfs" of that. A name that does name an existing
    path when joined to the containers directory is used as it is, also
    when the joined path leaves the containers directory. *)
Theorem GetDir_layout (E : env) (d : fsmap) (N : string) :
  (exist d (Join (ContainerDir E) N) = false ->
   GetDir E d N = e_home E ++ ["containers"; MD5.hexsum N]
   /\ GetRootfsDir E d N = e_home E ++ ["containers"; MD5.hexsum N; "rootfs"])
  /\ (exist d (Join (ContainerDir E) N) = true ->
      GetDir E d N = Join (ContainerDir E) N
      /\ GetRootfsDir E d N = Join (Join (ContainerDir E) N) "rootfs").
Proof.
  split; intros H; unfold GetRootfsDir, GetDir, GetID; rewrite H.
  - rewrite (Join_plain _ _ (hexsum_plain N)), ContainerDir_child.
    split; [rewrite <- app_assoc; reflexivity|].
    change (Join ?b "rootfs") with (b ++ ["rootfs"]).
    rewrite <- !app_assoc. reflexivity.
  - split; reflexivity.
Qed.

Lemma GetDir_layout_witness :
  GetDir Sample.env ∅ "web" = Sample.home ++ ["containers"; MD5.hexsum "web"]
  /\ GetDir Sample.env Sample.disk ".." = Join (ContainerDir Sample.env) "..".
Proof.
  split.
  - exact (proj1 (proj1 (GetDir_layout Sample.env ∅ "web") eq_refl)).
  - refine (proj1 (proj2 (GetDir_layout Sample.env Sample.disk "..") _)).
    vm_compute. reflexivity.
Defined.

(** The name ".." leads out of the containers directory. *)
Example GetDir_dotdot : Join (ContainerDir Sample.env) ".." = Sample.home.
Proof. reflexivity. Qed.

Lemma letters_lookup_is_letter (i : nat) (c : ascii) :
  letters !! i = Some c -> is_letter c = true.
Proof.
  intros H. unfold is_letter. apply bool_decide_eq_true_2.
  apply list_elem_of_lookup. exists i. exact H.
Qed.

Lemma random_runes_some (draw : nat -> nat) (from : nat) :
  (forall k, (draw k < 36)%nat) ->
  exists runes, random_runes draw from = Some runes
                /\ length runes = 6%nat
                /\ forallb is_letter runes = true.
Proof.
  intros Hdraw. unfold random_runes.
  assert (Hget : forall k, exists c, letters !! draw k = Some c /\ is_letter c = true).
  { intros k. destruct (lookup_lt_is_Some_2 letters (draw k)) as [c Hc].
    - apply Hdraw.
    - exists c. split; [exact Hc | eapply letters_lookup_is_letter; exact Hc]. }
  simpl.
  destruct (Hget (from + 0)%nat) as (c0 & -> & H0).
  destruct (Hget (from + 1)%nat) as (c1 & -> & H1).
  destruct (Hget (from + 2)%nat) as (c2 & -> & H2).
  destruct (Hget (from + 3)%nat) as (c3 & -> & H3).
  destruct (Hget (from + 4)%nat) as (c4 & -> & H4).
  destruct (Hget (from + 5)%nat) as (c5 & -> & H5).
  simpl. exists [c0; c1; c2; c3; c4; c5]. split; [reflexivity|]. split; [reflexivity|].
  simpl. rewrite H0, H1, H2, H3, H4, H5. reflexivity.
Qed.

(** X2. Whatever numbers below 36 the random source hands out,
    GetRandomName returns (without a panic) thirteen characters: six of
    a-z0-9, an underscore, six of a-z0-9. *)
Theorem GetRandomName_format (draw : nat -> nat) :
  (forall k, (draw k < 36)%nat) ->
  exists s1 s2,
    GetRandomName draw
    = Some (string_of_list_ascii s1 +:+ "_" +:+ string_of_list_ascii s2)
    /\ length s1 = 6%nat /\ length s2 = 6%nat
    /\ forallb is_letter s1 = true /\ forallb is_letter s2 = true.
Proof.
  intros Hdraw.
  destruct (random_runes_some draw 0 Hdraw) as (s1 & E1 & L1 & A1).
  destruct (random_runes_some draw 6 Hdraw) as (s2 & E2 & L2 & A2).
  exists s1, s2. unfold GetRandomName. rewrite E1, E2. repeat split; assumption.
Qed.

Lemma GetRandomName_format_witness :
  exists s1 s2,
    GetRandomName (fun k => (7 * k + 3) mod 36)%nat
    = Some (string_of_list_ascii s1 +:+ "_" +:+ string_of_list_ascii s2)
    /\ length s1 = 6%nat /\ length s2 = 6%nat
    /\ forallb is_letter s1 = true /\ forallb is_letter s2 = true.
Proof.
  apply (GetRandomName_format (fun k => (7 * k + 3) mod 36)%nat).
  intros k. apply Nat.mod_upper_bound. discriminate.
Defined.

Example GetRandomName_sample :
  GetRandomName (fun k => (7 * k + 3) mod 36)%nat = Some "dkry5c_jqx4bi"
  /\ GetRandomName (fun k => 36 + k)%nat = None.
Proof. split; vm_compute; reflexivity. Qed.

End Layout.

Section Discovery.

Import Containerutils.

Lemma find_pid_skips id skipped rest :
  Forall (fun e => marked id e = false) skipped ->
  find_pid id (skipped ++ rest) = find_pid id rest.
Proof.
  induction 1 as [|[name [data|]] l Hx _ IH]; simpl; [reflexivity| |exact IH].
  unfold marked in Hx. simpl in Hx. rewrite Hx. exact IH.
Qed.

(** X3. GetPid answers from the first entry of /proc whose marker file
    is readable and contains the resolved ID, whatever follows it: the
    number its name stands for, or, when the name is no 32-bit number,
    -1 with an error. *)
Theorem GetPid_first_marked (E : env) (id : string) (h : host)
        (skipped rest : list (string * option string)) (name data : string) :
  e_proc E (clock h) = Ok (skipped ++ (name, Some data) :: rest) ->
  Forall (fun e => marked (GetID E (fs h) id) e = false) skipped ->
  Contains data (GetID E (fs h) id) = true ->
  match ParseInt32 name with
  | Some pid => (GetPid E id h).1 = (pid, None)
  | None => exists e, (GetPid E id h).1 = (-1, Some e)
  end.
Proof.
  intros Hproc Hskip Hdata. unfold GetPid. rewrite Hproc. simpl.
  rewrite (find_pid_skips _ _ _ Hskip). simpl. rewrite Hdata.
  destruct (ParseInt32 name); [reflexivity | eexists; reflexivity].
Qed.

Lemma GetPid_first_marked_witness :
  (GetPid Sample.env "web" running).1 = (4242, None).
Proof.
  refine (GetPid_first_marked Sample.env "web" running [("1", None)] [("self", None)]
            "4242" "engine=lilipod id=2567a5ec9705eb7ac2c984033e06189d" _ _ _).
  - reflexivity.
  - constructor; [reflexivity | constructor].
  - vm_compute. reflexivity.
Defined.

Lemma find_pid_shape id processes pid err :
  find_pid id processes = (pid, err) ->
  match err with
  | Some _ => pid = -1
  | None =>
      exists name data,
        (name, Some data) ∈ processes
        /\ Contains data id = true /\ ParseInt32 name = Some pid
  end.
Proof.
  induction processes as [|[name [data|]] l IH]; simpl.
  - intros [= <- <-]. reflexivity.
  - destruct (Contains data id) eqn:Hc.
    + destruct (ParseInt32 name) as [p|] eqn:Hp; intros [= <- <-]; [|reflexivity].
      exists name, data. split; [apply list_elem_of_here | split; assumption].
    + intros H. specialize (IH H). destruct err; [exact IH|].
      destruct IH as (n & d & Hin & Hrest). exists n, d.
      split; [apply list_elem_of_further; exact Hin | exact Hrest].
  - intros H. specialize (IH H). destruct err; [exact IH|].
    destruct IH as (n & d & Hin & Hrest). exists n, d.
    split; [apply list_elem_of_further; exact Hin | exact Hrest].
Qed.

Lemma ParseInt32_range s v : ParseInt32 s = Some v -> - 2 ^ 31 <= v <= 2 ^ 31 - 1.
Proof.
  unfold ParseInt32.
  destruct (match s with
            | String "-"%char r => (true, r)
            | String "+"%char r => (false, r)
            | _ => (false, s)
            end) as [neg body].
  destruct body as [|c body]; [discriminate|].
  destruct (digits_val 0 (String c body)) as [w|]; [|discriminate].
  destruct ((- 2 ^ 31 <=? (if neg then - w else w))
            && ((if neg then - w else w) <=? 2 ^ 31 - 1)) eqn:Hr; [|discriminate].
  intros [= <-]. apply andb_true_iff in Hr as [H1 H2].
  apply Z.leb_le in H1, H2. lia.
Qed.

(** X4. Every answer of GetPid is of one of two shapes: -1 with an
    error, or no error and a 32-bit PID that is the name of an entry of
    /proc whose marker contains the resolved ID. It changes neither the
    file system nor the clock. In particular a failure of GetPid is
    never a PID above zero, which is what the loop of Stop and IsRunning
    rely on. *)
Theorem GetPid_answers (E : env) (id : string) (h : host) (pid : Z) (err : option error) :
  (GetPid E id h).1 = (pid, err) ->
  fs (GetPid E id h).2 = fs h /\ clock (GetPid E id h).2 = clock h
  /\ match err with
     | Some _ => pid = -1 /\ (IsRunning E id h).1 = false
     | None =>
         - 2 ^ 31 <= pid <= 2 ^ 31 - 1
         /\ (IsRunning E id h).1 = (0 <? pid)
         /\ exists processes name data,
             e_proc E (clock h) = Ok processes
             /\ (name, Some data) ∈ processes
             /\ Contains data (GetID E (fs h) id) = true
             /\ ParseInt32 name = Some pid
     end.
Proof.
  unfold IsRunning, mbind, io_bind, mret, io_ret, GetPid.
  destruct (e_proc E (clock h)) as [processes|e]; simpl.
  - intros Hfind. rewrite Hfind. simpl. split; [reflexivity|]. split; [reflexivity|].
    pose proof (find_pid_shape _ _ _ _ Hfind) as Hshape.
    destruct err as [e|].
    + subst pid. split; reflexivity.
    + destruct Hshape as (name & data & Hin & Hc & Hp).
      split; [eapply ParseInt32_range; exact Hp|].
      split; [apply andb_true_r|].
      exists processes, name, data. auto.
  - intros [= <- <-]. repeat split; reflexivity.
Qed.

Lemma GetPid_answers_witness :
  (IsRunning Sample.env "web" running).1 = true
  /\ (IsRunning Sample.env "web" (Sample.boot Sample.disk)).1 = false.
Proof.
  split.
  - destruct (GetPid_answers Sample.env "web" running 4242 None) as (_ & _ & _ & H & _).
    + vm_compute. reflexivity.
    + rewrite H. reflexivity.
  - destruct (GetPid_answers Sample.env "web" (Sample.boot Sample.disk) (-1)
                (Some (ErrNew "container 2567a5ec9705eb7ac2c984033e06189d is not running")))
      as (_ & _ & _ & H).
    + vm_compute. reflexivity.
    + exact H.
Defined.

Lemma Contains_empty (s : string) : Contains s EmptyString = true.
Proof. destruct s; reflexivity. Qed.

(** X5. The empty name, once the containers directory exists, resolves
    to the empty ID, and every readable marker contains it: GetPid of
    the empty name answers from the first entry of /proc that has a
    readable marker, whichever container that is. *)
Theorem GetPid_empty_name (E : env) (h : host)
        (skipped rest : list (string * option string)) (name data : string) :
  exist (fs h) (ContainerDir E) = true ->
  e_proc E (clock h) = Ok (skipped ++ (name, Some data) :: rest) ->
  Forall (fun e => e.2 = None) skipped ->
  GetID E (fs h) EmptyString = EmptyString
  /\ match ParseInt32 name with
     | Some pid => (GetPid E EmptyString h).1 = (pid, None)
     | None => exists e, (GetPid E EmptyString h).1 = (-1, Some e)
     end.
Proof.
  intros Hdir Hproc Hskip.
  assert (Hid : GetID E (fs h) EmptyString = EmptyString).
  { unfold GetID. change (Join (ContainerDir E) EmptyString) with (ContainerDir E).
    rewrite Hdir. reflexivity. }
  split; [exact Hid|].
  unfold GetPid. rewrite Hproc, Hid. simpl. rewrite find_pid_skips.
  - simpl. rewrite Contains_empty.
    destruct (ParseInt32 name); [reflexivity | eexists; reflexivity].
  - eapply Forall_impl; [exact Hskip|].
    intros [n o] Ho. simpl in Ho. subst o. reflexivity.
Qed.

Lemma GetPid_empty_name_witness :
  GetID Sample.env (fs running) EmptyString = EmptyString
  /\ (GetPid Sample.env EmptyString running).1 = (4242, None).
Proof.
  refine (GetPid_empty_name Sample.env running [("1", None)] [("self", None)]
            "4242" "engine=lilipod id=2567a5ec9705eb7ac2c984033e06189d" _ _ _).
  - vm_compute. reflexivity.
  - reflexivity.
  - constructor; [reflexivity | constructor].
Defined.

End Discovery.

(* ===================================================================== *)
(** ** Further properties: Inspect *)
(* ===================================================================== *)

Section Inspection.

Import Containerutils.

Lemma bind_eq {A B} (m : io A) (k : A -> io B) (h : host) :
  (m ≫= k) h = k (m h).1 (m h).2.
Proof. unfold mbind, io_bind. destruct (m h). reflexivity. Qed.

Lemma append_nil_r (s : string) : s +:+ EmptyString = s.
Proof.
  induction s as [|a s IH]; [reflexivity|].
  change (String a (s +:+ EmptyString) = String a s). f_equal. exact IH.
Qed.

Lemma append_assoc (s1 s2 s3 : string) : (s1 +:+ s2) +:+ s3 = s1 +:+ (s2 +:+ s3).
Proof.
  induction s1 as [|a s1 IH]; [reflexivity|].
  change (String a ((s1 +:+ s2) +:+ s3) = String a (s1 +:+ (s2 +:+ s3))). f_equal. exact IH.
Qed.

Lemma LoadConfig_fs E p h h' : fs h = fs h' -> (LoadConfig E p h).1 = (LoadConfig E p h').1.
Proof.
  intros Hfs. unfold LoadConfig. rewrite !bind_eq. unfold read. simpl. rewrite Hfs.
  destruct (read_file p (fs h')) as [data|e]; [|reflexivity].
  destruct (e_unmarshal E data); reflexivity.
Qed.

Lemma IsRunning_poll E name h :
  IsRunning E name h
  = ((0 <? (poll E name (fs h) (clock h)).1)
     && match (poll E name (fs h) (clock h)).2 with None => true | Some _ => false end,
     logged ReadProc h).
Proof.
  unfold IsRunning. rewrite bind_eq, GetPid_poll. simpl.
  destruct (poll E name (fs h) (clock h)) as [pid err]. reflexivity.
Qed.

(** One round of the loop of [Inspect]: it ends the loop with an error,
    or appends a piece of output that depends on the container, the
    file system and the clock alone. *)
Lemma Inspect_from_cons E size format c d t :
  (exists e (asked : bool), forall result rest tr,
      Inspect_from E result (c :: rest) size format {| fs := d; clock := t; trace := tr |}
      = ((EmptyString, Some e),
         {| fs := d; clock := t; trace := tr ++ (if asked then [ReadProc] else []) |}))
  \/ (exists out, forall result rest tr,
      Inspect_from E result (c :: rest) size format {| fs := d; clock := t; trace := tr |}
      = Inspect_from E (result +:+ out) rest size format
          {| fs := d; clock := t; trace := tr ++ [ReadProc] |}).
Proof.
  set (at_ tr := {| fs := d; clock := t; trace := tr |}).
  set (p := Join (Join (ContainerDir E) (GetID E d c)) "config").
  destruct (LoadConfig E p (at_ [])).1 as [config|e] eqn:Hcfg.
  2:{ left. exists e, false. intros result rest tr. cbn [Inspect_from].
      rewrite !bind_eq. unfold read. cbn [fst snd]. rewrite LoadConfig_reads.
      change (fs (at_ tr)) with d. fold p. rewrite (LoadConfig_fs E p (at_ tr) (at_ [])), Hcfg by reflexivity.
      unfold mret, io_ret, at_. rewrite app_nil_r. reflexivity. }
  set (state := if (0 <? (poll E (Names config) d t).1)
                   && match (poll E (Names config) d t).2 with
                      | None => true
                      | Some _ => false
                      end
                then "running" else "stopped" : string).
  assert (Hstep : forall result rest tr,
    Inspect_from E result (c :: rest) size format (at_ tr)
    = match (if size
             then match e_du E (Join (ContainerDir E) (GetID E d c)) with
                  | Err e => Err e
                  | Ok directorySize => Ok (set_Size (set_Status config state) directorySize)
                  end
             else Ok (set_Status config state))
            return io (string * option error) with
      | Err e => mret (EmptyString, Some e)
      | Ok config =>
          if negb (streq format EmptyString) then
            match e_template E format with
            | Err e => mret (EmptyString, Some e)
            | Ok tmpl =>
                match tmpl config with
                | Err e => mret (EmptyString, Some e)
                | Ok out => Inspect_from E (result +:+ out) rest size format
                end
            end
          else
            match e_marshal_indent E config with
            | Err e => mret (EmptyString, Some e)
            | Ok out =>
                Inspect_from E (result +:+ out +:+ String "010"%char EmptyString)
                             rest size format
            end
      end (at_ (tr ++ [ReadProc]))).
  { intros result rest tr. cbn [Inspect_from].
    rewrite !bind_eq. unfold read. cbn [fst snd]. rewrite LoadConfig_reads.
    change (fs (at_ tr)) with d. fold p. rewrite (LoadConfig_fs E p (at_ tr) (at_ [])), Hcfg by reflexivity.
    rewrite bind_eq, IsRunning_poll. reflexivity. }
  assert (Hfail : forall e : error,
            (forall result rest tr,
                Inspect_from E result (c :: rest) size format (at_ tr)
                = ((EmptyString, Some e), at_ (tr ++ [ReadProc]))) ->
            exists e (asked : bool), forall result rest tr,
              Inspect_from E result (c :: rest) size format (at_ tr)
              = ((EmptyString, Some e),
                 at_ (tr ++ (if asked then [ReadProc] else [])))).
  { intros e He. exists e, true. exact He. }
  destruct (if size
            then match e_du E (Join (ContainerDir E) (GetID E d c)) with
                 | Err e => Err e
                 | Ok directorySize => Ok (set_Size (set_Status config state) directorySize)
                 end
            else Ok (set_Status config state)) as [config'|e];
    [|left; apply (Hfail e); exact Hstep].
  destruct (negb (streq format EmptyString)).
  - destruct (e_template E format) as [tmpl|e]; [|left; apply (Hfail e); exact Hstep].
    destruct (tmpl config') as [out|e]; [|left; apply (Hfail e); exact Hstep].
    right. exists out. exact Hstep.
  - destruct (e_marshal_indent E config') as [out|e]; [|left; apply (Hfail e); exact Hstep].
    right. exists (out +:+ String "010"%char EmptyString). exact Hstep.
Qed.

Lemma Inspect_from_host E size format : forall containers result h,
  exists k, (k <= length containers)%nat
            /\ (Inspect_from E result containers size format h).2
               = {| fs := fs h; clock := clock h;
                    trace := trace h ++ replicate k ReadProc |}.
Proof.
  induction containers as [|c rest IH]; intros result [d t tr].
  - exists 0%nat. split; [reflexivity|]. simpl. rewrite app_nil_r. reflexivity.
  - destruct (Inspect_from_cons E size format c d t) as [(e & asked & ->)|(out & ->)].
    + exists (if asked then 1 else 0)%nat. split; [destruct asked; simpl; lia|].
      destruct asked; reflexivity.
    + destruct (IH (result +:+ out) {| fs := d; clock := t; trace := tr ++ [ReadProc] |})
        as (k & Hk & ->).
      exists (S k). split; [simpl; lia|]. simpl. rewrite <- app_assoc. reflexivity.
Qed.

Lemma Inspect_from_value E size format : forall containers result h h',
  fs h = fs h' -> clock h = clock h' ->
  (Inspect_from E result containers size format h).1
  = (Inspect_from E result containers size format h').1.
Proof.
  induction containers as [|c rest IH]; intros result [d t tr] [d' t' tr'] Hfs Hclock;
    cbn [fs clock] in Hfs, Hclock; subst d' t'; [reflexivity|].
  destruct (Inspect_from_cons E size format c d t) as [(e & asked & Hc)|(out & Hc)];
    rewrite !Hc; [reflexivity|].
  apply IH; reflexivity.
Qed.

(** The accumulator only collects. *)
Lemma Inspect_from_result E size format : forall containers result h,
  Inspect_from E result containers size format h
  = match Inspect_from E EmptyString containers size format h with
    | ((out, None), h') => ((result +:+ out, None), h')
    | ((_, Some e), h') => ((EmptyString, Some e), h')
    end.
Proof.
  induction containers as [|c rest IH]; intros result [d t tr].
  - simpl. unfold mret, io_ret. rewrite append_nil_r. reflexivity.
  - destruct (Inspect_from_cons E size format c d t) as [(e & asked & Hc)|(out & Hc)];
      rewrite !Hc; [reflexivity|].
    rewrite (IH (result +:+ out)), (IH (EmptyString +:+ out)).
    destruct (Inspect_from E EmptyString rest size format _) as [[out' [e|]] h'];
      [reflexivity|].
    rewrite append_assoc. reflexivity.
Qed.

Lemma Inspect_from_app E size format : forall l1 l2 result h,
  Inspect_from E result (l1 ++ l2) size format h
  = match Inspect_from E result l1 size format h with
    | ((out, None), h') => Inspect_from E out l2 size format h'
    | ((out, Some e), h') => ((out, Some e), h')
    end.
Proof.
  induction l1 as [|c rest IH]; intros l2 result [d t tr]; [reflexivity|].
  rewrite <- app_comm_cons.
  destruct (Inspect_from_cons E size format c d t) as [(e & asked & Hc)|(out & Hc)];
    rewrite !Hc; [reflexivity|].
  apply IH.
Qed.

Lemma Inspect_from_error E size format containers h out e :
  (Inspect_from E EmptyString containers size format h).1 = (out, Some e) ->
  out = EmptyString.
Proof.
  rewrite Inspect_from_result.
  destruct (Inspect_from E EmptyString containers size format h) as [[out' [e'|]] h'];
    simpl; intros [= <- _]; reflexivity.
Qed.

(** X6. Inspect only looks: the file system and the clock are as
    before, and the calls it makes are queries of /proc, at most one for
    each container named. *)
Theorem Inspect_read_only (E : env) (containers : list string) (size : bool)
        (format : string) (h : host) :
  let r := Inspect E containers size format h in
  fs r.2 = fs h /\ clock r.2 = clock h
  /\ exists k, (k <= length containers)%nat
               /\ trace r.2 = trace h ++ replicate k ReadProc.
Proof.
  unfold Inspect.
  destruct (Inspect_from_host E size format containers EmptyString h) as (k & Hk & ->).
  simpl. repeat split. exists k. split; [exact Hk | reflexivity].
Qed.

(** X7. Inspect gives all or nothing: when it returns an error the
    output is empty, whatever the containers before the failing one had
    contributed. *)
Theorem Inspect_all_or_nothing (E : env) (containers : list string) (size : bool)
        (format : string) (h : host) :
  match (Inspect E containers size format h).1 with
  | (out, Some _) => out = EmptyString
  | (_, None) => True
  end.
Proof.
  unfold Inspect.
  destruct (Inspect_from E EmptyString containers size format h).1 as [out [e|]] eqn:Hr;
    [|exact I].
  eapply Inspect_from_error. exact Hr.
Qed.

(** X8. The output for a list of containers is the output for its first
    part followed by the output for the rest, both taken on the host as
    it is found; the first error met is the error returned. *)
Theorem Inspect_app (E : env) (l1 l2 : list string) (size : bool)
        (format : string) (h : host) :
  (Inspect E (l1 ++ l2) size format h).1
  = match (Inspect E l1 size format h).1 with
    | (out1, None) =>
        match (Inspect E l2 size format h).1 with
        | (out2, None) => (out1 +:+ out2, None)
        | (_, Some e) => (EmptyString, Some e)
        end
    | (_, Some e) => (EmptyString, Some e)
    end.
Proof.
  unfold Inspect. rewrite Inspect_from_app.
  pose proof (Inspect_from_error E size format l1 h) as Hnothing.
  destruct (Inspect_from_host E size format l1 EmptyString h) as (k & _ & Hhost).
  destruct (Inspect_from E EmptyString l1 size format h) as [[out1 [e|]] h1];
    simpl in *; [rewrite (Hnothing out1 e eq_refl); reflexivity|].
  rewrite Inspect_from_result.
  rewrite (surjective_pairing (Inspect_from E EmptyString l2 size format h1)).
  rewrite (Inspect_from_value E size format l2 EmptyString h1 h)
    by (subst h1; reflexivity).
  destruct (Inspect_from E EmptyString l2 size format h).1 as [out2 [e|]]; reflexivity.
Qed.

End Inspection.

(* ===================================================================== *)
(** ** Further properties: the listing and the paths of Stop that do not wait *)
(* ===================================================================== *)

Section Listing.

Import Containerutils.

Lemma filterContainer_singleton C config name filter :
  filterContainer C config {[name := filter]}
  = (1 <=? filter_entry C config name filter 0).
Proof.
  unfold filterContainer. rewrite map_size_singleton.
  destruct (decide (1 = 0)%nat) as [Hz|_]; [discriminate Hz|].
  rewrite <- insert_empty, filter_fold_insert by apply lookup_empty.
  rewrite map_fold_empty. reflexivity.
Qed.

(** X9. The status filter of the listing is checked against the status
    stored in the config file, before the state of the container is
    looked up. A record whose stored status differs from the filter is
    left out without /proc being read; one whose stored status equals it
    is treated as if no filter had been given, and comes back with the
    status that /proc gives. *)
Theorem GetContainerInfo_status_filter
        (C : constants) (E : env) (h : host) (container : string) (size : bool)
        (wanted : string) (config : Config) :
  (LoadConfig E (config_path E container) h).1 = Ok config ->
  (Status config <> wanted ->
   GetContainerInfo C E container size {["status" := wanted]} h = ((None, None), h))
  /\ (Status config = wanted ->
      GetContainerInfo C E container size {["status" := wanted]} h
      = GetContainerInfo C E container size ∅ h).
Proof.
  intros Hload. unfold GetContainerInfo. rewrite !bind_eq, LoadConfig_reads.
  fold (config_path E container). rewrite Hload.
  rewrite filterContainer_singleton.
  change (filter_entry C config "status" wanted 0)
    with (if streq (Status config) wanted then 0 + 1 else 0).
  unfold streq. split; intros Hs.
  - rewrite bool_decide_eq_false_2 by exact Hs. reflexivity.
  - rewrite bool_decide_eq_true_2 by exact Hs. reflexivity.
Qed.

Lemma GetContainerInfo_status_filter_witness :
  GetContainerInfo Sample.consts Sample.env "2567a5ec9705eb7ac2c984033e06189d" false
                   {["status" := "running"]} running
  = ((None, None), running).
Proof.
  refine (proj1 (GetContainerInfo_status_filter Sample.consts Sample.env running
                   "2567a5ec9705eb7ac2c984033e06189d" false "running" Sample.config _) _).
  - vm_compute. reflexivity.
  - discriminate.
Defined.

End Listing.

Section StopPaths.

Import Containerutils.

(** X10. The paths of Stop that do not wait. When the container is not
    found the error of the lookup is returned and no signal is sent.
    With force, SIGKILL goes to the PID found and nothing else happens.
    Without force, a failing SIGTERM ends the call with its error; and
    with a timeout that is not above zero SIGKILL follows SIGTERM at
    once, without a second look at /proc. *)
Theorem Stop_without_wait (E : env) (name : string) (T : Z) (fuel : nat) (h : host) :
  let found := poll E name (fs h) (clock h) in
  let h1 := logged ReadProc h in
  (forall e force, found.2 = Some e ->
     Stop E fuel name force T h = (Some (Some e), h1))
  /\ (found.2 = None ->
      Stop E fuel name true T h
      = (Some (as_error (e_sys E (trace h1) (Kill found.1 SIGKILL))),
         logged (Kill found.1 SIGKILL) h1))
  /\ (forall e, found.2 = None ->
      e_sys E (trace h1) (Kill found.1 SIGTERM) = Some e ->
      Stop E fuel name false T h
      = (Some (Some (Errno e)), logged (Kill found.1 SIGTERM) h1))
  /\ (found.2 = None ->
      e_sys E (trace h1) (Kill found.1 SIGTERM) = None ->
      T <= 0 -> (1 <= fuel)%nat ->
      let h2 := logged (Kill found.1 SIGTERM) h1 in
      Stop E fuel name false T h
      = (Some (as_error (e_sys E (trace h2) (Kill found.1 SIGKILL))),
         logged (Kill found.1 SIGKILL) h2)).
Proof.
  intros found h1.
  assert (Hstart : forall force,
            Stop E fuel name force T h
            = match found.2 with
              | Some e => mret (Some (Some e))
              | None =>
                  if force then
                    r ← syscall E (Kill found.1 SIGKILL);
                    mret (Some (as_error r))
                  else
                    r ← syscall E (Kill found.1 SIGTERM);
                    match r with
                    | Some e => mret (Some (Some (Errno e)))
                    | None => stop_wait E fuel name found.1 T
                    end
              end h1).
  { intros force. unfold Stop. rewrite bind_eq, GetPid_poll. fold found h1.
    destruct found as [pid err]. reflexivity. }
  split; [|split; [|split]].
  - intros e force He. rewrite Hstart, He. reflexivity.
  - intros He. rewrite Hstart, He. reflexivity.
  - intros e He Hterm. rewrite Hstart, He, bind_eq. unfold syscall at 1. cbn [fst snd].
    rewrite Hterm. reflexivity.
  - intros He Hterm HT Hfuel h2. rewrite Hstart, He, bind_eq. unfold syscall at 1.
    cbn [fst snd]. rewrite Hterm. destruct fuel as [|fuel]; [lia|]. cbn [stop_wait].
    replace (T <=? 0) with true by (symmetry; apply Z.leb_le; exact HT).
    reflexivity.
Qed.

Lemma Stop_without_wait_witness :
  Stop Sample.env 0 "web" true 10 running
  = (Some None, {| fs := Sample.disk; clock := 1;
                   trace := [ReadProc; Kill 4242 SIGKILL] |})
  /\ Stop Sample.env 1 "web" false 0 running
     = (Some None, {| fs := Sample.disk; clock := 1;
                      trace := [ReadProc; Kill 4242 SIGTERM; Kill 4242 SIGKILL] |})
  /\ (Stop Sample.env 1 "web" false 10 (Sample.boot Sample.disk)).2
     = logged ReadProc (Sample.boot Sample.disk).
Proof.
  assert (Hfound : poll Sample.env "web" (fs running) (clock running) = (4242, None))
    by (vm_compute; reflexivity).
  assert (Hnone : (poll Sample.env "web" Sample.disk 0).2
                  = Some (ErrNew "container 2567a5ec9705eb7ac2c984033e06189d is not running"))
    by (vm_compute; reflexivity).
  pose proof (Stop_without_wait Sample.env "web" 10 0 running) as (_ & Hforce & _).
  pose proof (Stop_without_wait Sample.env "web" 0 1 running) as (_ & _ & _ & Hzero).
  pose proof (Stop_without_wait Sample.env "web" 10 1 (Sample.boot Sample.disk))
    as (Hgone & _).
  cbv zeta in Hforce, Hzero. rewrite Hfound in Hforce, Hzero. cbn [fst snd] in Hforce, Hzero.
  split; [|split].
  - rewrite (Hforce eq_refl). reflexivity.
  - rewrite (Hzero eq_refl eq_refl ltac:(lia) ltac:(lia)). reflexivity.
  - rewrite (Hgone _ false Hnone). reflexivity.
Defined.

End StopPaths.

(* ===================================================================== *)
(** ** Further properties: filters *)
(* ===================================================================== *)

Section Filters.

Import Containerutils.

Lemma filter_entry_field C config name filter :
  name <> "label" ->
  (field_matches config name filter /\ filter_entry C config name filter 0 = 1)
  \/ (~ field_matches config name filter /\ filter_entry C config name filter 0 = 0).
Proof.
  intros Hlabel. unfold filter_entry, streq, field_matches.
  rewrite (bool_decide_eq_false_2 _ Hlabel).
  destruct (decide (name = "status")) as [->|Hs].
  { rewrite (bool_decide_eq_true_2 _ eq_refl).
    destruct (decide (Status config = filter)) as [Hf|Hf].
    - rewrite (bool_decide_eq_true_2 _ Hf). left. split; [left; split; [reflexivity|exact Hf] | reflexivity].
    - rewrite (bool_decide_eq_false_2 _ Hf). right. split; [|reflexivity].
      intros [[_ H]|[[H _]|[H _]]]; [contradiction | discriminate H | discriminate H]. }
  rewrite (bool_decide_eq_false_2 _ Hs).
  destruct (decide (name = "name")) as [->|Hn].
  { rewrite (bool_decide_eq_true_2 _ eq_refl).
    destruct (decide (Names config = filter)) as [Hf|Hf].
    - rewrite (bool_decide_eq_true_2 _ Hf). left. split; [right; left; split; [reflexivity|exact Hf] | reflexivity].
    - rewrite (bool_decide_eq_false_2 _ Hf). right. split; [|reflexivity].
      intros [[H _]|[[_ H]|[H _]]]; [discriminate H | contradiction | discriminate H]. }
  rewrite (bool_decide_eq_false_2 _ Hn).
  destruct (decide (name = "id")) as [->|Hi].
  { rewrite (bool_decide_eq_true_2 _ eq_refl).
    destruct (decide (ID config = filter)) as [Hf|Hf].
    - rewrite (bool_decide_eq_true_2 _ Hf). left. split; [right; right; split; [reflexivity|exact Hf] | reflexivity].
    - rewrite (bool_decide_eq_false_2 _ Hf). right. split; [|reflexivity].
      intros [[H _]|[[H _]|[_ H]]]; [discriminate H | discriminate H | contradiction]. }
  rewrite (bool_decide_eq_false_2 _ Hi). right. split; [|reflexivity].
  intros [[H _]|[[H _]|[H _]]]; contradiction.
Qed.

(** X11. Without a label filter the map is a conjunction: the record
    passes exactly when every key is one of status, name and id and the
    value is that field of the record. In particular one unknown key
    rejects every record. *)
Theorem filterContainer_without_label
        (C : constants) (config : Config) (filters : gmap string string) :
  filters !! "label" = None ->
  filterContainer C config filters = true
  <-> map_Forall (field_matches config) filters.
Proof.
  intros Hlabel.
  assert (Hkeys : forall name filter, filters !! name = Some filter -> name <> "label").
  { intros name filter Hin ->. rewrite Hlabel in Hin. discriminate Hin. }
  split.
  - intros Hpass.
    assert (Hle : map_Forall (fun name filter => filter_entry C config name filter 0 <= 1)
                             filters).
    { intros name filter Hin.
      destruct (filter_entry_field C config name filter (Hkeys _ _ Hin)) as [[_ ->]|[_ ->]];
        lia. }
    pose proof (filterContainer_only_when_all_match C config filters Hle Hpass) as Hone.
    intros name filter Hin. specialize (Hone name filter Hin). cbn beta in Hone.
    destruct (filter_entry_field C config name filter (Hkeys _ _ Hin)) as [[Hm _]|[_ Hz]];
      [exact Hm | rewrite Hz in Hone; discriminate Hone].
  - intros Hall. apply filterContainer_when_all_match.
    intros name filter Hin. specialize (Hall name filter Hin). cbn beta in Hall.
    destruct (filter_entry_field C config name filter (Hkeys _ _ Hin)) as [[_ ->]|[Hn _]];
      [lia | contradiction].
Qed.

Lemma filterContainer_without_label_witness :
  filterContainer Sample.consts Sample.config
    (<["name" := "web"]> {["id" := "2567a5ec9705eb7ac2c984033e06189d"]}) = true
  /\ ~ filterContainer Sample.consts Sample.config
         (<["name" := "web"]> {["colour" := "red"]}) = true.
Proof.
  split.
  - refine (proj2 (filterContainer_without_label Sample.consts Sample.config
                     (<["name" := "web"]> {["id" := "2567a5ec9705eb7ac2c984033e06189d"]})
                     _) _).
    + vm_compute. reflexivity.
    + apply map_Forall_insert; [vm_compute; reflexivity|]. split.
      * right. left. split; reflexivity.
      * apply map_Forall_singleton. right. right. split; reflexivity.
  - intros Hpass.
    refine (_ (proj1 (filterContainer_without_label Sample.consts Sample.config
                        (<["name" := "web"]> {["colour" := "red"]}) _) Hpass)).
    + intros Hall. specialize (Hall "colour" "red" ltac:(vm_compute; reflexivity)).
      destruct Hall as [[H _]|[[H _]|[H _]]]; discriminate H.
    + vm_compute. reflexivity.
Defined.

Lemma count_filter_labels (cl : string) (labels : list string) :
  0 <= fold_left (fun m fl => if streq cl fl then m + 1 else m) labels 0
  /\ (1 <= fold_left (fun m fl => if streq cl fl then m + 1 else m) labels 0
      <-> cl ∈ labels).
Proof.
  induction labels as [|fl labels [IH0 IH]]; simpl.
  - split; [lia|]. split; [lia | intros H; inversion H].
  - rewrite (fold_left_additive (fun m fl => if streq cl fl then m + 1 else m))
      by (intros m x; destruct (streq cl x); lia).
    unfold streq at 1 3. destruct (decide (cl = fl)) as [->|Hne].
    + rewrite (bool_decide_eq_true_2 _ eq_refl). split; [lia|].
      split; [intros _; apply list_elem_of_here | lia].
    + rewrite (bool_decide_eq_false_2 _ Hne). split; [lia|].
      rewrite elem_of_cons. split.
      * intros H. right. apply IH. lia.
      * intros [H|H]; [contradiction|]. apply IH in H. lia.
Qed.

Lemma count_labels (cls labels : list string) :
  0 <= fold_left
         (fun m cl => fold_left (fun m fl => if streq cl fl then m + 1 else m) labels m)
         cls 0
  /\ (1 <= fold_left
             (fun m cl => fold_left (fun m fl => if streq cl fl then m + 1 else m) labels m)
             cls 0
      <-> exists l, l ∈ cls /\ l ∈ labels).
Proof.
  assert (Hadd : forall m cl,
            fold_left (fun m fl => if streq cl fl then m + 1 else m) labels m
            = m + fold_left (fun m fl => if streq cl fl then m + 1 else m) labels 0).
  { intros m cl. apply (fold_left_additive (fun m fl => if streq cl fl then m + 1 else m)).
    intros m' x. destruct (streq cl x); lia. }
  induction cls as [|cl cls [IH0 IH]]; simpl.
  - split; [lia|]. split; [lia | intros (l & H & _); inversion H].
  - rewrite (fold_left_additive
               (fun m cl => fold_left (fun m fl => if streq cl fl then m + 1 else m) labels m))
      by (intros m x; rewrite (Hadd m x), (Hadd 0 x); lia).
    destruct (count_filter_labels cl labels) as [Hc0 Hc].
    split; [lia|]. split.
    + intros H.
      destruct (Z_le_gt_dec 1
                  (fold_left (fun m fl => if streq cl fl then m + 1 else m) labels 0))
        as [Hhere|Hnot].
      * exists cl. split; [apply list_elem_of_here | apply Hc; exact Hhere].
      * destruct (proj1 IH) as (l & Hl & Hin); [lia|].
        exists l. split; [apply list_elem_of_further; exact Hl | exact Hin].
    + intros (l & Hl & Hin). apply elem_of_cons in Hl as [->|Hl].
      * apply Hc in Hin. lia.
      * assert (1 <= fold_left
                        (fun m cl => fold_left (fun m fl => if streq cl fl then m + 1 else m)
                                               labels m) cls 0)
          by (apply IH; exists l; split; assumption).
        lia.
Qed.

(** X12. A label filter alone asks for any one of its labels: the record
    passes exactly when one of its labels is among the pieces into which
    the separator cuts the filter. *)
Theorem filterContainer_label_any (C : constants) (config : Config) (filter : string) :
  filterContainer C config {["label" := filter]} = true
  <-> exists l, l ∈ Labels config /\ l ∈ Split filter (FilterSeparator C).
Proof.
  rewrite filterContainer_singleton.
  change (filter_entry C config "label" filter 0)
    with (fold_left
            (fun m cl =>
               fold_left (fun m fl => if streq cl fl then m + 1 else m)
                         (Split filter (FilterSeparator C)) m)
            (Labels config) 0).
  rewrite Z.leb_le. apply count_labels.
Qed.

End Filters.

(* ===================================================================== *)
(** ** Further properties: the life of a network namespace *)
(* ===================================================================== *)

Section NamespaceLife.

Import Containerutils.

Lemma mkdir_from_keeps perm q n : forall rest base d,
  d !! q = Some n -> (mkdir_from base rest perm d).1 !! q = Some n.
Proof.
  induction rest as [|c rest IH]; intros base d Hq; simpl; [exact Hq|].
  destruct (d !! (base ++ [c])) as [n'|] eqn:Hp.
  - destruct (is_dir_node n'); [apply IH; exact Hq | exact Hq].
  - apply IH. rewrite lookup_insert_ne; [exact Hq|]. intros <-. congruence.
Qed.

(** What [os.MkdirAll] adds are directories on the way to its target,
    with no mount on them. *)
Lemma mkdir_from_new perm q n : forall rest base d,
  (mkdir_from base rest perm d).1 !! q = Some n ->
  d !! q = Some n
  \/ (d !! q = None /\ nd_mounts n = 0%nat /\ q `prefix_of` base ++ rest).
Proof.
  induction rest as [|c rest IH]; intros base d; simpl; [left; assumption|].
  destruct (d !! (base ++ [c])) as [n'|] eqn:Hp.
  - destruct (is_dir_node n'); [|left; assumption].
    intros H. apply IH in H as [H|(H1 & H2 & H3)]; [left; exact H|].
    right. rewrite <- app_assoc in H3. auto.
  - intros H. apply IH in H as [H|(H1 & H2 & H3)].
    + destruct (decide (base ++ [c] = q)) as [<-|Hne].
      * rewrite lookup_insert_eq in H. injection H as <-.
        right. split; [exact Hp|]. split; [reflexivity|].
        change (c :: rest) with ([c] ++ rest). rewrite app_assoc. apply prefix_app_r. reflexivity.
      * rewrite lookup_insert_ne in H by exact Hne. left. exact H.
    + right. rewrite <- app_assoc in H3.
      destruct (decide (base ++ [c] = q)) as [<-|Hne];
        [rewrite lookup_insert_eq in H1; discriminate H1|].
      rewrite lookup_insert_ne in H1 by exact Hne. auto.
Qed.

(** A failed [os.MkdirAll] has not made its target. *)
Lemma mkdir_from_failed perm e : forall rest base d,
  (mkdir_from base rest perm d).2 = Some e ->
  (mkdir_from base rest perm d).1 !! (base ++ rest) = d !! (base ++ rest).
Proof.
  induction rest as [|c rest IH]; intros base d; simpl; [discriminate|].
  change (c :: rest) with ([c] ++ rest). rewrite app_assoc.
  destruct (d !! (base ++ [c])) as [n'|] eqn:Hp.
  - destruct (is_dir_node n'); [apply IH | reflexivity].
  - intros H. rewrite (IH _ _ H). destruct rest as [|c' rest]; [discriminate H|].
    apply lookup_insert_ne. intros Heq.
    apply (f_equal length) in Heq. rewrite !length_app in Heq. simpl in Heq. lia.
Qed.

Lemma prefix_both (p q : path) : p `prefix_of` q -> q `prefix_of` p -> p = q.
Proof.
  intros [k1 ->] [k2 H]. rewrite <- app_assoc in H.
  rewrite <- (app_nil_r p) in H at 1. apply app_inv_head in H.
  symmetry in H. apply app_eq_nil in H as [-> _]. rewrite app_nil_r. reflexivity.
Qed.

Lemma mkdir_all_vacant r perm d q n :
  vacant d r -> r `prefix_of` q -> (mkdir_all r perm d).1 !! q = Some n ->
  q = r /\ nd_mounts n = 0%nat.
Proof.
  intros Hvac Hq H. unfold mkdir_all in H.
  apply mkdir_from_new in H as [H|(_ & H2 & H3)].
  - rewrite (Hvac q Hq) in H. discriminate H.
  - split; [symmetry; apply prefix_both; assumption | exact H2].
Qed.

Lemma mkdir_all_failed_vacant r perm d e :
  vacant d r -> (mkdir_all r perm d).2 = Some e -> vacant (mkdir_all r perm d).1 r.
Proof.
  intros Hvac Hfail q Hq.
  destruct ((mkdir_all r perm d).1 !! q) as [n|] eqn:H; [|reflexivity].
  destruct (mkdir_all_vacant r perm d q n Hvac Hq H) as [-> _].
  unfold mkdir_all in *. pose proof (mkdir_from_failed perm e r [] d Hfail) as Hr.
  simpl in Hr. rewrite Hr, (Hvac r) in H by reflexivity. discriminate H.
Qed.

Lemma has_entries_insert d p nd : has_entries (<[p := nd]> d) p -> has_entries d p.
Proof.
  intros (q & x & Hq & Hbelow). exists q, x. split; [|exact Hbelow].
  destruct Hbelow as [_ Hne]. rewrite lookup_insert_ne in Hq by exact Hne. exact Hq.
Qed.

(** [os.RemoveAll] on a tree that holds no mount point. *)
Lemma remove_all_unmounted r d :
  r <> [] ->
  (forall q n, r `prefix_of` q -> d !! q = Some n -> nd_mounts n = 0%nat) ->
  (remove_all r d).2 = None
  /\ forall q, (remove_all r d).1 !! q = if decide (r `prefix_of` q) then None else d !! q.
Proof.
  intros Hr Hfree.
  assert (Hlook : forall q, (remove_all r d).1 !! q
                            = if decide (r `prefix_of` q) then None else d !! q).
  { intros q. unfold remove_all. cbn [fst].
    destruct (decide (r `prefix_of` q)) as [Hq|Hq].
    - apply map_lookup_filter_None. destruct (d !! q) as [n|] eqn:Hd; [right|left; reflexivity].
      intros x [= <-] [Hout|(m & nm & Hm & Hpos & Hrm & _)]; [contradiction|].
      cbn [fst] in *. rewrite (Hfree m nm Hrm Hm) in Hpos. lia.
    - destruct (d !! q) as [n|] eqn:Hd.
      + apply map_lookup_filter_Some. split; [exact Hd | left; exact Hq].
      + apply map_lookup_filter_None. left. exact Hd. }
  split; [|exact Hlook].
  unfold remove_all in *. cbn [fst snd] in *.
  destruct (decide (r = [])) as [?|_]; [contradiction|].
  destruct (decide (map_Forall (fun q _ => ~ r `prefix_of` q)
                               (filter (survives r d) d))) as [_|Hbad]; [reflexivity|].
  exfalso. apply Hbad. intros q n Hq Hpre.
  rewrite Hlook in Hq. destruct (decide (r `prefix_of` q)); [discriminate Hq | contradiction].
Qed.

Lemma fsop_eq (c : call) (f : fsmap -> fsmap * option errno) (h : host) :
  fsop c f h
  = ((f (fs h)).2, {| fs := (f (fs h)).1; clock := clock h; trace := trace h ++ [c] |}).
Proof. unfold fsop. destruct (f (fs h)). reflexivity. Qed.

Lemma Setup_fs (E : env) (n : NetworkNamespace) (h : host) :
  fs h !! NetNSMountPath n = None ->
  ~ has_entries (fs h) (NetNSMountPath n) ->
  match (Setup E n h).1 with
  | Some _ => fs (Setup E n h).2 = fs h
  | None =>
      fs (Setup E n h).2
      = <[NetNSMountPath n := Node (KFile EmptyString) perm_0600 1]> (fs h)
      /\ is_dir (fs h) (removelast (NetNSMountPath n)) = true
  end.
Proof.
  intros Habsent Hempty.
  destruct (Setup E n h) as [r h'] eqn:HS. cbn [fst snd].
  unfold Setup in HS. rewrite bind_eq in HS. unfold syscall in HS. cbn [fst snd] in HS.
  destruct (e_sys E (trace h) (Unshare CLONE_NEWNET)) as [e|];
    [injection HS as <- <-; reflexivity|].
  rewrite bind_eq, !fsop_eq in HS. cbn [fst snd fs trace clock logged] in HS.
  set (p := NetNSMountPath n) in *.
  assert (Hwrite : write_file p EmptyString perm_0600 (fs h)
                   = if is_dir (fs h) (removelast p) && bool_decide (p <> [])
                     then (<[p := Node (KFile EmptyString) perm_0600 0]> (fs h), None)
                     else (fs h, Some (match p with
                                       | [] => EISDIR
                                       | _ => if exist (fs h) (removelast p)
                                              then ENOTDIR else ENOENT
                                       end))).
  { unfold write_file. rewrite Habsent. destruct p as [|c p']; [reflexivity|].
    rewrite (bool_decide_eq_true_2 _ (not_eq_sym (@nil_cons _ c p'))), andb_true_r.
    destruct (is_dir (fs h) (removelast (c :: p'))); [reflexivity|].
    destruct (exist (fs h) (removelast (c :: p'))); reflexivity. }
  rewrite Hwrite in HS.
  destruct (is_dir (fs h) (removelast p) && bool_decide (p <> [])) eqn:Hdir;
    cbn [fst snd] in HS; [|injection HS as <- <-; reflexivity].
  apply andb_true_iff in Hdir as [Hdir _].
  rewrite bind_eq in HS. unfold mount in HS. cbn [fs trace clock] in HS.
  destruct (e_sys E _ (Mount _ p MS_BIND)) as [e|]; cbn [fst snd] in HS.
  - rewrite bind_eq, fsop_eq in HS. cbn [fs trace clock fst snd logged] in HS.
    injection HS as <- <-. cbn [fs]. unfold remove. rewrite lookup_insert_eq. cbn [nd_mounts].
    destruct (decide (0 < 0)%nat) as [Hlt|_]; [lia|].
    destruct (decide (has_entries (<[p := _]> (fs h)) p)) as [Hent|_].
    + exfalso. apply Hempty. eapply has_entries_insert. exact Hent.
    + cbn [fst]. apply delete_insert_id. exact Habsent.
  - rewrite fsop_eq in HS. cbn [fs trace clock] in HS. unfold bind_mount in HS.
    rewrite lookup_insert_eq in HS. cbn [fst snd nd_kind nd_perm nd_mounts] in HS.
    rewrite insert_insert_eq in HS. injection HS as <- <-. split; [reflexivity | exact Hdir].
Qed.

(** X13. Setup on a mount point that is not there yet has two outcomes:
    it fails and the file system is as it was found (the file made for
    the mount is taken away again when the mount fails), or it succeeds
    and the only change is the new, empty file of mode 0600 with one
    mount on it. *)
Theorem Setup_all_or_nothing (E : env) (n : NetworkNamespace) (h : host) :
  fs h !! NetNSMountPath n = None ->
  ~ has_entries (fs h) (NetNSMountPath n) ->
  match (Setup E n h).1 with
  | Some _ => fs (Setup E n h).2 = fs h
  | None =>
      fs (Setup E n h).2
      = <[NetNSMountPath n := Node (KFile EmptyString) perm_0600 1]> (fs h)
      /\ is_dir (fs h) (removelast (NetNSMountPath n)) = true
  end.
Proof. exact (Setup_fs E n h). Qed.

Lemma Setup_all_or_nothing_witness :
  (Setup no_mount_env sample_ns after_new).1
  = Some (ErrWrap "failed to bind mount network namespace" (Errno EPERM))
  /\ fs (Setup no_mount_env sample_ns after_new).2 = fs after_new.
Proof.
  assert (Hfail : (Setup no_mount_env sample_ns after_new).1
                  = Some (ErrWrap "failed to bind mount network namespace" (Errno EPERM)))
    by (vm_compute; reflexivity).
  split; [exact Hfail|].
  pose proof (Setup_all_or_nothing no_mount_env sample_ns after_new) as H.
  rewrite Hfail in H. apply H.
  - vm_compute. reflexivity.
  - apply (bool_decide_eq_false (has_entries _ _)). vm_compute. reflexivity.
Defined.

Lemma runtime_dir_plain E id :
  plain id -> exists base, runtime_dir E id = base ++ [id].
Proof. intros Hid. eexists. unfold runtime_dir. apply Join_plain. exact Hid. Qed.

Lemma New_eq E id h :
  New E id h
  = (match (mkdir_all (runtime_dir E id) perm_0700 (fs h)).2 with
     | Some e => Err (ErrWrap "failed to create runtime directory" (Errno e))
     | None => Ok {| ContainerID := id;
                     RuntimeDir := runtime_dir E id;
                     NetNSMountPath := runtime_dir E id ++ ["netns"];
                     SlirpAPISocket := runtime_dir E id ++ ["slirp.sock"];
                     slirpProcess := None |}
     end,
     {| fs := (mkdir_all (runtime_dir E id) perm_0700 (fs h)).1; clock := clock h;
        trace := trace h ++ [MkdirAll (runtime_dir E id) perm_0700] |}).
Proof.
  unfold New. rewrite bind_eq, fsop_eq. cbn [fst snd].
  destruct (mkdir_all (runtime_dir E id) perm_0700 (fs h)).2; reflexivity.
Qed.

(** The file system steps of a cleanup on a runtime directory that holds
    nothing but the mount point. *)
Lemma cleanup_fs_fresh (n : NetworkNamespace) (d : fsmap) (pin : option node) :
  as_new n -> RuntimeDir n <> [] ->
  (forall q nd, RuntimeDir n `prefix_of` q -> d !! q = Some nd ->
                q = RuntimeDir n /\ nd_mounts nd = 0%nat) ->
  let d' := match pin with
            | Some nd => <[NetNSMountPath n := Node (nd_kind nd) (nd_perm nd) 1]> d
            | None => d
            end in
  (forall q, cleanup_fs n d' !! q
             = if decide (RuntimeDir n `prefix_of` q) then None else d !! q)
  /\ (pin <> None ->
      (umount (NetNSMountPath n) d').2 = None
      /\ (remove (NetNSMountPath n) (umount (NetNSMountPath n) d').1).2 = None)
  /\ (remove (SlirpAPISocket n)
             (remove (NetNSMountPath n) (umount (NetNSMountPath n) d').1).1).2
     = Some ENOENT
  /\ (remove_all (RuntimeDir n)
                 (remove (SlirpAPISocket n)
                         (remove (NetNSMountPath n)
                                 (umount (NetNSMountPath n) d').1).1).1).2 = None.
Proof.
  intros [Hp Hs] Hr Hd d'. set (r := RuntimeDir n) in *.
  set (p := NetNSMountPath n) in *. set (s := SlirpAPISocket n) in *.
  assert (Hunder : forall c, r `prefix_of` r ++ [c] /\ r ++ [c] <> r /\ r ++ [c] <> []).
  { intros c. split; [apply prefix_app_r; reflexivity|]. split.
    - intros Heq. apply (f_equal length) in Heq. rewrite length_app in Heq. simpl in Heq. lia.
    - intros Heq. apply app_eq_nil in Heq as [_ Heq]. discriminate Heq. }
  assert (Habsent : forall c, d !! (r ++ [c]) = None).
  { intros c. destruct (d !! (r ++ [c])) as [nd|] eqn:Hl; [|reflexivity].
    destruct (Hunder c) as (H1 & H2 & _). destruct (Hd _ _ H1 Hl) as [Heq _]. contradiction. }
  assert (Hdp : d !! p = None) by (rewrite Hp; apply Habsent).
  assert (Hds : d !! s = None) by (rewrite Hs; apply Habsent).
  assert (Hpne : p <> []) by (rewrite Hp; apply Hunder).
  assert (Hsne : s <> []) by (rewrite Hs; apply Hunder).
  assert (Hsteps : (remove p (umount p d').1).1 = d
                   /\ (pin <> None -> (umount p d').2 = None
                                      /\ (remove p (umount p d').1).2 = None)).
  { subst d'. destruct pin as [nd|].
    - unfold umount. rewrite lookup_insert_eq. cbn [nd_mounts nd_kind nd_perm fst snd].
      rewrite insert_insert_eq. unfold remove. rewrite lookup_insert_eq. cbn [nd_mounts].
      destruct (decide (0 < 0)%nat) as [Hlt|_]; [lia|].
      destruct (decide (has_entries (<[p := _]> d) p)) as [Hent|_].
      + exfalso. apply has_entries_insert in Hent as (q & x & Hq & Hpq & Hne).
        assert (Hrq : r `prefix_of` q).
        { etrans; [|exact Hpq]. rewrite Hp. apply prefix_app_r. reflexivity. }
        destruct (Hd q x Hrq Hq) as [-> _]. apply Hne. apply prefix_both; [exact Hpq|].
        rewrite Hp. apply prefix_app_r. reflexivity.
      + cbn [fst snd]. split; [apply delete_insert_id; exact Hdp|]. intros _. split; reflexivity.
    - unfold umount. rewrite Hdp. cbn [fst]. unfold remove. rewrite Hdp. cbn [fst].
      split; [reflexivity|]. intros H. contradiction. }
  destruct Hsteps as [Hd2 Hok].
  assert (Hsock : remove s d = (d, Some ENOENT)).
  { unfold remove. rewrite Hds. destruct (decide (s = [])); [contradiction | reflexivity]. }
  destruct (remove_all_unmounted r d Hr) as [Hnone Hlook].
  { intros q nd Hq Hl. apply (Hd q nd Hq Hl). }
  unfold cleanup_fs. fold p s r. rewrite Hd2, Hsock. cbn [fst snd].
  split; [exact Hlook|]. split; [exact Hok|]. split; [reflexivity | exact Hnone].
Qed.

Lemma cleanup_errors_eq E n h :
  cleanup_errors E n h
  = (stop_slirp E n h).1
    ++ step_error "failed to unmount network namespace" (umount (NetNSMountPath n) (fs h)).2
    ++ step_error "failed to remove netns mount point"
         (remove (NetNSMountPath n) (umount (NetNSMountPath n) (fs h)).1).2
    ++ socket_error
         (remove (SlirpAPISocket n)
                 (remove (NetNSMountPath n) (umount (NetNSMountPath n) (fs h)).1).1).2
    ++ step_error "failed to remove runtime directory"
         (remove_all (RuntimeDir n)
            (remove (SlirpAPISocket n)
                    (remove (NetNSMountPath n)
                            (umount (NetNSMountPath n) (fs h)).1).1).1).2.
Proof.
  unfold cleanup_errors.
  destruct (umount (NetNSMountPath n) (fs h)) as [d1 r1]. cbn [fst snd].
  destruct (remove (NetNSMountPath n) d1) as [d2 r2]. cbn [fst snd].
  destruct (remove (SlirpAPISocket n) d2) as [d3 r3]. cbn [fst snd].
  destruct (remove_all (RuntimeDir n) d3) as [d4 r4]. reflexivity.
Qed.

Lemma vacant_alt (d : fsmap) (r : path) :
  vacant d r <-> map_Forall (fun q _ => ~ r `prefix_of` q) d.
Proof.
  split.
  - intros Hvac q nd Hq Hpre. rewrite (Hvac q Hpre) in Hq. discriminate Hq.
  - intros Hall q Hpre. destruct (d !! q) as [nd|] eqn:Hq; [|reflexivity].
    exfalso. exact (Hall q nd Hq Hpre).
Qed.

(** What [setupNetworking] has done when it is through [New]: the
    runtime directory is made, nothing else is at or below it. *)
Lemma made_runtime_dir (r : path) (d : fsmap) :
  vacant d r ->
  let d1 := (mkdir_all r perm_0700 d).1 in
  (forall q nd, r `prefix_of` q -> d1 !! q = Some nd -> q = r /\ nd_mounts nd = 0%nat)
  /\ d1 !! (r ++ ["netns"]) = None
  /\ ~ has_entries d1 (r ++ ["netns"]).
Proof.
  intros Hvac d1.
  assert (H1 : forall q nd, r `prefix_of` q -> d1 !! q = Some nd
                            -> q = r /\ nd_mounts nd = 0%nat).
  { intros q nd Hq Hl. exact (mkdir_all_vacant r perm_0700 d q nd Hvac Hq Hl). }
  assert (Hlen : forall q, r ++ ["netns"] `prefix_of` q -> q <> r).
  { intros q Hpre ->. apply prefix_length in Hpre. rewrite length_app in Hpre.
    simpl in Hpre. lia. }
  split; [exact H1|]. split.
  - destruct (d1 !! (r ++ ["netns"])) as [nd|] eqn:Hl; [|reflexivity].
    destruct (H1 _ nd (prefix_app_r r r ["netns"] (reflexivity r)) Hl) as [Heq _].
    exfalso. apply (Hlen (r ++ ["netns"])); [reflexivity | exact Heq].
  - intros (q & nd & Hq & Hpre & _).
    assert (Hrq : r `prefix_of` q) by (etrans; [apply prefix_app_r; reflexivity | exact Hpre]).
    destruct (H1 q nd Hrq Hq) as [Heq _]. exact (Hlen q Hpre Heq).
Qed.

(** X14. Setup and cleanup of the network namespace of a container are
    a round trip. When nothing is at or below the runtime directory of
    the container, a successful setupNetworking leaves that directory
    with the mount point (one mount on it), and a cleanupNetworking on
    that file system, at any later time, reports no error and ends with
    nothing at or below the runtime directory, every other path being as
    the setup left it. *)
Theorem setup_then_cleanup (E : env) (config : Config) (h h1 : host)
        (ns : NetworkNamespace) :
  plain (ID config) ->
  vacant (fs h) (runtime_dir E (ID config)) ->
  setupNetworking E config h = (Ok (Some ns), h1) ->
  RuntimeDir ns = runtime_dir E (ID config)
  /\ (exists nd, fs h1 !! NetNSMountPath ns = Some nd /\ nd_mounts nd = 1%nat)
  /\ forall h2, fs h2 = fs h1 ->
       let r := cleanupNetworking E (Some ns) h2 in
       r.1 = None
       /\ forall q, fs r.2 !! q
                    = if decide (RuntimeDir ns `prefix_of` q) then None else fs h1 !! q.
Proof.
  intros Hplain Hvac Hsetup.
  destruct (runtime_dir_plain E (ID config) Hplain) as [base Hbase].
  unfold setupNetworking in Hsetup.
  destruct (streq (Network config) "private"); cbn [negb] in Hsetup; [|discriminate Hsetup].
  rewrite bind_eq, New_eq in Hsetup. cbn [fst snd] in Hsetup.
  set (rd := runtime_dir E (ID config)) in *.
  destruct (made_runtime_dir rd (fs h) Hvac) as (Hd1 & Hpin & Hempty).
  destruct (mkdir_all rd perm_0700 (fs h)) as [d1 [e|]]; cbn [fst snd] in *;
    [discriminate Hsetup|].
  rewrite bind_eq in Hsetup.
  match type of Hsetup with context [Setup E ?n ?hh] =>
    set (ns0 := n) in *; set (h0 := hh) in *;
    pose proof (Setup_fs E ns0 h0 Hpin Hempty) as Hfs
  end.
  destruct (Setup E ns0 h0) as [[e|] h'] eqn:HS; cbn [fst snd] in *.
  { rewrite bind_eq in Hsetup. discriminate Hsetup. }
  injection Hsetup as <- <-. destruct Hfs as [Hfs _]. unfold h0 in Hfs. cbn [fs] in Hfs.
  assert (Hnew : as_new ns0) by (split; reflexivity).
  assert (Hrd : RuntimeDir ns0 <> []).
  { change (RuntimeDir ns0) with rd. rewrite Hbase. intros Heq.
    apply app_eq_nil in Heq as [_ Heq]. discriminate Heq. }
  split; [reflexivity|]. split.
  { eexists. rewrite Hfs. split; [apply lookup_insert_eq | reflexivity]. }
  intros h2 Hh2. cbv zeta.
  destruct (cleanup_fs_fresh ns0 d1 (Some (Node (KFile EmptyString) perm_0600 0))
              Hnew Hrd Hd1) as (Hlook & Hsteps & Hsock & Hall).
  destruct (Hsteps ltac:(discriminate)) as [Hum Hrm].
  cbn [nd_kind nd_perm] in *. change (NetNSMountPath ns0) with (rd ++ ["netns"]) in *.
  rewrite <- Hfs, <- Hh2 in Hlook, Hum, Hrm, Hsock, Hall.
  unfold cleanupNetworking. rewrite bind_eq.
  assert (Hres : (Cleanup E ns0 h2).1 = None).
  { rewrite Cleanup_result, cleanup_errors_eq.
    change (NetNSMountPath ns0) with (rd ++ ["netns"]).
    rewrite Hum, Hrm, Hsock, Hall. reflexivity. }
  rewrite Hres. unfold mret, io_ret. cbn [fst snd]. split; [reflexivity|].
  intros q. rewrite Cleanup_fs, Hlook.
  destruct (decide (RuntimeDir ns0 `prefix_of` q)) as [Hq|Hq]; [reflexivity|].
  rewrite Hfs. symmetry. apply lookup_insert_ne. intros <-. apply Hq.
  apply prefix_app_r. reflexivity.
Qed.

Lemma setup_then_cleanup_witness :
  let ns := {| ContainerID := ID private_config;
               RuntimeDir := runtime_dir Sample.env (ID private_config);
               NetNSMountPath := runtime_dir Sample.env (ID private_config) ++ ["netns"];
               SlirpAPISocket := runtime_dir Sample.env (ID private_config) ++ ["slirp.sock"];
               slirpProcess := None |} in
  (cleanupNetworking Sample.env (Some ns) after_setup).1 = None
  /\ fs (cleanupNetworking Sample.env (Some ns) after_setup).2
        !! runtime_dir Sample.env (ID private_config) = None.
Proof.
  intros ns.
  destruct (setup_then_cleanup Sample.env private_config (Sample.boot disk_sbin)
              after_setup ns) as (_ & _ & Hclean).
  - apply (bool_decide_unpack (plain _)). vm_compute. exact I.
  - apply vacant_alt. apply (bool_decide_unpack (map_Forall _ _)). vm_compute. exact I.
  - unfold after_setup.
    rewrite (surjective_pairing (setupNetworking Sample.env private_config
                                   (Sample.boot disk_sbin))) at 1.
    apply (f_equal2 pair); [vm_compute; reflexivity | reflexivity].
  - destruct (Hclean after_setup eq_refl) as [Hres Hfs]. split; [exact Hres|].
    rewrite Hfs. apply decide_True. reflexivity.
Defined.

(** X15. A setupNetworking that fails leaves nothing at or below the
    runtime directory of the container, when nothing was there before:
    what it had made of it is taken away again. *)
Theorem setupNetworking_failure_leaves_nothing
        (E : env) (config : Config) (h h1 : host) (e : error) :
  plain (ID config) ->
  vacant (fs h) (runtime_dir E (ID config)) ->
  setupNetworking E config h = (Err e, h1) ->
  vacant (fs h1) (runtime_dir E (ID config)).
Proof.
  intros Hplain Hvac Hsetup.
  destruct (runtime_dir_plain E (ID config) Hplain) as [base Hbase].
  unfold setupNetworking in Hsetup.
  destruct (streq (Network config) "private"); cbn [negb] in Hsetup; [|discriminate Hsetup].
  rewrite bind_eq, New_eq in Hsetup. cbn [fst snd] in Hsetup.
  set (rd := runtime_dir E (ID config)) in *.
  destruct (made_runtime_dir rd (fs h) Hvac) as (Hd1 & Hpin & Hempty).
  pose proof (mkdir_all_failed_vacant rd perm_0700 (fs h)) as Hfailed.
  destruct (mkdir_all rd perm_0700 (fs h)) as [d1 [e1|]]; cbn [fst snd] in *.
  { injection Hsetup as _ <-. cbn [fs]. apply (Hfailed e1 Hvac eq_refl). }
  rewrite bind_eq in Hsetup.
  match type of Hsetup with context [Setup E ?n ?hh] =>
    set (ns0 := n) in *; set (h0 := hh) in *;
    pose proof (Setup_fs E ns0 h0 Hpin Hempty) as Hfs
  end.
  destruct (Setup E ns0 h0) as [[e2|] h'] eqn:HS; cbn [fst snd] in *;
    [|discriminate Hsetup].
  rewrite bind_eq in Hsetup. injection Hsetup as _ <-. unfold h0 in Hfs. cbn [fs] in Hfs.
  assert (Hnew : as_new ns0) by (split; reflexivity).
  assert (Hrd : RuntimeDir ns0 <> []).
  { change (RuntimeDir ns0) with rd. rewrite Hbase. intros Heq.
    apply app_eq_nil in Heq as [_ Heq]. discriminate Heq. }
  destruct (cleanup_fs_fresh ns0 d1 None Hnew Hrd Hd1) as (Hlook & _).
  intros q Hq. rewrite Cleanup_fs, Hfs, Hlook. apply decide_True. exact Hq.
Qed.

Lemma setupNetworking_failure_leaves_nothing_witness :
  exist (fs (setupNetworking no_mount_env private_config (Sample.boot disk_sbin)).2)
        (runtime_dir no_mount_env (ID private_config)) = false.
Proof.
  destruct (setupNetworking no_mount_env private_config (Sample.boot disk_sbin))
    as [r h1] eqn:Hs.
  assert (Hr : r = Err (ErrWrap "failed to set up network namespace"
                          (ErrWrap "failed to bind mount network namespace" (Errno EPERM)))).
  { apply (f_equal fst) in Hs. vm_compute in Hs. symmetry. exact Hs. }
  subst r.
  pose proof (setupNetworking_failure_leaves_nothing no_mount_env private_config
                (Sample.boot disk_sbin) h1 _
                ltac:(apply (bool_decide_unpack (plain _)); vm_compute; exact I)
                ltac:(apply vacant_alt; apply (bool_decide_unpack (map_Forall _ _));
                      vm_compute; exact I)
                Hs) as Hvac.
  cbn [snd]. unfold exist.
  rewrite (Hvac (runtime_dir no_mount_env (ID private_config)) (reflexivity _)).
  vm_compute. reflexivity.
Defined.

End NamespaceLife.

(* ===================================================================== *)
(** ** Further properties: the calls of Start *)
(* ===================================================================== *)

Section StartPaths.

Import Containerutils.








(** The container process is not found after the child has run: Start
    returns the error and both mounts stay on the pin. *)
Example start_leaves_namespace_behind :
  let r := Start Sample.consts lost_env false false private_config
                 (Sample.boot disk_sbin) in
  r.1 = Some (ErrWrap "failed to get container PID"
                (ErrNew "container 2567a5ec9705eb7ac2c984033e06189d is not running"))
  /\ after_child (trace r.2) = [ReadProc]
  /\ (nd_mounts <$> fs r.2 !! NetNSMountPath sample_ns) = Some 2%nat.
Proof. cbv zeta. repeat split; vm_compute; reflexivity. Qed.

Lemma Join_rootfs_logs (d : path) :
  Join (Join d "rootfs") "../current-logs" = d ++ ["current-logs"].
Proof.
  change (Join d "rootfs") with (d ++ ["rootfs"]).
  change (Join (d ++ ["rootfs"]) "../current-logs")
    with (removelast (d ++ ["rootfs"]) ++ ["current-logs"]).
  rewrite removelast_last. reflexivity.
Qed.

(** X17. A start with the host network on a rootfs that has the agent:
    when the record marshals, the unshare succeeds and the ID maps are
    accepted, Start makes two calls, the unshare and the run of the
    child, on the file system as it is, and returns what the run
    returns. The child is this program with the arguments --log-level,
    the level, enter, --config and the marshalled record, followed by
    --tty when a terminal is asked for; a detached child logs to
    current-logs in the directory of the container. *)
Theorem Start_host_network
        (C : constants) (E : env) (interactive tty : bool) (config : Config) (h : host)
        (ptyFile configArg : string) :
  streq (Network config) "private" = false ->
  read_file (Join (e_bin E) "pty") (fs h) = Ok ptyFile ->
  exist (fs h) (Join (GetRootfsDir E (fs h) (ID config)) (PtyAgentPath C)) = true ->
  e_marshal E config = Ok configArg ->
  e_sys E (trace h) (Unshare (flags_at_unshare E config)) = None ->
  (forall uidMaps gidMaps, e_idmaps E uidMaps gidMaps = None) ->
  exists cmd,
    Path cmd = e_arg0 E
    /\ Args cmd = [e_arg0 E; "--log-level"; e_loglevel E; "enter"; "--config"; configArg]
                  ++ (if tty then ["--tty"] else [])
    /\ let mode := if tty then WithTTY
                   else if interactive then Interactive
                   else Detached (GetDir E (fs h) (ID config) ++ ["current-logs"]) in
       let unshared := trace h ++ [Unshare (flags_at_unshare E config)] in
       Start C E interactive tty config h
       = (e_run E unshared (RunChild mode cmd),
          {| fs := fs h; clock := S (clock h);
             trace := unshared ++ [RunChild mode cmd] |}).
Proof.
  intros Hnet Hpty Hagent Hmarshal Hunshare Hmaps.
  assert (Hgen : exists cmd0,
             generateEnterCommand E config h
             = (Ok cmd0, logged (Unshare (flags_at_unshare E config)) h)
             /\ Path cmd0 = e_arg0 E
             /\ Args cmd0 = [e_arg0 E; "--log-level"; e_loglevel E; "enter";
                             "--config"; configArg]
             /\ Attr cmd0 = Some enter_attr).
  { unfold generateEnterCommand. rewrite Hmarshal, bind_eq.
    destruct (decide (flags_at_unshare E config = 0)) as [Hz|_];
      [exfalso; exact (flags_at_unshare_nonzero E config Hz)|].
    unfold syscall at 1 2. cbn [fst snd]. rewrite Hunshare.
    change (streq (Network config) Private) with (streq (Network config) "private").
    rewrite Hnet, bind_eq. unfold mret at 1 2, io_ret. cbn [fst snd].
    destruct (keep_id E config).
    - unfold SetProcessKeepIDMaps. rewrite Hmaps. eexists. split; [reflexivity|].
      repeat split.
    - eexists. split; [reflexivity|]. repeat split. }
  destruct Hgen as (cmd0 & Hgen & Hpath & Hargs & _).
  exists (if tty then append_tty cmd0 else cmd0).
  split; [destruct tty; exact Hpath|].
  split; [destruct tty; simpl; rewrite Hargs; reflexivity|].
  cbv zeta.
  assert (Hinject : inject_agent C (GetRootfsDir E (fs h) (ID config)) ptyFile h = (None, h)).
  { unfold inject_agent. rewrite bind_eq. unfold read. cbn [fst snd]. rewrite Hagent.
    reflexivity. }
  assert (Hlaunch : Start_launch E interactive tty config
                      (GetRootfsDir E (fs h) (ID config)) None h
                    = let mode := if tty then WithTTY
                                  else if interactive then Interactive
                                  else Detached (GetDir E (fs h) (ID config)
                                                   ++ ["current-logs"]) in
                      let unshared := trace h ++ [Unshare (flags_at_unshare E config)] in
                      let cmd := if tty then append_tty cmd0 else cmd0 in
                      ((e_run E unshared (RunChild mode cmd), None),
                       {| fs := fs h; clock := S (clock h);
                          trace := unshared ++ [RunChild mode cmd] |})).
  { unfold Start_launch. rewrite bind_eq, Hgen. cbn [fst snd]. rewrite bind_eq.
    unfold launch_child, GetRootfsDir. rewrite Join_rootfs_logs.
    unfold attach_slirp, run, logged, mret, io_ret.
    destruct tty; [|destruct interactive]; reflexivity. }
  unfold Start, read. rewrite bind_eq. cbv beta. cbn [fst snd].
  rewrite bind_eq. cbv beta. cbn [fst snd]. rewrite Hpty.
  rewrite bind_eq, Hinject. cbn [fst snd].
  rewrite bind_eq. cbv beta. cbn [fst snd]. rewrite Hagent. cbn [negb].
  rewrite Hnet, bind_eq, Hlaunch. reflexivity.
Qed.

Lemma Start_host_network_witness :
  exists cmd,
    Args cmd = ["/usr/bin/lilipod"; "--log-level"; "info"; "enter"; "--config";
                "{id:2567a5ec9705eb7ac2c984033e06189d}"; "--tty"]
    /\ trace (Start consts_pty Sample.env true true Sample.config
                    (Sample.boot (<[rootfs ++ ["pty"] := Sample.file "ELF-pty" 493]>
                                    Sample.disk))).2
       = [Unshare 0x1c020000; RunChild WithTTY cmd].
Proof.
  destruct (Start_host_network consts_pty Sample.env true true Sample.config
              (Sample.boot (<[rootfs ++ ["pty"] := Sample.file "ELF-pty" 493]> Sample.disk))
              "ELF-pty" "{id:2567a5ec9705eb7ac2c984033e06189d}")
    as (cmd & _ & Hargs & Hstart).
  - reflexivity.
  - vm_compute. reflexivity.
  - vm_compute. reflexivity.
  - reflexivity.
  - reflexivity.
  - reflexivity.
  - exists cmd. split; [exact Hargs|]. cbv zeta in Hstart. rewrite Hstart. reflexivity.
Defined.

End StartPaths.

(* ===================================================================== *)
(** ** Further properties: Rename *)
(* ===================================================================== *)

Section Renaming.

Import Containerutils.

Lemma apart_app (p q s : path) : apart p q -> ~ p `prefix_of` q ++ s.
Proof.
  intros [Hpq Hqp] H.
  destruct (prefix_weak_total p q (q ++ s) H (prefix_app_r q q s (reflexivity q)));
    contradiction.
Qed.

Lemma swap_prefix_under (old new s : path) :
  swap_prefix old new (old ++ s) = new ++ s.
Proof.
  unfold swap_prefix. rewrite decide_True by (apply prefix_app_r; reflexivity).
  rewrite drop_app_length. reflexivity.
Qed.

Lemma swap_prefix_back (old new s : path) :
  apart old new -> swap_prefix old new (new ++ s) = old ++ s.
Proof.
  intros Hap. unfold swap_prefix. rewrite decide_False by (apply apart_app; exact Hap).
  rewrite decide_True by (apply prefix_app_r; reflexivity).
  rewrite drop_app_length. reflexivity.
Qed.

Lemma swap_prefix_other (old new k : path) :
  ~ old `prefix_of` k -> ~ new `prefix_of` k -> swap_prefix old new k = k.
Proof. intros H1 H2. unfold swap_prefix. rewrite !decide_False by assumption. reflexivity. Qed.

Lemma swap_prefix_involutive (old new k : path) :
  apart old new -> swap_prefix old new (swap_prefix old new k) = k.
Proof.
  intros Hap.
  destruct (decide (old `prefix_of` k)) as [[s ->]|Ho].
  { rewrite swap_prefix_under, swap_prefix_back by exact Hap. reflexivity. }
  destruct (decide (new `prefix_of` k)) as [[s ->]|Hn].
  { rewrite swap_prefix_back, swap_prefix_under by exact Hap. reflexivity. }
  rewrite (swap_prefix_other old new k Ho Hn). exact (swap_prefix_other old new k Ho Hn).
Qed.

Lemma swap_prefix_inj (old new : path) : apart old new -> Inj (=) (=) (swap_prefix old new).
Proof.
  intros Hap k1 k2 Heq. apply (f_equal (swap_prefix old new)) in Heq.
  rewrite !swap_prefix_involutive in Heq by exact Hap. exact Heq.
Qed.

(** After the exchange every path holds what the path it is exchanged
    with held. *)
Lemma lookup_swapped (old new : path) (d : fsmap) (k : path) :
  apart old new ->
  (kmap (swap_prefix old new) d : fsmap) !! k = d !! swap_prefix old new k.
Proof.
  intros Hap. rewrite <- (swap_prefix_involutive old new k Hap) at 1.
  apply (lookup_kmap (swap_prefix old new) (Inj0 := swap_prefix_inj old new Hap)).
Qed.

Lemma exist_lookup (d : fsmap) (p : path) :
  p <> [] -> exist d p = match d !! p with Some _ => true | None => false end.
Proof. destruct p; [contradiction | reflexivity]. Qed.

Lemma is_dir_lookup (d : fsmap) (p : path) :
  p <> [] -> is_dir d p = match d !! p with Some n => is_dir_node n | None => false end.
Proof. destruct p; [contradiction | reflexivity]. Qed.

Lemma write_file_existing (p : path) (data : string) (perm : Z) (d : fsmap)
      (nd : node) (old_data : string) :
  p <> [] -> d !! p = Some nd -> nd_kind nd = KFile old_data ->
  write_file p data perm d
  = (<[p := Node (KFile data) (nd_perm nd) (nd_mounts nd)]> d, None).
Proof.
  intros Hp Hnd Hkind. destruct p; [contradiction|].
  unfold write_file. rewrite Hnd, Hkind. reflexivity.
Qed.

Lemma child_not_root (base : path) (c : string) : base ++ [c] <> [].
Proof. intros H. apply app_eq_nil in H as [_ H]. discriminate H. Qed.

Lemma child_prefix (base : path) (a b : string) (s : path) :
  base ++ [a] `prefix_of` (base ++ [b]) ++ s -> a = b.
Proof.
  rewrite <- app_assoc. intros H. apply prefix_app_inv in H.
  destruct H as [k H]. simpl in H. injection H as -> _. reflexivity.
Qed.

Lemma GetID_plain (E : env) (d : fsmap) (name : string) :
  plain name -> plain (GetID E d name).
Proof.
  intros H. unfold GetID. destruct (exist d _); [exact H | apply hexsum_plain].
Qed.

Lemma load_config_lookup (E : env) (p q : path) (d d' : fsmap) :
  d' !! q = d !! p -> load_config E q d' = load_config E p d.
Proof.
  intros H. unfold load_config, LoadConfig. rewrite !bind_eq. unfold read. cbn [fst snd fs].
  unfold read_file. rewrite H.
  destruct (d !! p) as [[[data|] perm mounts]|]; cbn [nd_kind]; try reflexivity.
  destruct (e_unmarshal E data); reflexivity.
Qed.

(** The conditions under which [Rename] moves the directory, and what it
    comes to then. *)
Lemma Rename_move (E : env) (now old new : string) (d : fsmap) (n : node) :
  plain old -> plain new -> MD5.hexsum new <> new ->
  is_dir d (ContainerDir E) = true ->
  d !! GetDir E d old = Some n -> nd_mounts n = 0%nat ->
  d !! (ContainerDir E ++ [new]) = None ->
  vacant d (ContainerDir E ++ [MD5.hexsum new]) ->
  let src := GetDir E d old in
  let dst := ContainerDir E ++ [MD5.hexsum new] in
  let d1 : fsmap := kmap (swap_prefix src dst) d in
  apart src dst
  /\ (forall k, d1 !! k = d !! swap_prefix src dst k)
  /\ (forall d2 : fsmap, d2 !! (ContainerDir E ++ [new]) = None ->
        GetID E d2 new = MD5.hexsum new /\ GetDir E d2 new = dst)
  /\ d1 !! (ContainerDir E ++ [new]) = None
  /\ Rename E now old new d
     = match load_config E (dst ++ ["config"]) d1 with
       | Err e => (d1, Some e)
       | Ok config =>
           SaveConfig E (renamed config new (MD5.hexsum new) now) (dst ++ ["config"]) d1
       end.
Proof.
  intros Hold Hnew Hfix Hcd Hsrc Hmounts Hname Hvac src dst d1.
  fold src in Hsrc. set (CD := ContainerDir E) in *.
  assert (Hsrc_eq : src = CD ++ [GetID E d old]).
  { unfold src, GetDir. apply Join_plain, GetID_plain. exact Hold. }
  assert (Hres : forall d2 : fsmap, d2 !! (CD ++ [new]) = None ->
                   GetID E d2 new = MD5.hexsum new /\ GetDir E d2 new = dst).
  { intros d2 H2.
    assert (Hid : GetID E d2 new = MD5.hexsum new).
    { unfold GetID. fold CD. rewrite (Join_plain CD new Hnew).
      rewrite exist_lookup by apply child_not_root. rewrite H2. reflexivity. }
    split; [exact Hid|]. unfold GetDir. rewrite Hid. fold CD.
    apply Join_plain, hexsum_plain. }
  assert (Hdst : d !! dst = None) by (apply Hvac; reflexivity).
  assert (Hne : src <> dst) by (intros Heq; rewrite Heq in Hsrc; congruence).
  assert (Hap : apart src dst).
  { split; intros Hpre; apply Hne.
    - rewrite Hsrc_eq in *. rewrite <- (app_nil_r dst) in Hpre.
      apply child_prefix in Hpre. unfold dst. congruence.
    - rewrite Hsrc_eq in *. rewrite <- (app_nil_r (CD ++ [GetID E d old])) in Hpre.
      apply child_prefix in Hpre. unfold dst. congruence. }
  assert (Hlook : forall k, d1 !! k = d !! swap_prefix src dst k).
  { intros k. apply lookup_swapped. exact Hap. }
  assert (Hname1 : d1 !! (CD ++ [new]) = None).
  { rewrite Hlook, swap_prefix_other; [exact Hname | |].
    - rewrite Hsrc_eq. rewrite <- (app_nil_r (CD ++ [new])). intros Hpre.
      apply child_prefix in Hpre. rewrite Hsrc_eq, Hpre in Hsrc. congruence.
    - rewrite <- (app_nil_r (CD ++ [new])). intros Hpre.
      apply child_prefix in Hpre. contradiction. }
  split; [exact Hap|]. split; [exact Hlook|]. split; [exact Hres|]. split; [exact Hname1|].
  destruct (Hres d Hname) as [_ Hdir]. destruct (Hres d1 Hname1) as [Hid1 Hdir1].
  assert (Hmove : rename_tree src dst d = (d1, None)).
  { unfold rename_tree. rewrite Hsrc.
    rewrite decide_False by exact Hne.
    rewrite decide_False by apply Hap. rewrite decide_False by apply Hap.
    rewrite decide_False by lia. rewrite Hdst.
    unfold dst. rewrite removelast_last. fold CD in Hcd. rewrite Hcd. reflexivity. }
  unfold Rename. fold src. rewrite Hdir.
  rewrite (exist_lookup d src) by (rewrite Hsrc_eq; apply child_not_root).
  rewrite Hsrc. cbn [negb].
  rewrite (exist_lookup d dst) by apply child_not_root. rewrite Hdst.
  rewrite Hmove. fold d1. rewrite Hdir1, Hid1.
  change (Join dst "config") with (dst ++ ["config"]). reflexivity.
Qed.

(** X18. A rename that goes through. For plain names, a source
    directory that is no mount point, and a new name that neither is an
    entry of the containers directory nor has a directory of its own
    yet: when the record of the container loads and the renamed record
    marshals, Rename returns no error; what was at and below the old
    directory is at and below the directory of the new name, the old
    directory is gone, every other path is untouched; the config file
    holds the marshalled record with the new name, the digest of the
    new name as ID and the time of the call; and the new name resolves
    to the new directory. *)
Theorem Rename_moves (E : env) (now old new : string) (d : fsmap) (n : node)
        (config : Config) (data : string) :
  plain old -> plain new -> MD5.hexsum new <> new ->
  is_dir d (ContainerDir E) = true ->
  d !! GetDir E d old = Some n -> nd_mounts n = 0%nat ->
  d !! (ContainerDir E ++ [new]) = None ->
  vacant d (ContainerDir E ++ [MD5.hexsum new]) ->
  load_config E (GetDir E d old ++ ["config"]) d = Ok config ->
  e_marshal E (renamed config new (MD5.hexsum new) now) = Ok data ->
  let src := GetDir E d old in
  let dst := ContainerDir E ++ [MD5.hexsum new] in
  let r := Rename E now old new d in
  r.2 = None
  /\ (forall s, s <> ["config"] -> r.1 !! (dst ++ s) = d !! (src ++ s))
  /\ (forall s, r.1 !! (src ++ s) = None)
  /\ (forall q, ~ src `prefix_of` q -> ~ dst `prefix_of` q -> r.1 !! q = d !! q)
  /\ read_file (dst ++ ["config"]) r.1 = Ok data
  /\ GetID E r.1 new = MD5.hexsum new
  /\ GetDir E r.1 new = dst.
Proof.
  intros Hold Hnew Hfix Hcd Hsrc Hmounts Hname Hvac Hload Hmarshal src dst r.
  destruct (Rename_move E now old new d n Hold Hnew Hfix Hcd Hsrc Hmounts Hname Hvac)
    as (Hap & Hlook & Hres & Hname1 & Hrename).
  fold src dst in Hap, Hlook, Hres, Hrename, Hload.
  set (d1 := kmap (swap_prefix src dst) d : fsmap) in *.
  set (p := dst ++ ["config"]) in *.
  assert (Hp : d1 !! p = d !! (src ++ ["config"])).
  { unfold p. rewrite Hlook, swap_prefix_back by exact Hap. reflexivity. }
  rewrite (load_config_lookup E (src ++ ["config"]) p d d1 Hp), Hload in Hrename.
  assert (Hfile : exists nd old_data, d1 !! p = Some nd /\ nd_kind nd = KFile old_data).
  { rewrite Hp. unfold load_config, LoadConfig in Hload. rewrite bind_eq in Hload.
    unfold read, read_file in Hload. cbn [fst snd fs] in Hload.
    destruct (d !! (src ++ ["config"])) as [[[old_data|] perm mounts]|];
      [eexists _, _; split; reflexivity | discriminate Hload | discriminate Hload]. }
  destruct Hfile as (nd & old_data & Hnd & Hkind).
  assert (Hsave : r = (<[p := Node (KFile data) (nd_perm nd) (nd_mounts nd)]> d1, None)).
  { unfold r. rewrite Hrename. unfold SaveConfig. rewrite Hmarshal.
    rewrite (write_file_existing p data perm_0644 d1 nd old_data (child_not_root _ _) Hnd Hkind).
    reflexivity. }
  rewrite Hsave. cbn [fst snd].
  assert (Hother : forall q, q <> p ->
            (<[p := Node (KFile data) (nd_perm nd) (nd_mounts nd)]> d1) !! q = d1 !! q).
  { intros q Hq. apply lookup_insert_ne. congruence. }
  split; [reflexivity|]. split; [|split; [|split; [|split; [|apply Hres]]]].
  - intros s Hs. rewrite Hother by (unfold p; intros Heq; apply app_inv_head in Heq; congruence).
    rewrite Hlook, swap_prefix_back by exact Hap. reflexivity.
  - intros s. rewrite Hother.
    + rewrite Hlook, swap_prefix_under. apply Hvac. apply prefix_app_r. reflexivity.
    + intros Heq. apply (apart_app src dst ["config"] Hap). fold p. rewrite <- Heq.
      apply prefix_app_r. reflexivity.
  - intros q Hsq Hdq. rewrite Hother.
    + rewrite Hlook, swap_prefix_other by assumption. reflexivity.
    + intros ->. apply Hdq. apply prefix_app_r. reflexivity.
  - unfold read_file. rewrite lookup_insert_eq. reflexivity.
  - rewrite Hother; [exact Hname1|]. unfold p, dst. intros Heq.
    apply (f_equal length) in Heq. rewrite !length_app in Heq. simpl in Heq. lia.
Qed.

Lemma Rename_moves_witness :
  (Rename Sample.env "2024.06.01 12:00:00" "web" "beta" Sample.disk).2 = None
  /\ read_file ((ContainerDir Sample.env ++ [MD5.hexsum "beta"]) ++ ["config"])
               (Rename Sample.env "2024.06.01 12:00:00" "web" "beta" Sample.disk).1
     = Ok ("{id:" +:+ MD5.hexsum "beta" +:+ "}").
Proof.
  assert (H := Rename_moves Sample.env "2024.06.01 12:00:00" "web" "beta" Sample.disk
                 (Sample.dir 493) Sample.config ("{id:" +:+ MD5.hexsum "beta" +:+ "}")).
  cbv zeta in H.
  destruct H as (Hnone & _ & _ & _ & Hfile & _).
  - apply (bool_decide_unpack (plain _)). vm_compute. exact I.
  - apply (bool_decide_unpack (plain _)). vm_compute. exact I.
  - vm_compute. intros Heq. discriminate Heq.
  - vm_compute. reflexivity.
  - vm_compute. reflexivity.
  - reflexivity.
  - vm_compute. reflexivity.
  - apply vacant_alt. apply (bool_decide_unpack (map_Forall _ _)). vm_compute. exact I.
  - vm_compute. reflexivity.
  - vm_compute. reflexivity.
  - split; [exact Hnone | exact Hfile].
Defined.

(** X19. Rename does not take the move back. Under the conditions of
    a move, when the record then fails to load, or the renamed record
    fails to marshal, Rename returns that error and leaves the container
    under the directory of the new name, with the record (if any) still
    carrying the old name and ID. *)
Theorem Rename_no_rollback (E : env) (now old new : string) (d : fsmap) (n : node)
        (e : error) :
  plain old -> plain new -> MD5.hexsum new <> new ->
  is_dir d (ContainerDir E) = true ->
  d !! GetDir E d old = Some n -> nd_mounts n = 0%nat ->
  d !! (ContainerDir E ++ [new]) = None ->
  vacant d (ContainerDir E ++ [MD5.hexsum new]) ->
  (load_config E (GetDir E d old ++ ["config"]) d = Err e
   \/ exists config,
       load_config E (GetDir E d old ++ ["config"]) d = Ok config
       /\ e_marshal E (renamed config new (MD5.hexsum new) now) = Err e) ->
  let src := GetDir E d old in
  let dst := ContainerDir E ++ [MD5.hexsum new] in
  let r := Rename E now old new d in
  r.2 = Some e
  /\ (forall s, r.1 !! (dst ++ s) = d !! (src ++ s))
  /\ (forall s, r.1 !! (src ++ s) = None).
Proof.
  intros Hold Hnew Hfix Hcd Hsrc Hmounts Hname Hvac Hfail src dst r.
  destruct (Rename_move E now old new d n Hold Hnew Hfix Hcd Hsrc Hmounts Hname Hvac)
    as (Hap & Hlook & _ & _ & Hrename).
  fold src dst in Hap, Hlook, Hrename, Hfail.
  set (d1 := kmap (swap_prefix src dst) d : fsmap) in *.
  assert (Hp : d1 !! (dst ++ ["config"]) = d !! (src ++ ["config"])).
  { rewrite Hlook, swap_prefix_back by exact Hap. reflexivity. }
  rewrite (load_config_lookup E (src ++ ["config"]) (dst ++ ["config"]) d d1 Hp) in Hrename.
  assert (Hr : r = (d1, Some e)).
  { unfold r. rewrite Hrename. destruct Hfail as [->|(config & -> & Hmarshal)]; [reflexivity|].
    unfold SaveConfig. rewrite Hmarshal. reflexivity. }
  rewrite Hr. cbn [fst snd]. split; [reflexivity|]. split.
  - intros s. rewrite Hlook, swap_prefix_back by exact Hap. reflexivity.
  - intros s. rewrite Hlook, swap_prefix_under. apply Hvac. apply prefix_app_r. reflexivity.
Qed.

Lemma Rename_no_rollback_witness :
  (Rename Sample.env "2024.06.01 12:00:00" "web" "beta" disk_corrupt).2
  = Some CorruptConfig
  /\ (Rename Sample.env "2024.06.01 12:00:00" "web" "beta" disk_corrupt).1
       !! (GetDir Sample.env disk_corrupt "web" ++ []) = None.
Proof.
  assert (H := Rename_no_rollback Sample.env "2024.06.01 12:00:00" "web" "beta" disk_corrupt
                 (Sample.dir 493) CorruptConfig).
  cbv zeta in H.
  destruct H as (Herr & _ & Hgone).
  - apply (bool_decide_unpack (plain _)). vm_compute. exact I.
  - apply (bool_decide_unpack (plain _)). vm_compute. exact I.
  - vm_compute. intros Heq. discriminate Heq.
  - vm_compute. reflexivity.
  - vm_compute. reflexivity.
  - reflexivity.
  - vm_compute. reflexivity.
  - apply vacant_alt. apply (bool_decide_unpack (map_Forall _ _)). vm_compute. exact I.
  - left. vm_compute. reflexivity.
  - split; [exact Herr | exact (Hgone [])].
Defined.

(** X20. Rename refuses, with an error and without touching the file
    system, when the directory of the old name does not exist and when
    the directory of the new name does. *)
Theorem Rename_refuses (E : env) (now old new : string) (d : fsmap) :
  exist d (GetDir E d old) = false \/ exist d (GetDir E d new) = true ->
  (Rename E now old new d).1 = d /\ (Rename E now old new d).2 <> None.
Proof.
  intros Hcase. unfold Rename.
  destruct (exist d (GetDir E d old)); cbn [negb]; [|split; [reflexivity | discriminate]].
  destruct Hcase as [Hcase| ->]; [discriminate Hcase|]. split; [reflexivity | discriminate].
Qed.

Lemma Rename_refuses_witness :
  (Rename Sample.env "2024.06.01 12:00:00" "ghost" "beta" Sample.disk).1 = Sample.disk
  /\ (Rename Sample.env "2024.06.01 12:00:00" "web" "web" Sample.disk).1 = Sample.disk.
Proof.
  split.
  - refine (proj1 (Rename_refuses Sample.env "2024.06.01 12:00:00" "ghost" "beta"
                     Sample.disk _)).
    left. vm_compute. reflexivity.
  - refine (proj1 (Rename_refuses Sample.env "2024.06.01 12:00:00" "web" "web"
                     Sample.disk _)).
    right. vm_compute. reflexivity.
Defined.

(** The scenario S2 of the specification on the sample disk. *)
Example rename_web_to_beta :
  let r := Rename Sample.env "2024.06.01 12:00:00" "web" "beta" Sample.disk in
  MD5.hexsum "beta" = "987bcab01b929eb2c07877b224215c92"
  /\ r.2 = None
  /\ exist r.1 Sample.container = false
  /\ is_dir r.1 (Sample.home ++ ["containers"; "987bcab01b929eb2c07877b224215c92";
                                 "rootfs"; "bin"]) = true
  /\ read_file (Sample.home ++ ["containers"; "987bcab01b929eb2c07877b224215c92"; "config"])
               r.1
     = Ok "{id:987bcab01b929eb2c07877b224215c92}".
Proof. cbv zeta. repeat split; vm_compute; reflexivity. Qed.

End Renaming.

(* ===================================================================== *)
(** ** Further properties: Exec *)
(* ===================================================================== *)

Section Entering.

Import Containerutils.

Lemma nsenter_options_app (pre rest : list string) :
  "-S" ∉ pre -> nsenter_options (pre ++ "-S" :: rest) = pre.
Proof.
  induction pre as [|a pre IH]; intros Hpre; simpl.
  - reflexivity.
  - rewrite decide_False by (intros ->; apply Hpre; apply list_elem_of_here).
    rewrite IH; [reflexivity|]. intros Hin. apply Hpre. apply list_elem_of_further. exact Hin.
Qed.

Lemma generateExecCommand_options C getUIDGID containerPid tty config :
  nsenter_options (Args (generateExecCommand C getUIDGID containerPid tty config).1)
  = ["nsenter"; "-m"; "-u"; "-U"; "--preserve-credentials"]
    ++ (if streq (Ipc config) Private then ["-i"] else [])
    ++ (if streq (Network config) Private then ["-n"] else [])
    ++ (if streq (Pid config) Private then ["-p"] else []).
Proof.
  unfold generateExecCommand. destruct (getUIDGID (User config)) as [uid gid].
  cbn [fst Args].
  destruct (streq (Ipc config) Private), (streq (Network config) Private),
    (streq (Pid config) Private), tty; reflexivity.
Qed.

Ltac listed := apply (bool_decide_unpack _); vm_compute; exact I.

Ltac listed_iff H :=
  split; [intros Hin; first [exact H | exfalso; revert Hin; listed]
         | intros Hyes; first [listed | contradiction]].

(** X21. The namespaces that Exec joins. The options of the nsenter
    command are -m, -u, -U and --preserve-credentials, then -i, -n and
    -p exactly when IPC, network and PID are private; a cgroup namespace
    is never joined. Every namespace that the start of the container
    created with its unshare is among those joined. *)
Theorem generateExecCommand_namespaces
        (C : constants) (E : env) (getUIDGID : string -> Z * Z) (containerPid : string)
        (tty : bool) (config : Config) :
  let options :=
    nsenter_options (Args (generateExecCommand C getUIDGID containerPid tty config).1) in
  ("-m" ∈ options /\ "-u" ∈ options /\ "-U" ∈ options)
  /\ ("-i" ∈ options <-> Ipc config = Private)
  /\ ("-n" ∈ options <-> Network config = Private)
  /\ ("-p" ∈ options <-> Pid config = Private)
  /\ ("-C" ∉ options)
  /\ (forall flag,
        flag ∈ [CLONE_NEWNS; CLONE_NEWUTS; CLONE_NEWUSER; CLONE_NEWIPC; CLONE_NEWNET;
                CLONE_NEWPID; CLONE_NEWCGROUP] ->
        has_flag (flags_at_unshare E config) flag ->
        nsenter_option flag ∈ options).
Proof.
  intros options. unfold options. rewrite generateExecCommand_options.
  rewrite flags_at_unshare_cases. unfold streq.
  destruct (decide (Ipc config = Private)) as [Hi|Hi];
    [rewrite (bool_decide_eq_true_2 _ Hi) | rewrite (bool_decide_eq_false_2 _ Hi)];
  (destruct (decide (Network config = Private)) as [Hn|Hn];
    [rewrite (bool_decide_eq_true_2 _ Hn) | rewrite (bool_decide_eq_false_2 _ Hn)]);
  (destruct (decide (Pid config = Private)) as [Hp|Hp];
    [rewrite (bool_decide_eq_true_2 _ Hp) | rewrite (bool_decide_eq_false_2 _ Hp)]);
  cbn [app];
  (split; [repeat split; listed|]);
  (split; [listed_iff Hi|]);
  (split; [listed_iff Hn|]);
  (split; [listed_iff Hp|]);
  (split; [listed|]);
  intros flag Hflag; unfold has_flag;
  repeat (apply elem_of_cons in Hflag as [->|Hflag]);
  try (apply elem_of_nil in Hflag; contradiction);
  destruct (keep_id E config); intros Hland;
  first [listed | vm_compute in Hland; discriminate Hland].
Qed.

(** Where [Start] and [Exec] send the output of a detached command. *)
Lemma created_container_dirs (E : env) (d : fsmap) (config : Config) :
  plain (Names config) ->
  ID config = MD5.hexsum (Names config) ->
  exist d (ContainerDir E ++ [ID config]) = true ->
  exist d (ContainerDir E ++ [Names config]) = false ->
  GetDir E d (Names config) = ContainerDir E ++ [ID config]
  /\ GetDir E d (ID config) = ContainerDir E ++ [ID config].
Proof.
  intros Hname Hid Hdir Hfree.
  assert (Hplain : plain (ID config)) by (rewrite Hid; apply hexsum_plain).
  unfold GetDir, GetID.
  rewrite (Join_plain _ _ Hname), Hfree, (Join_plain _ (ID config) Hplain), Hdir.
  rewrite <- Hid. split; apply Join_plain; exact Hplain.
Qed.

(** X22. A detached Exec writes to the log file of the container, the
    one to which a detached Start writes: for a created container (the
    ID is the digest of the name, the directory of the ID exists and the
    name is no entry of the containers directory) both hand the file
    current-logs in the directory of the container to the runner. *)
Theorem Exec_logs_where_Start_logs
        (C : constants) (E : env) (getUIDGID : string -> Z * Z) (pid : Z)
        (config : Config) (cmd : Cmd) (h : host) :
  plain (Names config) ->
  ID config = MD5.hexsum (Names config) ->
  exist (fs h) (ContainerDir E ++ [ID config]) = true ->
  exist (fs h) (ContainerDir E ++ [Names config]) = false ->
  let logfile := ContainerDir E ++ [ID config; "current-logs"] in
  trace (Exec C E getUIDGID pid false false config h).2
  = trace h ++ [RunChild (Detached logfile)
                         (generateExecCommand C getUIDGID (pretty pid) false config).1]
  /\ trace (launch_child E false false (GetRootfsDir E (fs h) (ID config)) cmd h).2
     = trace h ++ [RunChild (Detached logfile) cmd].
Proof.
  intros Hname Hid Hdir Hfree logfile.
  destruct (created_container_dirs E (fs h) config Hname Hid Hdir Hfree) as [Hbyname Hbyid].
  assert (Hlog : logfile = (ContainerDir E ++ [ID config]) ++ ["current-logs"])
    by (unfold logfile; rewrite <- app_assoc; reflexivity).
  split.
  - unfold Exec. cbn [andb negb]. rewrite bind_eq. unfold read. cbn [fst snd].
    rewrite Hbyname.
    change (Join (ContainerDir E ++ [ID config]) "current-logs")
      with ((ContainerDir E ++ [ID config]) ++ ["current-logs"]).
    rewrite <- Hlog. reflexivity.
  - unfold launch_child, GetRootfsDir. rewrite Join_rootfs_logs, Hbyid, <- Hlog. reflexivity.
Qed.

Lemma Exec_logs_where_Start_logs_witness :
  trace (Exec Sample.consts Sample.env root_ids 4242 false false Sample.config
              (Sample.boot Sample.disk)).2
  = trace (Sample.boot Sample.disk)
    ++ [RunChild (Detached (ContainerDir Sample.env ++ [ID Sample.config; "current-logs"]))
                 (generateExecCommand Sample.consts root_ids (pretty 4242) false
                                      Sample.config).1].
Proof.
  refine (proj1 (Exec_logs_where_Start_logs Sample.consts Sample.env root_ids 4242
                   Sample.config (generateExecCommand Sample.consts root_ids "1" false
                                                      Sample.config).1
                   (Sample.boot Sample.disk) _ _ _ _)).
  - apply (bool_decide_unpack (plain _)). vm_compute. exact I.
  - vm_compute. reflexivity.
  - vm_compute. reflexivity.
  - vm_compute. reflexivity.
Defined.

(** The command line of an exec with a terminal in the sample
    container. *)
Example exec_on_sample :
  Args (generateExecCommand Sample.consts root_ids "4242" true Sample.config).1
  = ["nsenter"; "-m"; "-u"; "-U"; "--preserve-credentials"; "-i"; "-p";
     "-S"; "0"; "-G"; "0"; "-r/proc/4242/root"; "-w/proc/4242/root//";
     "-t"; "4242"; "/sbin/pty"; "/bin/sh"].
Proof. vm_compute. reflexivity. Qed.

End Entering.

(* ===================================================================== *)
(** ** Further properties: the injection of the agent *)
(* ===================================================================== *)

Section Injection.

Import Containerutils.

Lemma mkdir_from_made perm : forall rest base d,
  is_dir d base = true ->
  (mkdir_from base rest perm d).2 = None ->
  is_dir (mkdir_from base rest perm d).1 (base ++ rest) = true.
Proof.
  induction rest as [|c rest IH]; intros base d Hbase; simpl.
  - intros _. rewrite app_nil_r. exact Hbase.
  - change (c :: rest) with ([c] ++ rest). rewrite app_assoc.
    destruct (d !! (base ++ [c])) as [n|] eqn:Hp.
    + destruct (is_dir_node n) eqn:Hn; [|discriminate].
      apply IH. rewrite is_dir_lookup by apply child_not_root. rewrite Hp. exact Hn.
    + apply IH. rewrite is_dir_lookup by apply child_not_root.
      rewrite lookup_insert_eq. reflexivity.
Qed.

Lemma write_file_absent (p : path) (data : string) (perm : Z) (d : fsmap) :
  p <> [] -> d !! p = None ->
  write_file p data perm d
  = if is_dir d (removelast p) then (<[p := Node (KFile data) perm 0]> d, None)
    else (d, Some (if exist d (removelast p) then ENOTDIR else ENOENT)).
Proof.
  intros Hp Hnone. destruct p; [contradiction|]. unfold write_file. rewrite Hnone.
  destruct (is_dir d (removelast (s :: p))); [reflexivity|].
  destruct (exist d (removelast (s :: p))); reflexivity.
Qed.

(** X23. An injection of the agent that goes through leaves a
    directory behind. When the agent is not in the rootfs and
    inject_agent returns no error, the agent file is there with the
    bytes read from the agent binary, and so is a directory of the base
    name of the agent path directly in the rootfs, which is not the
    agent file: the directory made before the write is never the parent
    that the write needs. *)
Theorem inject_agent_leaves_directory
        (C : constants) (p : path) (ptyFile : string) (h : host) :
  exist (fs h) (Join p (PtyAgentPath C)) = false ->
  (inject_agent C p ptyFile h).1 = None ->
  let after := fs (inject_agent C p ptyFile h).2 in
  read_file (Join p (PtyAgentPath C)) after = Ok ptyFile
  /\ is_dir after (Join p (Base (PtyAgentPath C))) = true
  /\ Join p (Base (PtyAgentPath C)) <> Join p (PtyAgentPath C)
  /\ trace (inject_agent C p ptyFile h).2
     = trace h ++ [MkdirAll (Join p (Base (PtyAgentPath C))) perm_0755;
                   WriteFile (Join p (PtyAgentPath C)) perm_0755].
Proof.
  set (A := Join p (PtyAgentPath C)). set (B := Join p (Base (PtyAgentPath C))).
  intros Habsent. unfold inject_agent. fold A B.
  rewrite bind_eq. unfold read. cbn [fst snd]. rewrite Habsent. cbn [negb].
  rewrite bind_eq, fsop_eq. cbn [fst snd].
  pose proof (mkdir_from_made perm_0755 B [] (fs h) eq_refl) as Hmade.
  fold (mkdir_all B perm_0755 (fs h)) in Hmade. cbn [app] in Hmade.
  destruct (mkdir_all B perm_0755 (fs h)) as [d1 [e|]]; cbn [fst snd] in *;
    [discriminate|].
  specialize (Hmade eq_refl).
  rewrite bind_eq, fsop_eq. cbn [fst snd fs clock trace].
  assert (HA : A <> []) by (intros HA; rewrite HA in Habsent; discriminate Habsent).
  assert (Hdone : forall nd : node,
            B <> A -> 
            read_file A (<[A := nd]> d1) = match nd_kind nd with
                                           | KFile data => Ok data
                                           | KDir => Err (Errno EISDIR)
                                           end
            /\ is_dir (<[A := nd]> d1) B = true).
  { intros nd Hne. split; [unfold read_file; rewrite lookup_insert_eq; reflexivity|].
    destruct (decide (B = [])) as [->|HB]; [reflexivity|].
    rewrite is_dir_lookup in * by exact HB.
    rewrite lookup_insert_ne by congruence. exact Hmade. }
  destruct (d1 !! A) as [nd|] eqn:Hd1.
  - destruct (nd_kind nd) as [old_data|] eqn:Hkind.
    + rewrite (write_file_existing A ptyFile perm_0755 d1 nd old_data HA Hd1 Hkind).
      cbn [fst snd]. intros _. cbv zeta. cbn [fs trace].
      assert (Hne : B <> A).
      { intros Heq. rewrite Heq in Hmade. rewrite is_dir_lookup in Hmade by exact HA.
        rewrite Hd1 in Hmade. unfold is_dir_node in Hmade. rewrite Hkind in Hmade.
        discriminate Hmade. }
      destruct (Hdone (Node (KFile ptyFile) (nd_perm nd) (nd_mounts nd)) Hne) as [Hr Hd].
      split; [exact Hr|]. split; [exact Hd|].
      split; [exact Hne | rewrite <- app_assoc; reflexivity].
    + unfold write_file. destruct A; [contradiction|]. rewrite Hd1, Hkind.
      cbn [fst snd]. discriminate.
  - rewrite (write_file_absent A ptyFile perm_0755 d1 HA Hd1).
    destruct (is_dir d1 (removelast A)); cbn [fst snd]; [|discriminate].
    intros _. cbv zeta. cbn [fs trace].
    assert (Hne : B <> A).
    { intros Heq. rewrite Heq in Hmade. rewrite is_dir_lookup in Hmade by exact HA.
      rewrite Hd1 in Hmade. discriminate Hmade. }
    destruct (Hdone (Node (KFile ptyFile) perm_0755 0) Hne) as [Hr Hd].
    split; [exact Hr|]. split; [exact Hd|].
    split; [exact Hne | rewrite <- app_assoc; reflexivity].
Qed.

Lemma inject_agent_leaves_directory_witness :
  is_dir (fs (inject_agent Sample.consts rootfs "ELF-pty" (Sample.boot disk_sbin)).2)
         (Join rootfs (Base (PtyAgentPath Sample.consts))) = true.
Proof.
  refine (proj1 (proj2 (inject_agent_leaves_directory Sample.consts rootfs "ELF-pty"
                          (Sample.boot disk_sbin) _ _))).
  - vm_compute. reflexivity.
  - vm_compute. reflexivity.
Defined.

(** On the sample container with /sbin in its rootfs: the agent is
    written to /sbin/pty and the directory /pty is left in the rootfs. *)
Example inject_agent_on_sample :
  let r := inject_agent Sample.consts rootfs "ELF-pty" (Sample.boot disk_sbin) in
  r.1 = None
  /\ read_file (rootfs ++ ["sbin"; "pty"]) (fs r.2) = Ok "ELF-pty"
  /\ is_dir (fs r.2) (rootfs ++ ["pty"]) = true
  /\ exist disk_sbin (rootfs ++ ["pty"]) = false.
Proof. cbv zeta. repeat split; vm_compute; reflexivity. Qed.

End Injection.
